(** * ai-tradingbot: indicator engine, rule evaluator and position manager

    Shallow embedding of
      - src/utils/position_manager.py    (PositionManager)
      - src/utils/technical_indicators.py (TechnicalIndicators)
      - src/core/data_manager.py          (DataManager.evaluate_all_rules_for_ticker)

    Numbers.  Python floats are modelled by exact rationals [Q]: every
    arithmetic operation is the exact one, and a division whose divisor is
    zero raises [ZeroDivisionError] as it does on Python floats.  Rounding,
    infinities and overflow of binary64 are outside the model.  A pandas
    cell is an [option Q], [None] standing for NaN.

    Exceptions.  A function body that can raise is written in the [result]
    monad; the [try/except] wrapper of the source is the function that
    turns [Raise e] into the value the [except] branch returns. *)

From stdpp Require Import base option list gmap strings pretty.
From Stdlib Require Import ZArith QArith Qround Qminmax Qabs Lqa Lia.

Local Open Scope Q_scope.

(** ** Exceptions and the error monad *)

Inductive exn : Type :=
  | ZeroDivisionError
  | KeyError (key : string)
  | IndexError
  | ValueError (msg : string).

(** [str(e)], as CPython and pandas word it. *)
Definition str_exn (e : exn) : string :=
  match e with
  | ZeroDivisionError => "float division by zero"
  | KeyError k => "'" +:+ k +:+ "'"
  | IndexError => "single positional indexer is out-of-bounds"
  | ValueError m => m
  end.

Inductive result (A : Type) : Type :=
  | Ok (a : A)
  | Raise (e : exn).
Arguments Ok {A} a.
Arguments Raise {A} e.

Definition rbind {A B} (m : result A) (k : A -> result B) : result B :=
  match m with
  | Ok a => k a
  | Raise e => Raise e
  end.

Notation "'let?' x ':=' m 'in' k" := (rbind m (fun x => k))
  (at level 10, x name, m at level 100, k at level 200).

(** ** Floats *)

(** [x / y] on Python floats. *)
Definition fdiv (x y : Q) : result Q :=
  if Qeq_bool y 0 then Raise ZeroDivisionError else Ok (x / y).

(** [int(x)]: truncation toward zero. *)
Definition int_of_float (x : Q) : Z := Z.quot (Qnum x) (Z.pos (Qden x)).

(** [x <= y], [x < y], [x >= y], [x > y] as tests. *)
Definition fle (x y : Q) : bool := Qle_bool x y.
Definition flt (x y : Q) : bool := negb (Qle_bool y x).
Definition fge (x y : Q) : bool := fle y x.
Definition fgt (x y : Q) : bool := flt y x.

(** [f"{x:.2f}"]: two decimals, ties to even. *)
Definition round_half_even (x : Q) : Z :=
  let f := Qfloor x in
  let r := x - inject_Z f in
  if flt r (1 # 2) then f
  else if flt (1 # 2) r then (f + 1)%Z
  else if Z.even f then f else (f + 1)%Z.

Definition format_2f (x : Q) : string :=
  let n := round_half_even (Qabs x * 100) in
  let ip := (n / 100)%Z in
  let fp := (n mod 100)%Z in
  (if flt x 0 then "-" else "")
    +:+ pretty ip +:+ "."
    +:+ (if (fp <? 10)%Z then "0" else "") +:+ pretty fp.

(** ** Position manager (src/utils/position_manager.py) *)

Module PositionManager.

(** The dict returned by [calculate_atr_position_size]. *)
Record PositionSize : Type := {
  shares : Z;
  position_value : Q;
  position_pct : Q;
  sizing_method : string;
  atr_position_pct : Q;
  limit_position_pct : Q;
  atr_value : Q;
  current_price : Q }.

Definition calculate_atr_position_size_body
    (portfolio_value current_price atr_value purchase_limit_pct : Q)
    : result PositionSize :=
  let? r := fdiv atr_value current_price in
  let atr_position_value := portfolio_value * r in
  let? q := fdiv atr_position_value portfolio_value in
  let atr_position_pct := q * 100 in
  let limit_position_value := portfolio_value * (purchase_limit_pct / 100) in
  let limit_position_pct := purchase_limit_pct in
  let '(final_position_value, sizing_method) :=
    if fle atr_position_pct limit_position_pct
    then (atr_position_value, "ATR-based"%string)
    else (limit_position_value, "Limit-based"%string) in
  let? s := fdiv final_position_value current_price in
  let shares := int_of_float s in
  let actual_position_value := inject_Z shares * current_price in
  let? p := fdiv actual_position_value portfolio_value in
  Ok {| shares := shares;
        position_value := actual_position_value;
        position_pct := p * 100;
        sizing_method := sizing_method;
        atr_position_pct := atr_position_pct;
        limit_position_pct := limit_position_pct;
        atr_value := atr_value;
        current_price := current_price |}.

(** The [except] branch logs and returns the empty dict, here [None]. *)
Definition calculate_atr_position_size
    (portfolio_value current_price atr_value purchase_limit_pct : Q)
    : option PositionSize :=
  match calculate_atr_position_size_body
          portfolio_value current_price atr_value purchase_limit_pct with
  | Ok d => Some d
  | Raise _ => None
  end.

(** [result.get('shares', 0)], the way callers read the dict. *)
Definition shares_of (d : option PositionSize) : Z :=
  match d with Some r => shares r | None => 0%Z end.

(** An entry of [averaging_levels] in [should_average_down]. *)
Record Level : Type := {
  level : string;
  atr_threshold : Q;
  pct_threshold : Q;
  confidence : Q }.

(** A tracked position, the value stored under a ticker in
    [self.positions].  [entry_date] is the clock reading at creation. *)
Record AveragingEvent : Type := {
  ae_date : Z; ae_price : Q; ae_shares : Z; ae_level : string }.
Record PartialSale : Type := {
  sale_date : Z; sale_price : Q; sale_shares : Z; sale_reason : string }.
Record Position : Type := {
  entry_price : Q;
  pos_shares : Z;
  pos_value : Q;
  rule_name : string;
  entry_confidence : Q;
  entry_date : Z;
  averaging_levels : list AveragingEvent;
  partial_sales : list PartialSale }.

Abbreviation Positions := (gmap string Position).

(** [max(l, key=...)] on a non-empty list [x :: l]: the first element
    whose key is maximal. *)
Fixpoint max_by {A} (key : A -> Q) (x : A) (l : list A) : A :=
  match l with
  | [] => x
  | y :: l' => max_by key (if fgt (key y) (key x) then y else x) l'
  end.

Definition when {A} (b : bool) (x : A) : list A := if b then [x] else [].

Definition should_average_down_levels
    (current_price entry_price atr_value pct_below_previous_buy : Q)
    : result (Q * list Level) :=
  let price_drop := entry_price - current_price in
  let? d := fdiv price_drop entry_price in
  let price_drop_pct := d * 100 in
  let atr_2x := atr_value * 2 in
  let atr_3x := atr_value * 3 in
  let atr_4x := atr_value * 4 in
  let pct_threshold := entry_price * pct_below_previous_buy in
  let? l2 :=
    if fge price_drop atr_2x then
      let? p := fdiv atr_2x entry_price in
      Ok [ {| level := "2x ATR"; atr_threshold := atr_2x;
              pct_threshold := p * 100; confidence := 7 # 10 |} ]
    else Ok [] in
  let? l3 :=
    if fge price_drop atr_3x then
      let? p := fdiv atr_3x entry_price in
      Ok [ {| level := "3x ATR"; atr_threshold := atr_3x;
              pct_threshold := p * 100; confidence := 8 # 10 |} ]
    else Ok [] in
  let? l4 :=
    if fge price_drop atr_4x then
      let? p := fdiv atr_4x entry_price in
      Ok [ {| level := "4x ATR"; atr_threshold := atr_4x;
              pct_threshold := p * 100; confidence := 9 # 10 |} ]
    else Ok [] in
  let lp :=
    when (fge price_drop pct_threshold)
      {| level := "Percentage"; atr_threshold := pct_threshold;
         pct_threshold := pct_below_previous_buy * 100;
         confidence := 6 # 10 |} in
  Ok (price_drop_pct, l2 ++ l3 ++ l4 ++ lp).

Definition should_average_down_body (positions : Positions)
    (ticker : string)
    (current_price entry_price atr_value pct_below_previous_buy : Q)
    : result (bool * Q * string) :=
  match positions !! ticker with
  | None => Ok (false, 0, "No existing position"%string)
  | Some position =>
    let? drop_levels :=
      should_average_down_levels
        current_price entry_price atr_value pct_below_previous_buy in
    let '(price_drop_pct, averaging_levels) := drop_levels in
    match averaging_levels with
    | [] =>
      Ok (false, 0,
          "Price drop " +:+ format_2f price_drop_pct
            +:+ "% below entry, no averaging levels reached")
    | x :: l =>
      let best_level := max_by confidence x l in
      Ok (true, confidence best_level,
          "Price dropped " +:+ format_2f price_drop_pct
            +:+ "% below entry. " +:+ level best_level
            +:+ " threshold reached.")
    end
  end.

(** The method reads [self.positions] and never writes it; the map is
    threaded through to make that explicit. *)
Definition should_average_down (positions : Positions)
    (ticker : string)
    (current_price entry_price atr_value pct_below_previous_buy : Q)
    : (bool * Q * string) * Positions :=
  (match should_average_down_body positions ticker
           current_price entry_price atr_value pct_below_previous_buy with
   | Ok r => r
   | Raise e => (false, 0, "Error: " +:+ str_exn e)
   end, positions).





Definition should_take_partial_profit_body (positions : Positions)
    (ticker : string) (current_price entry_price sma_200 : Q)
    : result (bool * Q * string) :=
  match positions !! ticker with
  | None => Ok (false, 0, "No existing position"%string)
  | Some position =>
    let sma_200_50pct_above := sma_200 * (15 # 10) in
    if fge current_price sma_200_50pct_above then
      let? d := fdiv (current_price - entry_price) entry_price in
      let profit_pct := d * 100 in
      let reasoning :=
        "Price " +:+ format_2f current_price
          +:+ " is 50%+ above 200 SMA (" +:+ format_2f sma_200
          +:+ "). Profit: " +:+ format_2f profit_pct +:+ "%" in
      let confidence :=
        if fge profit_pct 100 then 95 # 100
        else if fge profit_pct 75 then 9 # 10
        else if fge profit_pct 50 then 85 # 100
        else 8 # 10 in
      Ok (true, confidence, reasoning)
    else
      Ok (false, 0,
          "Price " +:+ format_2f current_price
            +:+ " not yet 50% above 200 SMA (" +:+ format_2f sma_200 +:+ ")")
  end.

Definition should_take_partial_profit (positions : Positions)
    (ticker : string) (current_price entry_price sma_200 : Q)
    : (bool * Q * string) * Positions :=
  (match should_take_partial_profit_body positions ticker
           current_price entry_price sma_200 with
   | Ok r => r
   | Raise e => (false, 0, "Error: " +:+ str_exn e)
   end, positions).

(** [add_position]: the entry stored for a ticker, at clock reading [now]. *)
Definition add_position (positions : Positions) (now : Z)
    (ticker : string) (entry_price : Q) (shares : Z) (position_value : Q)
    (rule_name : string) (confidence : Q) : Positions :=
  <[ ticker := {| entry_price := entry_price;
                  pos_shares := shares;
                  pos_value := position_value;
                  rule_name := rule_name;
                  entry_confidence := confidence;
                  entry_date := now;
                  averaging_levels := [];
                  partial_sales := [] |} ]> positions.

End PositionManager.


(** ** Indicator engine (src/utils/technical_indicators.py) *)

Module TechnicalIndicators.

(** A row of the OHLCV frame; the frame is the list of its rows, oldest
    first.  Prices are numbers: the vendor frame holds no NaN. *)
Record Bar : Type := {
  open : Q; high : Q; low : Q; close : Q; volume : Q }.

Abbreviation DataFrame := (list Bar).

(** A pandas Series of floats, [None] being NaN. *)
Abbreviation Series := (list (option Q)).

Definition closes (data : DataFrame) : list Q := map close data.
Definition highs (data : DataFrame) : list Q := map high data.

(** *** pandas primitives *)

Definition sum_Q (l : list Q) : Q := foldr Qplus 0 l.

(** [Series.mean()]: NaN on an empty series. *)
Definition mean (l : list Q) : option Q :=
  match l with
  | [] => None
  | _ => Some (sum_Q l / inject_Z (Z.of_nat (length l)))
  end.

(** Maximum of a window, NaN on an empty one. *)
Definition maximum (l : list Q) : option Q :=
  match l with
  | [] => None
  | x :: l' => Some (foldl Qmax x l')
  end.

(** The [period] values ending at index [i]. *)
Definition window (period i : nat) (l : list Q) : list Q :=
  take period (drop (S i - period) l).

(** [s.rolling(window=period).agg()]: NaN until [period] values are
    available ([min_periods] defaults to the window size). *)
Definition rolling (agg : list Q -> option Q) (period : nat) (l : list Q)
    : Series :=
  map (fun i => if (S i <? period)%nat then None else agg (window period i l))
      (seq 0 (length l)).

(** [s.ewm(...).mean()] on a series without NaN, as pandas computes it:
    a running weighted average [weighted] with the weight [old_wt] of the
    past; [adjust=True] lets the past weight accumulate, [adjust=False]
    resets it to 1 and gives the new value weight [alpha]. *)
Fixpoint ewm_from (adjust : bool) (alpha weighted old_wt : Q) (vals : list Q)
    : list Q :=
  match vals with
  | [] => []
  | cur :: vals' =>
    let old_wt1 := old_wt * (1 - alpha) in
    let new_wt := if adjust then 1 else alpha in
    let weighted' := (old_wt1 * weighted + new_wt * cur) / (old_wt1 + new_wt) in
    let old_wt' := if adjust then old_wt1 + new_wt else 1 in
    weighted' :: ewm_from adjust alpha weighted' old_wt' vals'
  end.

Definition ewm_mean (adjust : bool) (alpha : Q) (vals : list Q) : list Q :=
  match vals with
  | [] => []
  | x :: vals' => x :: ewm_from adjust alpha x 1 vals'
  end.

(** *** Indicators *)

(** [data['close'].rolling(window=period).mean()] *)
Definition calculate_sma (data : DataFrame) (period : nat) : Series :=
  rolling mean period (closes data).

(** [data['close'].ewm(span=period).mean()]: [adjust] keeps its default
    [True]; pandas rejects a span below 1. *)
Definition calculate_ema (data : DataFrame) (period : nat) : result Series :=
  if (period <? 1)%nat then Raise (ValueError "span must satisfy: span >= 1")
  else
    let alpha := 2 / (inject_Z (Z.of_nat period) + 1) in
    Ok (map Some (ewm_mean true alpha (closes data))).

(** True range per bar: the row-wise maximum of [high - low],
    [|high - prev close|] and [|low - prev close|], NaN skipped (the first
    row has no previous close). *)
Fixpoint true_range_from (prev_close : option Q) (data : DataFrame) : list Q :=
  match data with
  | [] => []
  | b :: data' =>
    let high_low := high b - low b in
    (match prev_close with
     | None => high_low
     | Some c => Qmax (Qmax high_low (Qabs (high b - c))) (Qabs (low b - c))
     end) :: true_range_from (Some (close b)) data'
  end.

Definition true_range (data : DataFrame) : list Q := true_range_from None data.

Definition zeros (data : DataFrame) : Series := map (fun _ => Some 0) data.

Definition calculate_atr_body (data : DataFrame) (period : nat)
    : result Series :=
  if (length data <? period)%nat then Ok (zeros data)
  else
    let? alpha := fdiv 1 (inject_Z (Z.of_nat period)) in
    Ok (map Some (ewm_mean false alpha (true_range data))).

(** [calculate_atr(data, period, factor)]; [factor] is not used by the
    source. *)
Definition calculate_atr (data : DataFrame) (period : nat) : Series :=
  match calculate_atr_body data period with
  | Ok s => s
  | Raise _ => zeros data
  end.

(** Element-wise [a - b] of two series on the same index. *)
Definition series_sub (a b : Series) : Series :=
  zip_with (fun x y =>
              match x, y with
              | Some u, Some v => Some (u - v)
              | _, _ => None
              end) a b.

Definition calculate_atr_trailing_stop (data : DataFrame) (period : nat)
    : Series :=
  let atr := calculate_atr data period in
  let highest_high := rolling maximum period (highs data) in
  series_sub highest_high atr.

(** The dict built by [calculate_all_indicators]: the frame under ['data']
    and a float series under every other key.  The empty dict is
    [no_indicators].  The logger is taken to be set, as every owner of a
    [TechnicalIndicators] does before use, so that logging never raises. *)
Record Indicators : Type := {
  ind_data : option DataFrame;
  ind_series : gmap string Series }.

Definition no_indicators : Indicators :=
  {| ind_data := None; ind_series := ∅ |}.

Section AllIndicators.

(** [calculate_nymo] divides by a rolling standard deviation, which has
    no exact rational value; the series it returns is a parameter. *)
Variable calculate_nymo : DataFrame -> Series.

Definition calculate_all_indicators_body (data : DataFrame)
    (ticker period : string) : result Indicators :=
  match data with
  | [] => Ok no_indicators
  | _ =>
    let? ema_10 := calculate_ema data 10 in
    let? ema_20 := calculate_ema data 20 in
    let? ema_40 := calculate_ema data 40 in
    let m : gmap string Series :=
      <["atr_trailing_stop" := calculate_atr_trailing_stop data 5]>
      (<["atr" := calculate_atr data 5]>
      (<["ema_40" := ema_40]>
      (<["ema_20" := ema_20]>
      (<["ema_10" := ema_10]>
      (<["sma_200" := calculate_sma data 200]>
      (<["sma_50" := calculate_sma data 50]>
      (<["sma_21" := calculate_sma data 21]> ∅))))))) in
    Ok {| ind_data := Some data;
          ind_series :=
            if String.eqb period "D"
            then <["nymo" := calculate_nymo data]> m else m |}
  end.

(** The boolean series [above_previous_N_days] that the source also
    stores are read by no rule and are left out of the map. *)
Definition calculate_all_indicators (data : DataFrame)
    (ticker period : string) : Indicators :=
  match calculate_all_indicators_body data ticker period with
  | Ok i => i
  | Raise _ => no_indicators
  end.

End AllIndicators.

(** *** Rule evaluation *)

(** A rule of rules.json: a dict whose keys may be absent. *)
Record StockConfig : Type := { purchase_limit_pct : option Q }.

Record Rule : Type := {
  r_name : option string;
  r_type : option string;
  r_priority : option Z;
  r_period : option string;
  r_interval : option string;
  r_length : option Z;
  r_previous_days : option Z;
  r_nymo_threshold : option Z;
  r_stocks : option (gmap string StockConfig) }.

(** [sub in s] *)
Fixpoint contains (sub s : string) : bool :=
  String.prefix sub s ||
  match s with
  | EmptyString => false
  | String _ s' => contains sub s'
  end.

(** [l.iloc[-k]] for [k >= 1] *)
Definition iloc_neg {A} (k : nat) (l : list A) : result A :=
  if (List.length l <? k)%nat then Raise IndexError
  else match l !! (List.length l - k)%nat with
       | Some x => Ok x
       | None => Raise IndexError
       end.

(** [data['close'].tail(n)]: the last [n] rows, or all but the first
    [-n] when [n] is negative. *)
Definition tail (n : Z) (l : list Q) : list Q :=
  if (n <? 0)%Z then drop (Z.to_nat (- n)) l
  else drop (List.length l - Z.to_nat n) l.

(** Comparisons of a price with a cell; false on NaN. *)
Definition gt_cell (x : Q) (c : option Q) : bool :=
  match c with Some y => fgt x y | None => false end.
Definition lt_cell (x : Q) (c : option Q) : bool :=
  match c with Some y => flt x y | None => false end.

(** [indicators.get(key, pd.Series([0]))] *)
Definition get_series (indicators : Indicators) (key : string) : Series :=
  default [Some 0] (ind_series indicators !! key).

(** The test every crossing branch makes: the previous close above the
    previous reference value and the current close below the current one. *)
Definition crossed_below (data : DataFrame) (current_price : Q)
    (ref : Series) : result bool :=
  let? prev_price := iloc_neg 2 (closes data) in
  let? prev_ref := iloc_neg 2 ref in
  let? current_ref := iloc_neg 1 ref in
  Ok (gt_cell prev_price prev_ref && lt_cell current_price current_ref).

(** The running state of an evaluation: [signal_triggered], [confidence]
    and the [reasoning] list. *)
Abbreviation Verdict := (bool * Q * list string)%type.

(** The confirmation step after a crossing: price above every listed
    longer-horizon value adds 0.1, otherwise 0.2 is taken off. *)
Definition confirm (current_price : Q) (vals : list (option Q))
    (confidence : Q) (reasoning : list string) (above below : string)
    : Verdict :=
  if forallb (gt_cell current_price) vals
  then (true, confidence + (1 # 10), reasoning ++ [above])
  else (true, confidence - (2 # 10), reasoning ++ [below]).

Definition sma_cross_rule (rule_name : string) (priority length : Z)
    (indicators : Indicators) (data : DataFrame) (current_price : Q)
    (confidence : Q) (reasoning : list string) : result Verdict :=
  let sma := get_series indicators ("sma_" +:+ pretty length) in
  let crossed := "Price crossed below " +:+ pretty length +:+ "-period SMA" in
  if contains "21" rule_name then
    if (2 <=? List.length sma)%nat then
      let? c := crossed_below data current_price sma in
      if c then
        let confidence := 8 # 10 in
        let reasoning := reasoning ++ [crossed] in
        if (priority <=? 2)%Z then
          let sma_50 := get_series indicators "sma_50" in
          let sma_200 := get_series indicators "sma_200" in
          if (0 <? List.length sma_50)%nat && (0 <? List.length sma_200)%nat then
            let? sma_50_val := iloc_neg 1 sma_50 in
            let? sma_200_val := iloc_neg 1 sma_200 in
            Ok (confirm current_price [sma_50_val; sma_200_val]
                  confidence reasoning
                  "Price above 50 and 200 SMA" "Price below 50 or 200 SMA")
          else Ok (true, confidence, reasoning)
        else Ok (true, confidence, reasoning)
      else Ok (false, confidence, reasoning)
    else Ok (false, confidence, reasoning)
  else if contains "50" rule_name then
    if (2 <=? List.length sma)%nat then
      let? c := crossed_below data current_price sma in
      if c then
        let confidence := 7 # 10 in
        let reasoning := reasoning ++ [crossed] in
        if (priority =? 2)%Z then
          let sma_200 := get_series indicators "sma_200" in
          if (0 <? List.length sma_200)%nat then
            let? sma_200_val := iloc_neg 1 sma_200 in
            Ok (confirm current_price [sma_200_val] confidence reasoning
                  "Price above 200 SMA" "Price below 200 SMA")
          else Ok (true, confidence, reasoning)
        else Ok (true, confidence, reasoning)
      else Ok (false, confidence, reasoning)
    else Ok (false, confidence, reasoning)
  else if contains "200" rule_name then
    if (2 <=? List.length sma)%nat then
      let? c := crossed_below data current_price sma in
      if c then Ok (true, 6 # 10, reasoning ++ [crossed])
      else Ok (false, confidence, reasoning)
    else Ok (false, confidence, reasoning)
  else Ok (false, confidence, reasoning).

Definition ema_cross_rule (rule_name : string) (length : Z)
    (indicators : Indicators) (data : DataFrame) (current_price : Q)
    (confidence : Q) (reasoning : list string) : result Verdict :=
  let ema := get_series indicators ("ema_" +:+ pretty length) in
  let crossed := "Price crossed below " +:+ pretty length +:+ "-period EMA" in
  if contains "10" rule_name then
    let ema_20 := get_series indicators "ema_20" in
    let ema_40 := get_series indicators "ema_40" in
    let sma_200 := get_series indicators "sma_200" in
    if (2 <=? List.length ema)%nat && (0 <? List.length ema_20)%nat
       && (0 <? List.length ema_40)%nat then
      let? c := crossed_below data current_price ema in
      if c then
        let? ema_20_val := iloc_neg 1 ema_20 in
        let? ema_40_val := iloc_neg 1 ema_40 in
        let? sma_200_val := iloc_neg 1 sma_200 in
        Ok (confirm current_price [ema_20_val; ema_40_val; sma_200_val]
              (75 # 100) (reasoning ++ [crossed])
              "Price above 20, 40, and 200 SMA"
              "Price below 20, 40, or 200 SMA")
      else Ok (false, confidence, reasoning)
    else Ok (false, confidence, reasoning)
  else if contains "20" rule_name then
    let ema_40 := get_series indicators "ema_40" in
    let sma_200 := get_series indicators "sma_200" in
    if (2 <=? List.length ema)%nat && (0 <? List.length ema_40)%nat
       && (0 <? List.length sma_200)%nat then
      let? c := crossed_below data current_price ema in
      if c then
        let? ema_40_val := iloc_neg 1 ema_40 in
        let? sma_200_val := iloc_neg 1 sma_200 in
        Ok (confirm current_price [ema_40_val; sma_200_val]
              (7 # 10) (reasoning ++ [crossed])
              "Price above 40 and 200 SMA" "Price below 40 or 200 SMA")
      else Ok (false, confidence, reasoning)
    else Ok (false, confidence, reasoning)
  else if contains "40" rule_name then
    let sma_200 := get_series indicators "sma_200" in
    if (2 <=? List.length ema)%nat && (0 <? List.length sma_200)%nat then
      let? c := crossed_below data current_price ema in
      if c then
        let? sma_200_val := iloc_neg 1 sma_200 in
        Ok (confirm current_price [sma_200_val]
              (65 # 100) (reasoning ++ [crossed])
              "Price above 200 SMA" "Price below 200 SMA")
      else Ok (false, confidence, reasoning)
    else Ok (false, confidence, reasoning)
  else Ok (false, confidence, reasoning).

Definition atr_rule (indicators : Indicators) (data : DataFrame)
    (current_price : Q) (confidence : Q) (reasoning : list string)
    : result Verdict :=
  let atr_trailing_stop := get_series indicators "atr_trailing_stop" in
  if (2 <=? List.length atr_trailing_stop)%nat then
    let? c := crossed_below data current_price atr_trailing_stop in
    if c then
      Ok (true, 7 # 10, reasoning ++ ["Price crossed below ATR trailing stop"])
    else
      Ok (false, confidence - (3 # 10),
          reasoning ++ ["Price did not cross below ATR trailing stop"])
  else Ok (false, confidence, reasoning).

Definition nymo_rule (rule : Rule) (indicators : Indicators)
    (confidence : Q) (reasoning : list string) : result Verdict :=
  let nymo_threshold := default (-50)%Z (r_nymo_threshold rule) in
  let nymo_value := get_series indicators "nymo" in
  if (0 <? List.length nymo_value)%nat then
    let? nymo_val := iloc_neg 1 nymo_value in
    if match nymo_val with
       | Some v => flt v (inject_Z nymo_threshold)
       | None => false
       end
    then
      Ok (true,
          if (nymo_threshold =? -100)%Z then 95 # 100
          else if (nymo_threshold =? -70)%Z then 9 # 10
          else 8 # 10,
          reasoning ++ ["NYMO below " +:+ pretty nymo_threshold])
    else Ok (false, confidence, reasoning)
  else Ok (false, confidence, reasoning).

(** The ['previous_days' in rule] gate.  [inl] is the early return of the
    veto; [inr] carries the confidence and reasoning into the rule logic. *)
Definition previous_days_gate (rule : Rule) (data : DataFrame)
    (current_price : Q) : (Q * list string) + (Q * list string) :=
  match r_previous_days rule with
  | None => inr (0, [])
  | Some previous_days =>
    if (previous_days <=? Z.of_nat (List.length data))%Z then
      let previous_avg := mean (tail previous_days (closes data)) in
      if gt_cell current_price previous_avg then
        inr (0 + (2 # 10),
             ["Price above previous " +:+ pretty previous_days
                +:+ " days average"])
      else
        inl (0 - (3 # 10),
             ["Price below previous " +:+ pretty previous_days
                +:+ " days average"])
    else inr (0, [])
  end.

Definition join (l : list string) : string := String.concat "; " l.

Definition evaluate_trading_rule_body (ticker : string) (rule : Rule)
    (indicators : Indicators) : result (bool * Q * string) :=
  let rule_name := default ""%string (r_name rule) in
  let priority := default 5%Z (r_priority rule) in
  let length := default 21%Z (r_length rule) in
  let? data :=
    match ind_data indicators with
    | Some d => Ok d
    | None => Raise (KeyError "data")
    end in
  let? current_price := iloc_neg 1 (closes data) in
  match previous_days_gate rule data current_price with
  | inl (confidence, reasoning) => Ok (false, confidence, join reasoning)
  | inr (confidence, reasoning) =>
    let? v :=
      if contains "sma_cross" rule_name then
        sma_cross_rule rule_name priority length indicators data
          current_price confidence reasoning
      else if contains "ema_cross" rule_name then
        ema_cross_rule rule_name length indicators data
          current_price confidence reasoning
      else if contains "atr" rule_name then
        atr_rule indicators data current_price confidence reasoning
      else if contains "nymo" rule_name then
        nymo_rule rule indicators confidence reasoning
      else Ok (false, confidence, reasoning) in
    let '(signal_triggered, confidence, reasoning) := v in
    if signal_triggered then
      let priority_boost := inject_Z (10 - priority) * (5 # 100) in
      Ok (true, Qmin 1 (confidence + priority_boost),
          join (reasoning ++ ["Priority " +:+ pretty priority +:+ " rule"]))
    else Ok (false, confidence, join reasoning)
  end.

Definition evaluate_trading_rule (ticker : string) (rule : Rule)
    (indicators : Indicators) : bool * Q * string :=
  match evaluate_trading_rule_body ticker rule indicators with
  | Ok r => r
  | Raise e => (false, 0, "Error: " +:+ str_exn e)
  end.

End TechnicalIndicators.

(** ** Rule evaluation per ticker (src/core/data_manager.py) *)

Module DataManager.

Import TechnicalIndicators.

(** The signal dict appended for a triggered rule.  Its ['timestamp']
    (the wall clock at creation) is not modelled. *)
Record Signal : Type := {
  sig_ticker : string;
  sig_rule_name : string;
  sig_rule_type : string;
  sig_priority : Z;
  sig_signal : string;
  sig_confidence : Q;
  sig_reasoning : string;
  sig_period : string;
  sig_interval : string;
  sig_stock_config : StockConfig;
  sig_indicators : Indicators }.

(** [rule[key]] *)
Definition getitem {A} (key : string) (v : option A) : result A :=
  match v with
  | Some a => Ok a
  | None => Raise (KeyError key)
  end.

(** [get_ticker_rules] *)
Definition get_ticker_rules (trading_rules : list Rule) (ticker : string)
    : list Rule :=
  List.filter (fun rule =>
                 match r_stocks rule with
                 | Some stocks => bool_decide (is_Some (stocks !! ticker))
                 | None => false
                 end) trading_rules.

(** [signals.sort(key=lambda x: x['priority'])]: stable, ascending. *)
Fixpoint insert_by_priority (s : Signal) (l : list Signal) : list Signal :=
  match l with
  | [] => [s]
  | x :: l' =>
    if (sig_priority s <=? sig_priority x)%Z then s :: l
    else x :: insert_by_priority s l'
  end.

Definition sort_by_priority (l : list Signal) : list Signal :=
  foldr insert_by_priority [] l.

Section EvaluateAll.

(** The data manager's caches and clock, and
    [calculate_indicators_for_ticker], which reads and updates them and
    returns [None] when no data is available. *)
Variable St : Type.
Variable calculate_indicators_for_ticker :
  string -> string -> string -> St -> option Indicators * St.

Definition make_signal (ticker : string) (rule : Rule)
    (period interval : string) (indicators : Indicators)
    (confidence : Q) (reasoning : string) : result Signal :=
  let? stocks := getitem "stocks" (r_stocks rule) in
  let stock_config :=
    default {| purchase_limit_pct := None |} (stocks !! ticker) in
  let? rule_name := getitem "name" (r_name rule) in
  let? rule_type := getitem "type" (r_type rule) in
  let? priority := getitem "priority" (r_priority rule) in
  Ok {| sig_ticker := ticker;
        sig_rule_name := rule_name;
        sig_rule_type := rule_type;
        sig_priority := priority;
        sig_signal := if String.eqb rule_type "buy" then "BUY" else "SELL";
        sig_confidence := confidence;
        sig_reasoning := reasoning;
        sig_period := period;
        sig_interval := interval;
        sig_stock_config := stock_config;
        sig_indicators := indicators |}.

(** The [for rule in ticker_rules] loop, with the signals collected so
    far. *)
Fixpoint evaluate_rules (ticker : string) (rules : list Rule)
    (signals : list Signal) (st : St) : result (list Signal) * St :=
  match rules with
  | [] => (Ok signals, st)
  | rule :: rules' =>
    let period := default "D"%string (r_period rule) in
    let interval := default "365d"%string (r_interval rule) in
    match calculate_indicators_for_ticker ticker period interval st with
    | (None, st') => evaluate_rules ticker rules' signals st'
    | (Some indicators, st') =>
      match evaluate_trading_rule ticker rule indicators with
      | (true, confidence, reasoning) =>
        match make_signal ticker rule period interval indicators
                confidence reasoning with
        | Ok signal => evaluate_rules ticker rules' (signals ++ [signal]) st'
        | Raise e => (Raise e, st')
        end
      | (false, _, _) => evaluate_rules ticker rules' signals st'
      end
    end
  end.

Definition evaluate_all_rules_for_ticker (trading_rules : list Rule)
    (ticker : string) (st : St) : list Signal * St :=
  match evaluate_rules ticker (get_ticker_rules trading_rules ticker) [] st with
  | (Ok signals, st') => (sort_by_priority signals, st')
  | (Raise _, st') => ([], st')
  end.

End EvaluateAll.

End DataManager.


(** * Further functions of the same files and of their callers *)

(** ** Position log (src/utils/position_manager.py) *)

Module PositionTracking.

Import PositionManager.

(** The keyword arguments [update_position] reads with [kwargs.get]:
    [price] and [shares] for both actions, [level] for an averaging
    event, [reason] for a partial sale.  They are taken to be supplied. *)
Record UpdateArgs : Type := {
  kw_price : Q;
  kw_shares : Z;
  kw_level : string;
  kw_reason : string }.

(** [update_position], at clock reading [now]. *)
Definition update_position (positions : Positions) (now : Z)
    (ticker action : string) (kwargs : UpdateArgs) : Positions :=
  match positions !! ticker with
  | None => positions
  | Some position =>
    if String.eqb action "average_down" then
      <[ ticker :=
           {| entry_price := entry_price position;
              pos_shares := pos_shares position;
              pos_value := pos_value position;
              rule_name := rule_name position;
              entry_confidence := entry_confidence position;
              entry_date := entry_date position;
              averaging_levels :=
                averaging_levels position
                ++ [ {| ae_date := now; ae_price := kw_price kwargs;
                        ae_shares := kw_shares kwargs;
                        ae_level := kw_level kwargs |} ];
              partial_sales := partial_sales position |} ]> positions
    else if String.eqb action "partial_sale" then
      <[ ticker :=
           {| entry_price := entry_price position;
              pos_shares := pos_shares position;
              pos_value := pos_value position;
              rule_name := rule_name position;
              entry_confidence := entry_confidence position;
              entry_date := entry_date position;
              averaging_levels := averaging_levels position;
              partial_sales :=
                partial_sales position
                ++ [ {| sale_date := now; sale_price := kw_price kwargs;
                        sale_shares := kw_shares kwargs;
                        sale_reason := kw_reason kwargs |} ] |} ]> positions
    else positions
  end.

(** The dict returned by [get_position_summary] for a tracked ticker. *)
Record PositionSummary : Type := {
  sum_ticker : string;
  sum_entry_price : Q;
  sum_total_shares : Z;
  sum_entry_value : Q;
  sum_rule_name : string;
  sum_entry_confidence : Q;
  sum_entry_date : Z;
  sum_averaging_count : nat;
  sum_partial_sales_count : nat;
  sum_averaging_levels : list AveragingEvent;
  sum_partial_sales : list PartialSale }.

(** [get_position_summary]; the empty dict of an untracked ticker is
    [None]. *)
Definition get_position_summary (positions : Positions) (ticker : string)
    : option PositionSummary :=
  match positions !! ticker with
  | None => None
  | Some position =>
    Some {| sum_ticker := ticker;
            sum_entry_price := entry_price position;
            sum_total_shares := pos_shares position;
            sum_entry_value := pos_value position;
            sum_rule_name := rule_name position;
            sum_entry_confidence := entry_confidence position;
            sum_entry_date := entry_date position;
            sum_averaging_count := length (averaging_levels position);
            sum_partial_sales_count := length (partial_sales position);
            sum_averaging_levels := averaging_levels position;
            sum_partial_sales := partial_sales position |}
  end.

(** [get_all_positions]: the summary of every tracked ticker. *)
Definition get_all_positions (positions : Positions)
    : gmap string PositionSummary :=
  map_imap (fun ticker _ => get_position_summary positions ticker) positions.

(** A call of [update_position] and a sequence of such calls. *)
Record Update : Type := {
  u_now : Z; u_ticker : string; u_action : string; u_kwargs : UpdateArgs }.

Definition apply_update (positions : Positions) (u : Update) : Positions :=
  update_position positions (u_now u) (u_ticker u) (u_action u) (u_kwargs u).

Definition apply_updates (positions : Positions) (us : list Update)
    : Positions :=
  foldl apply_update positions us.

(** The calls among [us] that record [action] for [ticker]. *)
Definition count_updates (ticker action : string) (us : list Update) : nat :=
  length (List.filter
            (fun u => String.eqb (u_ticker u) ticker
                      && String.eqb (u_action u) action) us).

End PositionTracking.

(** ** ATR sizing (src/utils/technical_indicators.py) *)

Module AtrSizing.

Import TechnicalIndicators.






(** A bar whose low does not exceed its high. *)
Definition valid_bar (b : Bar) : Prop := low b <= high b.

(** Every number of the series lies between [lo] and [hi]. *)
Definition cells_within (lo hi : Q) (s : Series) : Prop :=
  Forall (fun c => match c with
                   | Some v => lo <= v /\ v <= hi
                   | None => True
                   end) s.

End AtrSizing.

(** ** Rule variants used to state properties of the evaluator *)

Module RuleEdits.

Import TechnicalIndicators.

(** The rule without its ['previous_days'] key. *)
Definition without_previous_days (rule : Rule) : Rule :=
  {| r_name := r_name rule;
     r_type := r_type rule;
     r_priority := r_priority rule;
     r_period := r_period rule;
     r_interval := r_interval rule;
     r_length := r_length rule;
     r_previous_days := None;
     r_nymo_threshold := r_nymo_threshold rule;
     r_stocks := r_stocks rule |}.

End RuleEdits.

(** ** Branch selection of the rule evaluator *)

Module RuleBranches.

Import TechnicalIndicators.

(** The rule name reaches the [elif 'nymo' in rule_name] branch. *)
Definition selects_nymo (rule : Rule) : bool :=
  let rule_name := default ""%string (r_name rule) in
  negb (contains "sma_cross" rule_name)
  && negb (contains "ema_cross" rule_name)
  && negb (contains "atr" rule_name)
  && contains "nymo" rule_name.

End RuleBranches.

(** ** Tickers of the rule list (src/core/data_manager.py) *)

Module TickerRules.

Import TechnicalIndicators DataManager.

(** [get_all_tickers].  The list made from the set has no order of its
    own; the set is returned as it is. *)
Definition get_all_tickers (trading_rules : list Rule) : gset string :=
  foldl (fun tickers rule =>
           match r_stocks rule with
           | Some stocks => tickers ∪ dom stocks
           | None => tickers
           end) ∅ trading_rules.

(** The priorities of the signals never decrease along the list. *)
Fixpoint ascending (l : list Signal) : Prop :=
  match l with
  | [] => True
  | x :: l' =>
    Forall (fun y => (sig_priority x <= sig_priority y)%Z) l' /\ ascending l'
  end.

(** The signal is the one [rule] gives for [ticker]. *)
Definition signal_of_rule (ticker : string) (rule : Rule) (s : Signal)
    : Prop :=
  exists stocks,
    r_stocks rule = Some stocks
    /\ is_Some (stocks !! ticker)
    /\ sig_ticker s = ticker
    /\ r_name rule = Some (sig_rule_name s)
    /\ r_type rule = Some (sig_rule_type s)
    /\ r_priority rule = Some (sig_priority s)
    /\ sig_signal s
       = (if String.eqb (sig_rule_type s) "buy" then "BUY" else "SELL")%string
    /\ sig_period s = default "D"%string (r_period rule)
    /\ sig_interval s = default "365d"%string (r_interval rule)
    /\ stocks !! ticker = Some (sig_stock_config s)
    /\ (evaluate_trading_rule ticker rule (sig_indicators s)).1.1 = true
    /\ sig_confidence s
       = (evaluate_trading_rule ticker rule (sig_indicators s)).1.2.

End TickerRules.

(** ** Callers of the rule evaluation
    (src/agents/analysis_agent.py, src/agents/master_agent.py) *)

Module Agents.

Import TechnicalIndicators DataManager.

(** [a <= b] on the sort keys [(priority, confidence)], compared as
    tuples. *)
Definition key_le (a b : Signal) : bool :=
  (sig_priority a <? sig_priority b)%Z
  || ((sig_priority a =? sig_priority b)%Z
      && fle (sig_confidence a) (sig_confidence b)).

(** [enhanced_signals.sort(key=lambda x: (x['priority'], x['confidence']),
    reverse=True)]: descending, signals of equal key keep their order. *)
Fixpoint insert_descending (s : Signal) (l : list Signal) : list Signal :=
  match l with
  | [] => [s]
  | x :: l' =>
    if key_le x s then s :: l else x :: insert_descending s l'
  end.

Definition sort_descending (l : list Signal) : list Signal :=
  foldr insert_descending [] l.

Section AnalyzeTicker.

Variable St : Type.
Variable calculate_indicators_for_ticker :
  string -> string -> string -> St -> option Indicators * St.

(** [AnalysisAgent.analyze_ticker].  [enhance_signal_analysis] copies
    each signal and adds analysis keys to the copy, or hands the signal
    back when it fails; the keys of [Signal] stay as they are and the
    added ones are not represented. *)
Definition analyze_ticker (trading_rules : list Rule) (ticker : string)
    (st : St) : list Signal * St :=
  match evaluate_all_rules_for_ticker St calculate_indicators_for_ticker
          trading_rules ticker st with
  | ([], st') => ([], st')
  | (signals, st') => (sort_descending signals, st')
  end.

End AnalyzeTicker.

(** The news dict of a ticker, as far as the fallback decision reads it:
    ['overall_sentiment'] holds a dict whose ['overall_sentiment'] is the
    label; either key may be absent. *)
Record News : Type := { overall_sentiment : option (option string) }.

Record SignalCorrelation : Type := {
  primary_rule : string;
  rule_priority : Z;
  rule_confidence : Q;
  total_signals : nat }.

(** The dict returned by [_rule_based_decision]; its ['timestamp'] and
    ['agent_id'] are not represented. *)
Record Decision : Type := {
  d_ticker : string;
  d_action : string;
  d_confidence : Q;
  d_position_size_pct : Q;
  d_reasoning : string;
  d_entry_strategy : string;
  d_exit_strategy : string;
  d_risk_management : string;
  d_decision_method : string;
  d_signal_correlation : option SignalCorrelation }.

(** [MasterAgent._rule_based_decision]; [ticker_news] is [None] for an
    empty dict. *)
Definition rule_based_decision (ticker : string)
    (ticker_signals : list Signal) (ticker_news : option News) : Decision :=
  match ticker_signals with
  | [] =>
    {| d_ticker := ticker; d_action := "HOLD"; d_confidence := 0;
       d_position_size_pct := 0;
       d_reasoning := "No technical signals generated";
       d_entry_strategy := "N/A"; d_exit_strategy := "N/A";
       d_risk_management := "N/A";
       d_decision_method := "rule_based_fallback";
       d_signal_correlation := None |}
  | primary_signal :: _ =>
    let action := sig_signal primary_signal in
    let confidence := sig_confidence primary_signal in
    let position_size_pct := Qmin (confidence * 5) 10 in
    let reasoning :=
      ("Rule-based decision: " +:+ sig_rule_name primary_signal
         +:+ " triggered with " +:+ format_2f confidence
         +:+ " confidence. " +:+ sig_reasoning primary_signal)%string in
    let reasoning :=
      match ticker_news with
      | Some news =>
        let news_sentiment :=
          default "neutral"%string
            (default None (overall_sentiment news)) in
        (reasoning +:+ " News sentiment: " +:+ news_sentiment +:+ ".")%string
      | None => reasoning
      end in
    {| d_ticker := ticker; d_action := action; d_confidence := confidence;
       d_position_size_pct := position_size_pct;
       d_reasoning := reasoning;
       d_entry_strategy := "Market order based on signal";
       d_exit_strategy := "Based on technical levels";
       d_risk_management := "Standard position sizing";
       d_decision_method := "rule_based_fallback";
       d_signal_correlation :=
         Some {| primary_rule := sig_rule_name primary_signal;
                 rule_priority := sig_priority primary_signal;
                 rule_confidence := confidence;
                 total_signals := length ticker_signals |} |}
  end.

End Agents.

(** ** Market-breadth oscillator (src/utils/enhanced_nymo.py) *)

Module EnhancedNYMO.

Import TechnicalIndicators.

(** The keys of the market-data dict that are read; either may be
    absent.  The counts are integers. *)
Record MarketData : Type := {
  md_advancing : option Z;
  md_declining : option Z }.

(** The two histories the object keeps. *)
Record History : Type := {
  advancing_issues : list Z;
  declining_issues : list Z }.

(** The histories of a new object. *)
Definition init : History :=
  {| advancing_issues := []; declining_issues := [] |}.

(** [l[-m:]]: the last [m] items for a positive [m], the whole list for
    0, the list without its first [-m] items for a negative [m]. *)
Definition slice_last {A} (m : Z) (l : list A) : list A :=
  if (0 <? m)%Z then drop (length l - Z.to_nat m) l
  else drop (Z.to_nat (- m)) l.

(** [data[-1] if data else 0.0] *)
Definition last_or_zero (data : list Z) : Q :=
  match last data with
  | Some x => inject_Z x
  | None => 0
  end.

Definition calculate_ema_body (data : list Z) (period : Z) : result Q :=
  if (Z.of_nat (length data) <? period)%Z then Ok (last_or_zero data)
  else if (period <? 1)%Z then
    Raise (ValueError "span must satisfy: span >= 1")
  else
    let alpha := 2 / (inject_Z period + 1) in
    iloc_neg 1 (ewm_mean false alpha (map inject_Z data)).

(** [_calculate_ema]: the last value of
    [series.ewm(span=period, adjust=False).mean()], or the last item of
    the data when there are fewer than [period] items or the average
    fails. *)
Definition _calculate_ema (data : list Z) (period : Z) : Q :=
  match calculate_ema_body data period with
  | Ok v => v
  | Raise _ => last_or_zero data
  end.

(** [calculate_enhanced_nymo]; [market_data] is [None] for an empty
    dict.  Nothing in the body raises on integer counts. *)
Definition calculate_enhanced_nymo (h : History)
    (market_data : option MarketData) (period : Z) : Q * History :=
  match market_data with
  | None => (0, h)
  | Some md =>
    let advancing := default 0%Z (md_advancing md) in
    let declining := default 0%Z (md_declining md) in
    if (advancing =? 0)%Z && (declining =? 0)%Z then (0, h)
    else
      let adv := advancing_issues h ++ [advancing] in
      let dec := declining_issues h ++ [declining] in
      let max_history := (period * 3)%Z in
      let h' :=
        if (max_history <? Z.of_nat (length adv))%Z then
          {| advancing_issues := slice_last max_history adv;
             declining_issues := slice_last max_history dec |}
        else {| advancing_issues := adv; declining_issues := dec |} in
      if (period <=? Z.of_nat (length (advancing_issues h')))%Z then
        let advancing_ema := _calculate_ema (advancing_issues h') period in
        let declining_ema := _calculate_ema (declining_issues h') period in
        let nymo := advancing_ema - declining_ema in
        let scale_factor := 100 / 1000 in
        let scaled_nymo := nymo * scale_factor in
        (Qmax (-100) (Qmin 100 scaled_nymo), h')
      else (0, h')
  end.

(** The histories after one call per item of [days], all with the same
    [period]. *)
Definition feed (period : Z) (h : History)
    (days : list (option MarketData)) : History :=
  foldl (fun h md => (calculate_enhanced_nymo h md period).2) h days.

(** The dict returned by [calculate_nymo_signals]. *)
Record NymoSignals : Type := {
  ns_nymo_value : Q;
  ns_signal_strength : string;
  ns_trading_signal : string;
  ns_confidence : Q;
  ns_reasoning : string;
  ns_risk_level : string }.

Definition calculate_nymo_signals (nymo_value : Q) : NymoSignals :=
  let signals s t c r k :=
    {| ns_nymo_value := nymo_value; ns_signal_strength := s;
       ns_trading_signal := t; ns_confidence := c; ns_reasoning := r;
       ns_risk_level := k |} in
  if fle nymo_value (-100) then
    signals "extreme_bearish" "STRONG_BUY" (95 # 100)
      "NYMO at extreme bearish levels (-100 or below). Market fear is extreme, indicating potential reversal."
      "low"
  else if fle nymo_value (-70) then
    signals "very_bearish" "BUY" (9 # 10)
      "NYMO below -70 indicates very bearish sentiment. Good opportunity for contrarian buying."
      "low"
  else if fle nymo_value (-50) then
    signals "bearish" "BUY" (8 # 10)
      "NYMO below -50 shows bearish sentiment. Consider buying opportunities."
      "medium"
  else if flt (-50) nymo_value && flt nymo_value 50 then
    signals "neutral" "HOLD" (5 # 10)
      "NYMO in neutral zone. Market sentiment is balanced."
      "medium"
  else if fge nymo_value 100 then
    signals "extreme_bullish" "STRONG_SELL" (95 # 100)
      "NYMO at extreme bullish levels (+100 or above). Market euphoria is extreme, indicating potential reversal."
      "high"
  else if fge nymo_value 70 then
    signals "very_bullish" "SELL" (9 # 10)
      "NYMO above +70 indicates very bullish sentiment. Consider taking profits."
      "high"
  else if fge nymo_value 50 then
    signals "bullish" "SELL" (8 # 10)
      "NYMO above +50 shows bullish sentiment. Consider reducing positions."
      "medium"
  else signals "neutral" "HOLD" (5 # 10) "" "medium".

(** The counts never fall below those of the other list, item by item. *)
Definition dominates (upper lower : list Z) : Prop :=
  Forall2 (fun u l => (l <= u)%Z) upper lower.

End EnhancedNYMO.

(** * Specification-level definitions

    Definitions that follow the wording of the specification; the
    properties below compare them with the embedding above. *)

Import PositionManager TechnicalIndicators.

(** The claim's reading of the averaging-down check: four thresholds on
    the drop, each with its confidence, and the highest confidence among
    those that are met. *)
Definition averaging_thresholds (entry current atr pct : Q)
    : list (bool * Q) :=
  let drop := entry - current in
  [ (fle (2 * atr) drop, 7 # 10);
    (fle (3 * atr) drop, 8 # 10);
    (fle (4 * atr) drop, 9 # 10);
    (fle (entry * pct) drop, 6 # 10) ].

Fixpoint highest_met (ts : list (bool * Q)) : option Q :=
  match ts with
  | [] => None
  | (met, c) :: ts' =>
    match highest_met ts' with
    | None => if met then Some c else None
    | Some b => if met && flt b c then Some c else Some b
    end
  end.

Definition should_average_down_spec (entry current atr pct : Q) : bool * Q :=
  match highest_met (averaging_thresholds entry current atr pct) with
  | Some c => (true, c)
  | None => (false, 0)
  end.

(** The claim's recursion: [ema[0] = close[0]] and
    [ema[t] = close[t] * alpha + ema[t-1] * (1 - alpha)] with
    [alpha = 2 / (period + 1)]. *)
Fixpoint ema_recursion_from (alpha prev : Q) (vals : list Q) : list Q :=
  match vals with
  | [] => []
  | c :: vals' =>
    let e := c * alpha + prev * (1 - alpha) in
    e :: ema_recursion_from alpha e vals'
  end.

Definition ema_recursion (period : nat) (vals : list Q) : list Q :=
  match vals with
  | [] => []
  | c :: vals' =>
    c :: ema_recursion_from (2 / (inject_Z (Z.of_nat period) + 1)) c vals'
  end.

(** [w * past[0] + w*q * past[1] + w*q^2 * past[2] + ...]: the values of
    [past], most recent first, weighted by the powers of [q]. *)
Fixpoint weighted_sum (q w : Q) (past : list Q) : Q :=
  match past with
  | [] => 0
  | x :: past' => w * x + weighted_sum q (w * q) past'
  end.

(** [1 + q + ... + q^(n-1)] *)
Definition weight_total (q : Q) (n : nat) : Q :=
  weighted_sum q 1 (repeat 1 n).

(** What a rule branch may answer when it starts from the confidence
    [conf0]: a triggered verdict carries a base confidence with its
    confirmation adjustment, between 0.45 and 0.95; a non-triggered one
    carries [conf0], or [conf0 - 0.3] after a failed ATR-stop test. *)
Definition verdict_ok (conf0 : Q) (v : result Verdict) : Prop :=
  match v with
  | Ok (true, c, _) => 45 # 100 <= c /\ c <= 95 # 100
  | Ok (false, c, _) => conf0 - (3 # 10) <= c /\ c <= conf0
  | Raise _ => True
  end.

(** The crossing rules: the SMA-cross, EMA-cross and ATR-stop cases of the
    dispatch on the rule name, in the order the evaluator tests them. *)
Definition is_cross_rule (rule : Rule) : bool :=
  let rule_name := default ""%string (r_name rule) in
  contains "sma_cross" rule_name || contains "ema_cross" rule_name
  || contains "atr" rule_name.

(** The key of the series a crossing rule compares the close with. *)
Definition reference_key (rule : Rule) : string :=
  let rule_name := default ""%string (r_name rule) in
  let length := default 21%Z (r_length rule) in
  if contains "sma_cross" rule_name then "sma_" +:+ pretty length
  else if contains "ema_cross" rule_name then "ema_" +:+ pretty length
  else "atr_trailing_stop".

(** Evaluation at bar [t] of a price series: the indicators are computed
    on the bars 0..t and the rule is evaluated on them. *)
Definition indicators_at (calculate_nymo : DataFrame -> Series)
    (rule : Rule) (data : DataFrame) (ticker : string) (t : nat)
    : Indicators :=
  calculate_all_indicators calculate_nymo (take (S t) data) ticker
    (default "D"%string (r_period rule)).

Definition reference_at (calculate_nymo : DataFrame -> Series)
    (rule : Rule) (data : DataFrame) (ticker : string) (t : nat) : Series :=
  get_series (indicators_at calculate_nymo rule data ticker t)
    (reference_key rule).

Definition triggers_at (calculate_nymo : DataFrame -> Series)
    (rule : Rule) (data : DataFrame) (ticker : string) (t : nat) : Prop :=
  (evaluate_trading_rule ticker rule
     (indicators_at calculate_nymo rule data ticker t)).1.1 = true.

(** The series [calculate_ema] returns, empty when it raises. *)
Definition ema_series (data : DataFrame) (period : nat) : Series :=
  match calculate_ema data period with
  | Ok s => s
  | Raise _ => []
  end.

(** The one-bar transition at bar [u]: the close of bar [u-1] strictly
    above the reference series there, the close of bar [u] strictly below
    it. *)
Definition crossing_at (calculate_nymo : DataFrame -> Series)
    (rule : Rule) (data : DataFrame) (ticker : string) (u : nat) : Prop :=
  exists p0 p1 r0 r1,
    (1 <= u)%nat
    /\ closes data !! (u - 1)%nat = Some p0
    /\ closes data !! u = Some p1
    /\ reference_at calculate_nymo rule data ticker u !! (u - 1)%nat
       = Some (Some r0)
    /\ reference_at calculate_nymo rule data ticker u !! u = Some (Some r1)
    /\ r0 < p0 /\ p1 < r1.

(** *** Example inputs *)

Definition example_bars : DataFrame :=
  map (fun c => {| open := c; high := c + 1; low := c - 1; close := c;
                   volume := 1000 |}) [10; 11; 12; 13; 14; 15; 10; 9].

Definition atr_stop_rule : Rule :=
  {| r_name := Some "atr_stop"%string; r_type := Some "sell"%string;
     r_priority := Some 3%Z; r_period := Some "D"%string;
     r_interval := None; r_length := None; r_previous_days := None;
     r_nymo_threshold := None; r_stocks := None |}.

Definition nymo_rebound_rule : Rule :=
  {| r_name := Some "nymo_rebound"%string; r_type := Some "buy"%string;
     r_priority := Some 5%Z; r_period := Some "W"%string;
     r_interval := None; r_length := None; r_previous_days := None;
     r_nymo_threshold := Some 10%Z; r_stocks := None |}.

Definition sma_30_rule : Rule :=
  {| r_name := Some "sma_cross_21"%string; r_type := Some "buy"%string;
     r_priority := Some 1%Z; r_period := Some "W"%string;
     r_interval := None; r_length := Some 30%Z; r_previous_days := None;
     r_nymo_threshold := None; r_stocks := None |}.

Definition sma_21_rule : Rule :=
  {| r_name := Some "test_sma_cross_21"%string; r_type := Some "buy"%string;
     r_priority := Some 1%Z; r_period := Some "D"%string;
     r_interval := None; r_length := Some 21%Z; r_previous_days := None;
     r_nymo_threshold := None; r_stocks := None |}.

(** Closes 10, 12, 9 against a 21-SMA of 11 then 10, above a 50 and a 200
    SMA of 5. *)
Definition scenario_a_indicators : Indicators :=
  {| ind_data :=
       Some (map (fun c => {| open := c; high := c + 1; low := c - 1;
                              close := c; volume := 1000 |}) [10; 12; 9]);
     ind_series :=
       <["sma_21" := [None; Some 11; Some 10]]>
       (<["sma_50" := [Some 5; Some 5; Some 5]]>
       (<["sma_200" := [Some 5; Some 5; Some 5]]> ∅)) |}.

(** * Properties *)

(** ** Tactics *)

(** Decide every comparison of two literals in the goal. *)
Ltac eval_literal_tests :=
  repeat match goal with
         | |- context [fgt ?a ?b] =>
           let v := eval vm_compute in (fgt a b) in
           match v with
           | true => change (fgt a b) with true
           | false => change (fgt a b) with false
           end
         | |- context [flt ?a ?b] =>
           let v := eval vm_compute in (flt a b) in
           match v with
           | true => change (flt a b) with true
           | false => change (flt a b) with false
           end
         end.

(** Case analysis on the tests and on the calls that may raise. *)
Ltac branch_cases :=
  repeat match goal with
         | |- context [rbind ?m _] => destruct m; cbn [rbind]
         | |- context [if ?b then _ else _] => destruct b
         end.


(** ** Float helpers *)

Lemma fdiv_ok (x y : Q) : ~ y == 0 -> fdiv x y = Ok (x / y).
Proof.
  intros Hy. unfold fdiv.
  destruct (Qeq_bool y 0) eqn:E; [|reflexivity].
  apply Qeq_bool_iff in E. contradiction.
Qed.

Lemma fdiv_zero (x y : Q) : y == 0 -> fdiv x y = Raise ZeroDivisionError.
Proof.
  intros Hy. unfold fdiv. apply Qeq_bool_iff in Hy. now rewrite Hy.
Qed.

Lemma fle_iff (x y : Q) : fle x y = true <-> x <= y.
Proof. apply Qle_bool_iff. Qed.

Lemma fle_false_iff (x y : Q) : fle x y = false <-> y < x.
Proof.
  unfold fle. rewrite <- not_true_iff_false, Qle_bool_iff.
  split; [apply Qnot_le_lt | apply Qlt_not_le].
Qed.

Lemma flt_iff (x y : Q) : flt x y = true <-> x < y.
Proof.
  unfold flt. rewrite negb_true_iff. apply (fle_false_iff y x).
Qed.

Lemma flt_false_iff (x y : Q) : flt x y = false <-> y <= x.
Proof.
  unfold flt. rewrite negb_false_iff. apply (fle_iff y x).
Qed.

Lemma fge_iff (x y : Q) : fge x y = true <-> y <= x.
Proof. apply fle_iff. Qed.

Lemma fgt_iff (x y : Q) : fgt x y = true <-> y < x.
Proof. apply flt_iff. Qed.

Lemma fle_proper (x x' y y' : Q) : x == x' -> y == y' -> fle x y = fle x' y'.
Proof.
  intros Hx Hy. apply eq_true_iff_eq.
  rewrite !fle_iff, Hx, Hy. reflexivity.
Qed.


Lemma int_of_float_nonpos (x : Q) : x <= 0 -> (int_of_float x <= 0)%Z.
Proof.
  destruct x as [n d]. unfold Qle, int_of_float. simpl. intros H.
  replace n with (- - n)%Z by lia.
  rewrite Z.quot_opp_l by lia.
  assert (0 <= (- n) ÷ Z.pos d)%Z by (apply Z.quot_pos; lia).
  lia.
Qed.

Lemma int_of_float_zero (x : Q) : x == 0 -> int_of_float x = 0%Z.
Proof.
  destruct x as [n d]. unfold Qeq, int_of_float. simpl. intros H.
  replace n with 0%Z by lia. apply Z.quot_0_l. lia.
Qed.


(** ** Position manager *)

Section PositionSizing.

Import PositionManager.

(** With a non-zero price and portfolio value no division fails, and the
    dict is the one the straight-line code builds. *)
Lemma calculate_atr_position_size_defined (pv price atr lim : Q) :
  ~ price == 0 -> ~ pv == 0 ->
  exists d,
    calculate_atr_position_size pv price atr lim = Some d
    /\ atr_position_pct d = pv * (atr / price) / pv * 100
    /\ limit_position_pct d = lim
    /\ (sizing_method d, shares d) =
       if fle (atr_position_pct d) lim
       then ("ATR-based"%string, int_of_float (pv * (atr / price) / price))
       else ("Limit-based"%string, int_of_float (pv * (lim / 100) / price)).
Proof.
  intros Hprice Hpv.
  unfold calculate_atr_position_size, calculate_atr_position_size_body.
  rewrite (fdiv_ok atr price) by assumption. cbn [rbind].
  rewrite (fdiv_ok _ pv) by assumption. cbn [rbind].
  destruct (fle (pv * (atr / price) / pv * 100) lim) eqn:E;
    rewrite (fdiv_ok _ price) by assumption; cbn [rbind];
    rewrite (fdiv_ok _ pv) by assumption; cbn [rbind];
    eexists; (split; [reflexivity|]); cbn; rewrite E; auto.
Qed.

Lemma atr_pct_simpl (pv price atr : Q) :
  ~ price == 0 -> ~ pv == 0 ->
  pv * (atr / price) / pv * 100 == atr / price * 100.
Proof. intros Hprice Hpv. field. split; assumption. Qed.



(** C7, as the claim states it, fails on negative inputs: a negative
    price with a positive ATR buys ten shares, and a negative ATR with a
    positive price sells ten. *)
Lemma calculate_atr_position_size_negative_inputs :
  -100 <= 0
  /\ shares_of (calculate_atr_position_size 100000 (-100) 1 2) = 10%Z
  /\ -1 <= 0
  /\ shares_of (calculate_atr_position_size 100000 100 (-1) 2) = (-10)%Z.
Proof. repeat split; discriminate. Qed.

(** C7, amended.  A zero price makes the first division fail: the failure
    is caught and the empty result returned, so no share is allocated.  A
    zero or negative ATR with a positive price, a positive portfolio value
    and a non-negative purchase limit never allocates a positive number
    of shares, and exactly zero when the ATR is zero. *)
Theorem calculate_atr_position_size_degenerate (pv price atr lim : Q) :
  price == 0 \/ (atr <= 0 /\ 0 < price /\ 0 < pv /\ 0 <= lim) ->
  let r := calculate_atr_position_size pv price atr lim in
  (price == 0 -> r = None)
  /\ (shares_of r <= 0)%Z
  /\ (price == 0 \/ atr == 0 -> shares_of r = 0%Z).
Proof.
  intros H r.
  assert (Hzero : price == 0 -> r = None).
  { intros Hp. unfold r, calculate_atr_position_size,
      calculate_atr_position_size_body.
    now rewrite (fdiv_zero atr price Hp). }
  destruct H as [Hp | (Hatr & Hprice & Hpv & Hlim)].
  - rewrite (Hzero Hp). cbn. repeat split; auto; lia.
  - assert (Hp0 : ~ price == 0) by lra.
    assert (Hv0 : ~ pv == 0) by lra.
    destruct (calculate_atr_position_size_defined pv price atr lim Hp0 Hv0)
      as (d & Hd & Hpct & _ & Hm).
    fold r in Hd. rewrite Hd. cbn [shares_of].
    assert (Hq : atr / price <= 0).
    { apply Qle_shift_div_r; [assumption|]. lra. }
    assert (Hpct' : atr_position_pct d <= lim).
    { rewrite Hpct, atr_pct_simpl by assumption. lra. }
    apply fle_iff in Hpct'. rewrite Hpct' in Hm. injection Hm as _ ->.
    assert (Hval : pv * (atr / price) / price <= 0).
    { apply Qle_shift_div_r; [assumption|]. nra. }
    split; [intros; lra|]. split.
    + apply int_of_float_nonpos, Hval.
    + intros [Hp | Ha]; [lra|]. apply int_of_float_zero.
      rewrite Ha. field. assumption.
Qed.

Lemma calculate_atr_position_size_degenerate_witness :
  let r := calculate_atr_position_size 100000 150 0 2 in
  (150 == 0 -> r = None)
  /\ (shares_of r <= 0)%Z
  /\ (150 == 0 \/ 0 == 0 -> shares_of r = 0%Z).
Proof.
  apply (calculate_atr_position_size_degenerate 100000 150 0 2).
  right. repeat split; discriminate.
Defined.



End PositionSizing.

Section PositionLifecycle.

Import PositionManager.

(** With a non-zero entry price no division fails, and the list holds one
    entry per threshold that is met, in the order 2x, 3x, 4x, percentage. *)
Lemma should_average_down_levels_defined (current entry atr pct : Q) :
  ~ entry == 0 ->
  exists drop_pct l2 l3 l4 lp,
    should_average_down_levels current entry atr pct =
      Ok (drop_pct,
          when (fle (2 * atr) (entry - current)) l2
          ++ when (fle (3 * atr) (entry - current)) l3
          ++ when (fle (4 * atr) (entry - current)) l4
          ++ when (fle (entry * pct) (entry - current)) lp)
    /\ confidence l2 = 7 # 10 /\ level l2 = "2x ATR"%string
    /\ confidence l3 = 8 # 10 /\ level l3 = "3x ATR"%string
    /\ confidence l4 = 9 # 10 /\ level l4 = "4x ATR"%string
    /\ confidence lp = 6 # 10 /\ level lp = "Percentage"%string.
Proof.
  intros He. unfold should_average_down_levels, fge.
  rewrite (fdiv_ok _ entry) by assumption. cbn [rbind].
  rewrite (fle_proper (atr * 2) (2 * atr) _ (entry - current))
    by (reflexivity || apply Qmult_comm).
  rewrite (fle_proper (atr * 3) (3 * atr) _ (entry - current))
    by (reflexivity || apply Qmult_comm).
  rewrite (fle_proper (atr * 4) (4 * atr) _ (entry - current))
    by (reflexivity || apply Qmult_comm).
  exists ((entry - current) / entry * 100).
  exists {| level := "2x ATR"; atr_threshold := atr * 2;
            pct_threshold := atr * 2 / entry * 100; confidence := 7 # 10 |}.
  exists {| level := "3x ATR"; atr_threshold := atr * 3;
            pct_threshold := atr * 3 / entry * 100; confidence := 8 # 10 |}.
  exists {| level := "4x ATR"; atr_threshold := atr * 4;
            pct_threshold := atr * 4 / entry * 100; confidence := 9 # 10 |}.
  exists {| level := "Percentage"; atr_threshold := entry * pct;
            pct_threshold := pct * 100; confidence := 6 # 10 |}.
  split; [|cbn; repeat split; reflexivity].
  destruct (fle (2 * atr) (entry - current));
    destruct (fle (3 * atr) (entry - current));
    destruct (fle (4 * atr) (entry - current));
    rewrite ?(fdiv_ok _ entry) by assumption; cbn [rbind when app];
    reflexivity.
Qed.




(** C10.  For a ticker with no tracked position both the averaging-down
    check and the partial-profit check answer
    [(false, 0.0, "No existing position")] whatever the prices, ATR and
    thresholds, and leave the position map as it was. *)
Theorem no_position_no_action
    (positions : Positions) (ticker : string)
    (current entry atr pct sma_200 : Q) :
  positions !! ticker = None ->
  should_average_down positions ticker current entry atr pct
    = ((false, 0, "No existing position"%string), positions)
  /\ should_take_partial_profit positions ticker current entry sma_200
    = ((false, 0, "No existing position"%string), positions).
Proof.
  intros Hnone.
  unfold should_average_down, should_average_down_body,
    should_take_partial_profit, should_take_partial_profit_body.
  rewrite Hnone. split; reflexivity.
Qed.

Lemma no_position_no_action_witness :
  let positions :=
    add_position ∅ 0 "AAPL" 150 100 15000 "below_21sma_cross" (8 # 10) in
  should_average_down positions "MSFT" 140 150 (35 # 10) (2 # 100)
    = ((false, 0, "No existing position"%string), positions)
  /\ should_take_partial_profit positions "MSFT" 140 150 130
    = ((false, 0, "No existing position"%string), positions).
Proof.
  apply (no_position_no_action _ "MSFT" 140 150 (35 # 10) (2 # 100) 130).
  reflexivity.
Defined.

End PositionLifecycle.

(** ** Indicator engine *)

Section MovingAverages.

Import TechnicalIndicators.

(** *** Simple moving average and ATR warm-up *)

Lemma rolling_lookup (agg : list Q -> option Q) (period : nat) (l : list Q)
    (i : nat) :
  (i < length l)%nat ->
  rolling agg period l !! i =
    Some (if (S i <? period)%nat then None else agg (window period i l)).
Proof.
  intros Hi. unfold rolling.
  rewrite list_lookup_fmap, lookup_seq_lt by assumption. reflexivity.
Qed.

Lemma rolling_length (agg : list Q -> option Q) (period : nat) (l : list Q) :
  length (rolling agg period l) = length l.
Proof. unfold rolling. now rewrite length_map, length_seq. Qed.

Lemma window_length (period i : nat) (l : list Q) :
  (period <= S i)%nat -> (i < length l)%nat ->
  length (window period i l) = period.
Proof.
  intros Hp Hi. unfold window. rewrite length_take, length_drop. lia.
Qed.

Lemma ewm_from_length (adjust : bool) (alpha : Q) (vals : list Q) :
  forall weighted old_wt,
    length (ewm_from adjust alpha weighted old_wt vals) = length vals.
Proof. induction vals as [|x vals IH]; intros; cbn; [|rewrite IH]; reflexivity. Qed.

Lemma ewm_mean_length (adjust : bool) (alpha : Q) (vals : list Q) :
  length (ewm_mean adjust alpha vals) = length vals.
Proof. destruct vals; cbn; [|rewrite ewm_from_length]; reflexivity. Qed.

Lemma true_range_from_length (data : DataFrame) :
  forall prev_close, length (true_range_from prev_close data) = length data.
Proof. induction data as [|b data IH]; intros; cbn; [|rewrite IH]; reflexivity. Qed.

Lemma calculate_atr_length (data : DataFrame) (period : nat) :
  length (calculate_atr data period) = length data.
Proof.
  unfold calculate_atr, calculate_atr_body, zeros, true_range.
  destruct (length data <? period)%nat; [now rewrite length_map|].
  destruct (fdiv 1 (inject_Z (Z.of_nat period))); cbn [rbind].
  - now rewrite length_map, ewm_mean_length, true_range_from_length.
  - now rewrite length_map.
Qed.

Lemma mean_is_Some (l : list Q) : (0 < length l)%nat -> is_Some (mean l).
Proof. destruct l; cbn; [lia | eauto]. Qed.

(** C6, as the claim states it, fails for ATR: with one bar of history
    and period 14 the output is the number zero, not a no-value marker. *)
Lemma calculate_atr_short_history_is_zero :
  let data := [ {| open := 10; high := 11; low := 9; close := 10;
                   volume := 1000 |} ] in
  (length data < 14)%nat /\ calculate_atr data 14 = [Some 0].
Proof. split; [cbn; lia | reflexivity]. Qed.

(** C6, amended.  A period-N simple moving average (N >= 1) is the
    no-value marker at indices 0..N-2 and, from index N-1 onward, the mean
    of the N closes ending at that index.  ATR has no warm-up marker:
    while the history is shorter than the period it is the number zero at
    every bar, and in every case each of its values is a number. *)
Theorem moving_average_warm_up (data : DataFrame) (period i : nat) :
  (1 <= period)%nat -> (i < length data)%nat ->
  ((S i < period)%nat -> calculate_sma data period !! i = Some None)
  /\ ((period <= S i)%nat ->
      calculate_sma data period !! i
        = Some (mean (window period i (closes data)))
      /\ length (window period i (closes data)) = period
      /\ is_Some (mean (window period i (closes data))))
  /\ ((length data < period)%nat -> calculate_atr data period !! i = Some (Some 0))
  /\ is_Some (calculate_atr data period !! i ≫= id).
Proof.
  intros Hp Hi.
  assert (Hc : (i < length (closes data))%nat)
    by (unfold closes; now rewrite length_map).
  unfold calculate_sma. rewrite (rolling_lookup _ _ _ _ Hc).
  split; [|split; [|split]].
  - intros H. apply Nat.ltb_lt in H. now rewrite H.
  - intros H. assert (H' := H). apply Nat.ltb_ge in H'. rewrite H'.
    split; [reflexivity|].
    rewrite (window_length _ _ _ H Hc). split; [reflexivity|].
    apply mean_is_Some. rewrite window_length; lia.
  - intros H. unfold calculate_atr, calculate_atr_body.
    apply Nat.ltb_lt in H. rewrite H. unfold zeros.
    rewrite list_lookup_fmap.
    destruct (lookup_lt_is_Some_2 data i Hi) as [b ->]. reflexivity.
  - unfold calculate_atr, calculate_atr_body, zeros.
    destruct (lookup_lt_is_Some_2 data i Hi) as [b Hb].
    destruct (length data <? period)%nat.
    + rewrite list_lookup_fmap, Hb. cbn. eauto.
    + destruct (fdiv 1 (inject_Z (Z.of_nat period))); cbn [rbind].
      * assert (Hl : (i < length (ewm_mean false a (true_range data)))%nat).
        { unfold true_range.
          now rewrite ewm_mean_length, true_range_from_length. }
        rewrite list_lookup_fmap.
        destruct (lookup_lt_is_Some_2 _ i Hl) as [v ->]. cbn. eauto.
      * rewrite list_lookup_fmap, Hb. cbn. eauto.
Qed.

Lemma moving_average_warm_up_witness :
  let data :=
    map (fun c => {| open := c; high := c + 1; low := c - 1; close := c;
                     volume := 1000 |}) [10; 20; 15; 12] in
  ((S 2 < 3)%nat -> calculate_sma data 3 !! 2%nat = Some None)
  /\ ((3 <= S 2)%nat ->
      calculate_sma data 3 !! 2%nat
        = Some (mean (window 3 2 (closes data)))
      /\ length (window 3 2 (closes data)) = 3%nat
      /\ is_Some (mean (window 3 2 (closes data))))
  /\ ((length data < 3)%nat -> calculate_atr data 3 !! 2%nat = Some (Some 0))
  /\ is_Some (calculate_atr data 3 !! 2%nat ≫= id).
Proof.
  apply (moving_average_warm_up _ 3 2); cbn; lia.
Defined.

End MovingAverages.

Section ExponentialAverage.

Import TechnicalIndicators.

Lemma weighted_sum_scale (q w : Q) (past : list Q) :
  weighted_sum q w past == w * weighted_sum q 1 past.
Proof.
  revert w. induction past as [|x past IH]; intros w; cbn.
  - ring.
  - rewrite (IH (w * q)), (IH (1 * q)). ring.
Qed.

Lemma weighted_sum_cons (q x : Q) (past : list Q) :
  weighted_sum q 1 (x :: past) == x + q * weighted_sum q 1 past.
Proof. cbn. rewrite weighted_sum_scale. ring. Qed.

Lemma weight_total_S (q : Q) (n : nat) :
  weight_total q (S n) == 1 + q * weight_total q n.
Proof. unfold weight_total. cbn [repeat]. apply weighted_sum_cons. Qed.

Lemma weight_total_pos (q : Q) (n : nat) :
  0 <= q -> 0 < weight_total q (S n).
Proof.
  intros Hq. induction n as [|n IH].
  - reflexivity.
  - rewrite weight_total_S. nra.
Qed.

(** The invariant of the [adjust=True] loop: [old_wt] is the total weight
    of the values seen and [weighted] their weighted mean. *)
Lemma ewm_from_adjusted (alpha : Q) (vals : list Q) :
  0 <= 1 - alpha ->
  forall (past : list Q) (weighted old_wt : Q) (k : nat) (e : Q),
    past <> [] ->
    old_wt == weight_total (1 - alpha) (length past) ->
    weighted * old_wt == weighted_sum (1 - alpha) 1 past ->
    ewm_from true alpha weighted old_wt vals !! k = Some e ->
    e == weighted_sum (1 - alpha) 1 (rev (take (S k) vals) ++ past)
         / weight_total (1 - alpha) (S k + length past).
Proof.
  intros Hq. induction vals as [|cur vals IH];
    intros past weighted old_wt k e Hpast Hwt Hmean Hk; [discriminate|].
  cbn [ewm_from] in Hk.
  set (q := 1 - alpha) in *.
  set (weighted' := (old_wt * q * weighted + 1 * cur) / (old_wt * q + 1)) in *.
  assert (Hlen : exists n, length past = S n).
  { destruct past; [contradiction | cbn; eauto]. }
  destruct Hlen as [n Hn].
  assert (Hwt_pos : 0 < old_wt).
  { rewrite Hwt, Hn. apply weight_total_pos, Hq. }
  assert (Hden : 0 < old_wt * q + 1) by nra.
  assert (Hwt' : old_wt * q + 1 == weight_total q (length (cur :: past))).
  { cbn [length]. rewrite weight_total_S, <- Hwt. ring. }
  assert (Hmean' : weighted' * (old_wt * q + 1)
                   == weighted_sum q 1 (cur :: past)).
  { rewrite weighted_sum_cons, <- Hmean. unfold weighted'. field. lra. }
  destruct k as [|k].
  - cbn in Hk. injection Hk as <-.
    cbn [take rev app Nat.add].
    change ([] ++ [cur]) with [cur]. cbn [app].
    rewrite <- Hmean'.
    change (S (length past)) with (length (cur :: past)).
    rewrite <- Hwt'. field. lra.
  - cbn [lookup list_lookup] in Hk.
    specialize (IH (cur :: past) weighted' (old_wt * q + 1) k e).
    rewrite firstn_cons. cbn [rev]. rewrite <- app_assoc. cbn [app].
    replace (S (S k) + length past)%nat
      with (S k + length (cur :: past))%nat by (cbn; lia).
    apply IH; [discriminate | exact Hwt' | exact Hmean' | exact Hk].
Qed.

(** C5, as the claim states it, fails: on closes 10, 20 with period 3
    (alpha = 1/2) the recursion gives 15 at the second bar, the code
    (10 * 1/2 + 20) / (1/2 + 1) = 50/3. *)
Lemma calculate_ema_is_not_the_recursion :
  let data :=
    map (fun c => {| open := c; high := c; low := c; close := c;
                     volume := 1000 |}) [10; 20] in
  ema_recursion 3 (closes data) !! 1%nat = Some (20 * (2 / 4) + 10 * (1 - 2 / 4))
  /\ 20 * (2 / 4) + 10 * (1 - 2 / 4) == 15
  /\ exists s e,
       calculate_ema data 3 = Ok s /\ s !! 1%nat = Some (Some e)
       /\ e == 50 # 3 /\ ~ e == 15.
Proof.
  split; [reflexivity|]. split; [reflexivity|].
  eexists. eexists. split; [reflexivity|]. split; [reflexivity|].
  split; [reflexivity | discriminate].
Qed.

(** C5, amended.  For a non-empty close series and a period of at least
    1 the exponential moving average is seeded with the first close and
    is, at bar t, the mean of the closes up to t weighted by the powers of
    [1 - alpha], [alpha = 2 / (period + 1)]:
    [ema[t] = (close[t] + (1-alpha) close[t-1] + ... + (1-alpha)^t close[0])
              / (1 + (1-alpha) + ... + (1-alpha)^t)]. *)
Theorem calculate_ema_adjusted_mean (data : DataFrame) (period t : nat) :
  (1 <= period)%nat -> (t < length data)%nat ->
  let alpha := 2 / (inject_Z (Z.of_nat period) + 1) in
  exists s e0 e,
    calculate_ema data period = Ok s
    /\ length s = length data
    /\ s !! 0%nat = Some (Some e0) /\ closes data !! 0%nat = Some e0
    /\ s !! t = Some (Some e)
    /\ e == weighted_sum (1 - alpha) 1 (rev (take (S t) (closes data)))
            / weight_total (1 - alpha) (S t).
Proof.
  intros Hp Ht alpha.
  unfold calculate_ema.
  assert (Hp' : (period <? 1)%nat = false) by (apply Nat.ltb_ge; lia).
  rewrite Hp'. fold alpha.
  assert (Hq : 0 <= 1 - alpha).
  { unfold alpha.
    assert (H1 : 1 <= inject_Z (Z.of_nat period)).
    { change 1 with (inject_Z 1). rewrite <- Zle_Qle. lia. }
    assert (H2 : 2 / (inject_Z (Z.of_nat period) + 1) <= 1).
    { apply Qle_shift_div_r; lra. }
    lra. }
  destruct data as [|b data]; [cbn in Ht; lia|].
  cbn [closes map ewm_mean].
  assert (Hlen : length (ewm_from true alpha (close b) 1 (map close data))
                 = length data)
    by now rewrite ewm_from_length, length_map.
  destruct t as [|t].
  - eexists. exists (close b), (close b).
    split; [reflexivity|]. cbn [length]. rewrite length_map, Hlen.
    repeat split; try reflexivity.
    unfold weight_total. rewrite firstn_cons, firstn_O.
    cbn [rev app repeat weighted_sum]. field.
  - cbn [length] in Ht.
    destruct (lookup_lt_is_Some_2
                (ewm_from true alpha (close b) 1 (map close data)) t)
      as [e He]; [lia|].
    eexists. exists (close b), e.
    split; [reflexivity|]. cbn [length]. rewrite length_map, Hlen.
    repeat split; try reflexivity.
    + change (map Some (ewm_from true alpha (close b) 1 (map close data)) !! t
              = Some (Some e)).
      now rewrite list_lookup_fmap, He.
    + assert (H := ewm_from_adjusted alpha (map close data) Hq
                     [close b] (close b) 1 t e).
      cbn [length] in H. rewrite firstn_cons. cbn [rev].
      replace (S t + 1)%nat with (S (S t)) in H by lia.
      apply H; [discriminate | reflexivity | cbn; ring | exact He].
Qed.

Lemma calculate_ema_adjusted_mean_witness :
  let data :=
    map (fun c => {| open := c; high := c; low := c; close := c;
                     volume := 1000 |}) [10; 20] in
  let alpha := 2 / (inject_Z (Z.of_nat 3) + 1) in
  exists s e0 e,
    calculate_ema data 3 = Ok s
    /\ length s = length data
    /\ s !! 0%nat = Some (Some e0) /\ closes data !! 0%nat = Some e0
    /\ s !! 1%nat = Some (Some e)
    /\ e == weighted_sum (1 - alpha) 1 (rev (take 2 (closes data)))
            / weight_total (1 - alpha) 2.
Proof.
  apply (calculate_ema_adjusted_mean _ 3 1); cbn; lia.
Defined.

End ExponentialAverage.

(** ** Rule evaluator: confidence *)

Section Confidence.

Import TechnicalIndicators.

Lemma sma_cross_rule_ok (rule_name : string) (priority length : Z)
    (indicators : Indicators) (data : DataFrame) (current_price conf0 : Q)
    (reasoning : list string) :
  verdict_ok conf0
    (sma_cross_rule rule_name priority length indicators data
       current_price conf0 reasoning).
Proof.
  unfold sma_cross_rule, confirm. branch_cases; cbn; lra.
Qed.

Lemma ema_cross_rule_ok (rule_name : string) (length : Z)
    (indicators : Indicators) (data : DataFrame) (current_price conf0 : Q)
    (reasoning : list string) :
  verdict_ok conf0
    (ema_cross_rule rule_name length indicators data
       current_price conf0 reasoning).
Proof.
  unfold ema_cross_rule, confirm. branch_cases; cbn; lra.
Qed.

Lemma atr_rule_ok (indicators : Indicators) (data : DataFrame)
    (current_price conf0 : Q) (reasoning : list string) :
  verdict_ok conf0 (atr_rule indicators data current_price conf0 reasoning).
Proof.
  unfold atr_rule. branch_cases; cbn; lra.
Qed.

Lemma nymo_rule_ok (rule : Rule) (indicators : Indicators) (conf0 : Q)
    (reasoning : list string) :
  verdict_ok conf0 (nymo_rule rule indicators conf0 reasoning).
Proof.
  unfold nymo_rule. branch_cases; cbn; lra.
Qed.

Lemma previous_days_gate_cases (rule : Rule) (data : DataFrame)
    (current_price : Q) :
  match previous_days_gate rule data current_price with
  | inl (c, _) => c == - (3 # 10)
  | inr (c, _) => c == 0 \/ c == 2 # 10
  end.
Proof.
  unfold previous_days_gate.
  destruct (r_previous_days rule); [|left; reflexivity].
  branch_cases; [right | | left]; reflexivity.
Qed.

(** C4, as the claim states it, fails on the veto path: a rule with
    [previous_days = 2], evaluated on closes 10, 12, 9 (the last close is
    below the two-day average 10.5), reports the confidence -0.3. *)
Lemma evaluate_trading_rule_veto_confidence_negative :
  let rule :=
    {| r_name := Some "test_sma_cross_21"%string; r_type := Some "buy"%string;
       r_priority := Some 1%Z; r_period := Some "D"%string;
       r_interval := None; r_length := Some 21%Z;
       r_previous_days := Some 2%Z; r_nymo_threshold := None;
       r_stocks := None |} in
  let data :=
    map (fun c => {| open := c; high := c + 1; low := c - 1; close := c;
                     volume := 1000 |}) [10; 12; 9] in
  let indicators := {| ind_data := Some data; ind_series := ∅ |} in
  let r := evaluate_trading_rule "TEST" rule indicators in
  r.1.1 = false /\ r.1.2 == - (3 # 10) /\ r.1.2 < 0
  /\ r.2 = "Price below previous 2 days average"%string.
Proof. repeat split. Qed.

(** C4, amended.  The confidence returned by rule evaluation never
    exceeds 1: for a triggered rule it is the base confidence with its
    confirmation adjustment plus the priority boost
    [(10 - priority) * 0.05], clamped from above only, hence within [0,1]
    whenever the priority is at most 19.  A non-triggered result is not
    clamped: its confidence lies between -0.3 and 0.2, and the
    prior-days-average veto reports -0.3. *)
Theorem evaluate_trading_rule_confidence_bounds
    (ticker : string) (rule : Rule) (indicators : Indicators) :
  let r := evaluate_trading_rule ticker rule indicators in
  let priority := default 5%Z (r_priority rule) in
  r.1.2 <= 1
  /\ (r.1.1 = true ->
      (exists c, 45 # 100 <= c /\ c <= 95 # 100
                 /\ r.1.2 = Qmin 1 (c + inject_Z (10 - priority) * (5 # 100)))
      /\ ((priority <= 19)%Z -> 0 <= r.1.2))
  /\ (r.1.1 = false -> - (3 # 10) <= r.1.2 /\ r.1.2 <= 2 # 10)
  /\ (forall data current_price veto,
        ind_data indicators = Some data ->
        iloc_neg 1 (closes data) = Ok current_price ->
        previous_days_gate rule data current_price = inl veto ->
        r.1.1 = false /\ r.1.2 == - (3 # 10)).
Proof.
  intros r priority. subst r.
  assert (Hveto : forall data current_price veto,
            ind_data indicators = Some data ->
            iloc_neg 1 (closes data) = Ok current_price ->
            previous_days_gate rule data current_price = inl veto ->
            (evaluate_trading_rule ticker rule indicators).1.1 = false
            /\ (evaluate_trading_rule ticker rule indicators).1.2
               == - (3 # 10)).
  { intros data current_price [conf0 reasoning] Hdata Hcur Hgate.
    assert (H := previous_days_gate_cases rule data current_price).
    unfold evaluate_trading_rule, evaluate_trading_rule_body.
    rewrite Hdata. cbn [rbind]. rewrite Hcur. cbn [rbind].
    rewrite Hgate in *. cbn. auto. }
  cut ((evaluate_trading_rule ticker rule indicators).1.2 <= 1
       /\ ((evaluate_trading_rule ticker rule indicators).1.1 = true ->
           (exists c, 45 # 100 <= c /\ c <= 95 # 100
              /\ (evaluate_trading_rule ticker rule indicators).1.2
                 = Qmin 1 (c + inject_Z (10 - priority) * (5 # 100)))
           /\ ((priority <= 19)%Z ->
               0 <= (evaluate_trading_rule ticker rule indicators).1.2))
       /\ ((evaluate_trading_rule ticker rule indicators).1.1 = false ->
           - (3 # 10) <= (evaluate_trading_rule ticker rule indicators).1.2
           /\ (evaluate_trading_rule ticker rule indicators).1.2 <= 2 # 10));
    [tauto|].
  clear Hveto.
  unfold evaluate_trading_rule, evaluate_trading_rule_body.
  destruct (ind_data indicators) as [data|]; cbn [rbind];
    [|cbn; repeat split; intros; try discriminate; lra].
  destruct (iloc_neg 1 (closes data)) as [current_price|]; cbn [rbind];
    [|cbn; repeat split; intros; try discriminate; lra].
  assert (Hgate := previous_days_gate_cases rule data current_price).
  destruct (previous_days_gate rule data current_price)
    as [[conf0 reasoning] | [conf0 reasoning]].
  { cbn. repeat split; intros; try discriminate; lra. }
  fold priority.
  match goal with
  | |- context [rbind ?m _] =>
    assert (Hv : verdict_ok conf0 m);
      [ repeat match goal with
               | |- context [if ?b then _ else _] => destruct b
               end;
        first [ apply sma_cross_rule_ok | apply ema_cross_rule_ok
              | apply atr_rule_ok | apply nymo_rule_ok | cbn; lra ]
      | destruct m as [[[triggered c] reasoning']|] ]
  end; cbn [rbind];
    [|cbn; repeat split; intros; try discriminate; lra].
  destruct triggered; cbn [verdict_ok] in Hv; cbn [fst snd].
  - split; [apply Q.le_min_l|]. split; [|discriminate].
    intros _. split; [exists c; tauto|].
    intros Hp. apply Q.min_glb; [lra|].
    assert (H : inject_Z (-9) <= inject_Z (10 - priority))
      by (rewrite <- Zle_Qle; lia).
    change (inject_Z (-9)) with (-9 # 1) in H. lra.
  - split; [lra|]. split; [discriminate|]. intros _. lra.
Qed.

(** Scenario A of the specification: a priority-1 21-SMA cross with the
    close above the 50 and 200 SMA has confidence 0.8 + 0.1 + 0.45,
    clamped to 1. *)
Example scenario_a_confidence :
  evaluate_trading_rule "TEST" sma_21_rule scenario_a_indicators
  = (true, 1,
     "Price crossed below 21-period SMA; Price above 50 and 200 SMA; Priority 1 rule"%string).
Proof. vm_compute. reflexivity. Qed.

Lemma evaluate_trading_rule_confidence_bounds_witness :
  let r := evaluate_trading_rule "TEST" sma_21_rule scenario_a_indicators in
  let priority := default 5%Z (r_priority sma_21_rule) in
  r.1.2 <= 1
  /\ (r.1.1 = true ->
      (exists c, 45 # 100 <= c /\ c <= 95 # 100
                 /\ r.1.2 = Qmin 1 (c + inject_Z (10 - priority) * (5 # 100)))
      /\ ((priority <= 19)%Z -> 0 <= r.1.2))
  /\ (r.1.1 = false -> - (3 # 10) <= r.1.2 /\ r.1.2 <= 2 # 10)
  /\ (forall data current_price veto,
        ind_data scenario_a_indicators = Some data ->
        iloc_neg 1 (closes data) = Ok current_price ->
        previous_days_gate sma_21_rule data current_price = inl veto ->
        r.1.1 = false /\ r.1.2 == - (3 # 10)).
Proof.
  apply (evaluate_trading_rule_confidence_bounds
           "TEST" sma_21_rule scenario_a_indicators).
Defined.

End Confidence.

(** ** Indicators are causal

    The value of a moving average or of the ATR trailing stop at bar [i]
    depends on the bars up to [i] only: computing on a longer history
    leaves it unchanged. *)

Section Causality.

Import TechnicalIndicators.

Lemma closes_take (n : nat) (data : DataFrame) :
  closes (take n data) = take n (closes data).
Proof. unfold closes. symmetry. apply firstn_map. Qed.


Lemma closes_length (data : DataFrame) : length (closes data) = length data.
Proof. unfold closes. apply length_map. Qed.








Lemma calculate_atr_warm (data : DataFrame) (period : nat) :
  (1 <= period)%nat -> (period <= length data)%nat ->
  calculate_atr data period
  = map Some (ewm_mean false (1 / inject_Z (Z.of_nat period)) (true_range data)).
Proof.
  intros Hp Hlen. unfold calculate_atr, calculate_atr_body.
  assert (E : (length data <? period)%nat = false) by (apply Nat.ltb_ge; lia).
  rewrite E. rewrite fdiv_ok; [reflexivity|].
  unfold Qeq. cbn. lia.
Qed.

Lemma series_sub_lookup (a b : Series) (i : nat) :
  series_sub a b !! i =
    match a !! i, b !! i with
    | Some x, Some y =>
      Some match x, y with Some u, Some v => Some (u - v) | _, _ => None end
    | _, _ => None
    end.
Proof.
  unfold series_sub. rewrite lookup_zip_with.
  destruct (a !! i), (b !! i); reflexivity.
Qed.


End Causality.

(** ** Crossing rules *)

Section CrossBelow.

Import TechnicalIndicators.

Variable calculate_nymo : DataFrame -> Series.

(** The series stored under a key other than ['nymo']. *)
Lemma calculate_all_indicators_series (data : DataFrame)
    (ticker period k : string) :
  data <> [] -> k <> "nymo"%string ->
  ind_series (calculate_all_indicators calculate_nymo data ticker period) !! k
  = if decide (k = "atr_trailing_stop"%string)
    then Some (calculate_atr_trailing_stop data 5)
    else if decide (k = "atr"%string) then Some (calculate_atr data 5)
    else if decide (k = "ema_40"%string) then Some (ema_series data 40)
    else if decide (k = "ema_20"%string) then Some (ema_series data 20)
    else if decide (k = "ema_10"%string) then Some (ema_series data 10)
    else if decide (k = "sma_200"%string) then Some (calculate_sma data 200)
    else if decide (k = "sma_50"%string) then Some (calculate_sma data 50)
    else if decide (k = "sma_21"%string) then Some (calculate_sma data 21)
    else None.
Proof.
  intros Hdata Hk.
  unfold calculate_all_indicators, calculate_all_indicators_body.
  destruct data as [|b data]; [contradiction|].
  set (d := b :: data).
  change (calculate_ema d 10) with (Ok (ema_series d 10)).
  change (calculate_ema d 20) with (Ok (ema_series d 20)).
  change (calculate_ema d 40) with (Ok (ema_series d 40)).
  cbn [rbind ind_series].
  destruct (String.eqb period "D");
    rewrite ?(lookup_insert_ne _ "nymo"%string k) by congruence;
    repeat (rewrite lookup_insert; case_decide;
            [subst k; repeat (case_decide; try congruence); reflexivity|]);
    rewrite lookup_empty;
    repeat (case_decide; try congruence); reflexivity.
Qed.

Lemma calculate_all_indicators_data (data : DataFrame)
    (ticker period : string) :
  ind_data (calculate_all_indicators calculate_nymo data ticker period)
  = match data with [] => None | _ => Some data end.
Proof.
  unfold calculate_all_indicators, calculate_all_indicators_body.
  destruct data as [|b data]; reflexivity.
Qed.

Lemma ema_series_length (data : DataFrame) (period : nat) :
  (1 <= period)%nat -> length (ema_series data period) = length data.
Proof.
  intros Hp. unfold ema_series, calculate_ema.
  assert (E : (period <? 1)%nat = false) by (apply Nat.ltb_ge; lia).
  rewrite E. now rewrite length_map, ewm_mean_length, closes_length.
Qed.


Lemma calculate_atr_trailing_stop_length (data : DataFrame) (period : nat) :
  length (calculate_atr_trailing_stop data period) = length data.
Proof.
  unfold calculate_atr_trailing_stop, series_sub.
  rewrite length_zip_with, rolling_length, calculate_atr_length.
  unfold highs. rewrite length_map. lia.
Qed.

(** Every stored series other than ['nymo'] is aligned with the frame. *)
Lemma computed_series_length (data : DataFrame) (ticker period k : string)
    (s : Series) :
  data <> [] -> k <> "nymo"%string ->
  ind_series (calculate_all_indicators calculate_nymo data ticker period) !! k
    = Some s ->
  length s = length data.
Proof.
  intros Hdata Hk. rewrite calculate_all_indicators_series by assumption.
  repeat case_decide; intros [= <-];
    first [ apply calculate_atr_trailing_stop_length
          | apply calculate_atr_length
          | apply ema_series_length; lia
          | unfold calculate_sma; now rewrite rolling_length, closes_length ].
Qed.


Lemma reference_key_stored (rule : Rule) :
  reference_key rule <> "nymo"%string /\ reference_key rule <> "atr"%string.
Proof.
  unfold reference_key.
  destruct (contains "sma_cross" _); [split; discriminate|].
  destruct (contains "ema_cross" _); split; discriminate.
Qed.

(** *** A trigger is a crossing *)

Lemma crossed_below_inv (data : DataFrame) (current_price : Q) (ref : Series) :
  crossed_below data current_price ref = Ok true ->
  exists p0 r0 r1,
    (2 <= length (closes data))%nat /\ (2 <= length ref)%nat
    /\ closes data !! (length (closes data) - 2)%nat = Some p0
    /\ ref !! (length ref - 2)%nat = Some (Some r0)
    /\ ref !! (length ref - 1)%nat = Some (Some r1)
    /\ r0 < p0 /\ current_price < r1.
Proof.
  unfold crossed_below, iloc_neg.
  destruct (length (closes data) <? 2)%nat eqn:E1; [discriminate|].
  destruct (closes data !! _) as [p0|] eqn:Hp0; [|discriminate].
  cbn [rbind].
  destruct (length ref <? 2)%nat eqn:E2; [discriminate|].
  destruct (ref !! (length ref - 2)%nat) as [c0|] eqn:Hr0; [|discriminate].
  cbn [rbind].
  destruct (length ref <? 1)%nat eqn:E3; [discriminate|].
  destruct (ref !! (length ref - 1)%nat) as [c1|] eqn:Hr1; [|discriminate].
  cbn [rbind]. intros [= H]. apply andb_prop in H as [Hgt Hlt].
  destruct c0 as [r0|]; [|discriminate]. destruct c1 as [r1|]; [|discriminate].
  cbn in Hgt, Hlt. apply fgt_iff in Hgt. apply flt_iff in Hlt.
  apply Nat.ltb_ge in E1, E2.
  exists p0, r0, r1. repeat split; assumption.
Qed.

Lemma sma_cross_rule_crossed (rule_name : string) (priority length : Z)
    (indicators : Indicators) (data : DataFrame) (current_price conf0 : Q)
    (reasoning : list string) :
  match sma_cross_rule rule_name priority length indicators data
          current_price conf0 reasoning with
  | Ok (true, _, _) =>
    crossed_below data current_price
      (get_series indicators ("sma_" +:+ pretty length)) = Ok true
  | _ => True
  end.
Proof.
  unfold sma_cross_rule, confirm. branch_cases; cbn; trivial.
Qed.

Lemma ema_cross_rule_crossed (rule_name : string) (length : Z)
    (indicators : Indicators) (data : DataFrame) (current_price conf0 : Q)
    (reasoning : list string) :
  match ema_cross_rule rule_name length indicators data
          current_price conf0 reasoning with
  | Ok (true, _, _) =>
    crossed_below data current_price
      (get_series indicators ("ema_" +:+ pretty length)) = Ok true
  | _ => True
  end.
Proof.
  unfold ema_cross_rule, confirm. branch_cases; cbn; trivial.
Qed.

Lemma atr_rule_crossed (indicators : Indicators) (data : DataFrame)
    (current_price conf0 : Q) (reasoning : list string) :
  match atr_rule indicators data current_price conf0 reasoning with
  | Ok (true, _, _) =>
    crossed_below data current_price
      (get_series indicators "atr_trailing_stop") = Ok true
  | _ => True
  end.
Proof.
  unfold atr_rule. branch_cases; cbn; trivial.
Qed.

(** A crossing rule that triggers has passed the crossing test on its
    reference series. *)
Lemma evaluate_trading_rule_crossed (ticker : string) (rule : Rule)
    (indicators : Indicators) :
  is_cross_rule rule = true ->
  (evaluate_trading_rule ticker rule indicators).1.1 = true ->
  exists data current_price,
    ind_data indicators = Some data
    /\ iloc_neg 1 (closes data) = Ok current_price
    /\ crossed_below data current_price
         (get_series indicators (reference_key rule)) = Ok true.
Proof.
  unfold is_cross_rule, reference_key, evaluate_trading_rule,
    evaluate_trading_rule_body.
  intros Hcross.
  destruct (ind_data indicators) as [data|]; cbn [rbind]; [|discriminate].
  destruct (iloc_neg 1 (closes data)) as [current_price|] eqn:Hcur;
    cbn [rbind]; [|discriminate].
  destruct (previous_days_gate rule data current_price)
    as [[conf0 reasoning] | [conf0 reasoning]]; [discriminate|].
  intros Htrig. exists data, current_price.
  split; [reflexivity|]. split; [exact Hcur|].
  destruct (contains "sma_cross" _).
  { assert (H := sma_cross_rule_crossed (default ""%string (r_name rule))
                   (default 5%Z (r_priority rule))
                   (default 21%Z (r_length rule))
                   indicators data current_price conf0 reasoning).
    destruct (sma_cross_rule _ _ _ _ _ _ _ _) as [[[[|] c] r]|];
      cbn in Htrig; try discriminate. exact H. }
  destruct (contains "ema_cross" _).
  { assert (H := ema_cross_rule_crossed (default ""%string (r_name rule))
                   (default 21%Z (r_length rule))
                   indicators data current_price conf0 reasoning).
    destruct (ema_cross_rule _ _ _ _ _ _ _) as [[[[|] c] r]|];
      cbn in Htrig; try discriminate. exact H. }
  destruct (contains "atr" _); [|discriminate].
  assert (H := atr_rule_crossed indicators data current_price conf0 reasoning).
  destruct (atr_rule _ _ _ _ _) as [[[[|] c] r]|];
    cbn in Htrig; try discriminate. exact H.
Qed.

Lemma iloc_neg_inv {A} (k : nat) (l : list A) (x : A) :
  iloc_neg k l = Ok x -> (k <= length l)%nat /\ l !! (length l - k)%nat = Some x.
Proof.
  unfold iloc_neg. destruct (length l <? k)%nat eqn:E; [discriminate|].
  apply Nat.ltb_ge in E. destruct (l !! _); [|discriminate].
  intros [= ->]. auto.
Qed.

Lemma triggers_at_crossing (rule : Rule) (data : DataFrame) (ticker : string)
    (u : nat) :
  is_cross_rule rule = true -> (u < length data)%nat ->
  triggers_at calculate_nymo rule data ticker u ->
  crossing_at calculate_nymo rule data ticker u.
Proof.
  intros Hrule Hu Htrig.
  destruct (evaluate_trading_rule_crossed _ _ _ Hrule Htrig)
    as (d & cp & Hd & Hcp & Hcross).
  assert (Hlen : length (take (S u) data) = S u)
    by (rewrite length_take; lia).
  assert (Hne : take (S u) data <> []).
  { intros H. rewrite H in Hlen. discriminate. }
  unfold indicators_at in Hd. rewrite calculate_all_indicators_data in Hd.
  destruct (take (S u) data) as [|b rest] eqn:Htake; [contradiction|].
  injection Hd as <-. rewrite <- Htake in *. clear b rest Htake.
  assert (Hclen : length (closes (take (S u) data)) = S u)
    by now rewrite closes_length.
  apply iloc_neg_inv in Hcp as [_ Hcp].
  destruct (crossed_below_inv _ _ _ Hcross)
    as (p0 & r0 & r1 & Hc2 & Hr2 & Hp0 & Hr0 & Hr1 & Hlt0 & Hlt1).
  rewrite Hclen in Hcp, Hp0, Hc2.
  rewrite closes_take in Hcp, Hp0.
  rewrite lookup_take_lt in Hcp, Hp0 by lia.
  fold (indicators_at calculate_nymo rule data ticker u) in Hr2, Hr0, Hr1.
  fold (reference_at calculate_nymo rule data ticker u) in Hr2, Hr0, Hr1.
  assert (Hrlen : length (reference_at calculate_nymo rule data ticker u)
                  = S u).
  { unfold reference_at, get_series in *.
    destruct (ind_series _ !! reference_key rule) as [s|] eqn:Hs;
      cbn [default] in *; [|cbn in Hr2; lia].
    unfold indicators_at in Hs.
    apply computed_series_length in Hs;
      [unfold id; congruence | assumption | apply reference_key_stored]. }
  rewrite Hrlen in Hr0, Hr1.
  exists p0, cp, r0, r1.
  replace (S u - 2)%nat with (u - 1)%nat in * by lia.
  replace (S u - 1)%nat with u in * by lia.
  repeat split; try assumption. lia.
Qed.


End CrossBelow.

Section CrossBelowExamples.

Import TechnicalIndicators.

(** The ATR-stop rule does trigger on the fall from 15 to 10 at bar 6,
    and not on the further fall at bar 7. *)
Example atr_stop_triggers_once :
  triggers_at zeros atr_stop_rule example_bars "TEST" 6
  /\ (evaluate_trading_rule "TEST" atr_stop_rule
        (indicators_at zeros atr_stop_rule example_bars "TEST" 7)).1.1
     = false.
Proof. split; vm_compute; reflexivity. Qed.


End CrossBelowExamples.

(** ** Failures while evaluating a rule *)

Section RuleFailures.

Import TechnicalIndicators DataManager.

Variable St : Type.
Variable calculate_indicators_for_ticker :
  string -> string -> string -> St -> option Indicators * St.

Abbreviation evaluate_rules' :=
  (evaluate_rules St calculate_indicators_for_ticker).

(** The loop over a concatenation runs the first part, then the second
    from the signals and the state the first part left. *)
Lemma evaluate_rules_app (ticker : string) (pre post : list Rule) :
  forall (signals : list Signal) (st : St),
    evaluate_rules' ticker (pre ++ post) signals st
    = match evaluate_rules' ticker pre signals st with
      | (Ok signals1, st1) => evaluate_rules' ticker post signals1 st1
      | (Raise e, st1) => (Raise e, st1)
      end.
Proof.
  induction pre as [|rule pre IH]; intros signals st; [reflexivity|].
  cbn [app evaluate_rules].
  destruct (calculate_indicators_for_ticker _ _ _ st) as [[indicators|] st'];
    [|apply IH].
  destruct (evaluate_trading_rule ticker rule indicators)
    as [[[|] confidence] reasoning]; [|apply IH].
  destruct (make_signal _ _ _ _ _ _ _); [apply IH | reflexivity].
Qed.

(** A rule that does not trigger adds no signal and the loop goes on. *)
Lemma evaluate_rules_not_triggered (ticker : string) (rule : Rule)
    (rest : list Rule) (signals : list Signal) (st st' : St)
    (indicators : Indicators) :
  calculate_indicators_for_ticker ticker
    (default "D"%string (r_period rule))
    (default "365d"%string (r_interval rule)) st = (Some indicators, st') ->
  (evaluate_trading_rule ticker rule indicators).1.1 = false ->
  evaluate_rules' ticker (rule :: rest) signals st
  = evaluate_rules' ticker rest signals st'.
Proof.
  intros Hcalc Hfalse. cbn [evaluate_rules]. rewrite Hcalc.
  destruct (evaluate_trading_rule ticker rule indicators)
    as [[[|] confidence] reasoning]; [discriminate | reflexivity].
Qed.

(** A crossing rule whose reference series is not in the indicator set is
    tested against the one-element default series and cannot trigger. *)
Lemma absent_reference_not_triggered (ticker : string) (rule : Rule)
    (indicators : Indicators) :
  is_cross_rule rule = true ->
  ind_series indicators !! reference_key rule = None ->
  (evaluate_trading_rule ticker rule indicators).1.1 = false.
Proof.
  intros Hrule Habsent.
  destruct ((evaluate_trading_rule ticker rule indicators).1.1) eqn:Htrig;
    [|reflexivity].
  destruct (evaluate_trading_rule_crossed _ _ _ Hrule Htrig)
    as (data & cp & _ & _ & Hcross).
  unfold get_series in Hcross. rewrite Habsent in Hcross.
  destruct (crossed_below_inv _ _ _ Hcross) as (_ & _ & _ & _ & H & _).
  cbn in H. lia.
Qed.

(** C8, amended.  An exception raised while one rule is evaluated is
    caught inside the evaluator, which answers
    [(false, 0.0, "Error: <message>")] for that rule; a crossing rule
    whose reference series is absent from the indicator set raises
    nothing and is simply not triggered.  In both cases the rule adds no
    signal and the loop continues with the remaining rules from the
    signals collected so far. *)
Theorem rule_failure_is_local (ticker : string) (pre post : list Rule)
    (rule : Rule) (signals signals1 : list Signal) (st st1 st2 : St)
    (indicators : Indicators) :
  evaluate_rules' ticker pre signals st = (Ok signals1, st1) ->
  calculate_indicators_for_ticker ticker
    (default "D"%string (r_period rule))
    (default "365d"%string (r_interval rule)) st1 = (Some indicators, st2) ->
  (exists e, evaluate_trading_rule_body ticker rule indicators = Raise e)
  \/ (is_cross_rule rule = true
      /\ ind_series indicators !! reference_key rule = None) ->
  (evaluate_trading_rule ticker rule indicators).1.1 = false
  /\ (forall e,
        evaluate_trading_rule_body ticker rule indicators = Raise e ->
        evaluate_trading_rule ticker rule indicators
        = (false, 0, "Error: " +:+ str_exn e))
  /\ evaluate_rules' ticker (pre ++ rule :: post) signals st
     = evaluate_rules' ticker post signals1 st2.
Proof.
  intros Hpre Hcalc Hfail.
  assert (Hraise : forall e,
            evaluate_trading_rule_body ticker rule indicators = Raise e ->
            evaluate_trading_rule ticker rule indicators
            = (false, 0, "Error: " +:+ str_exn e)).
  { intros e He. unfold evaluate_trading_rule. now rewrite He. }
  assert (Hfalse : (evaluate_trading_rule ticker rule indicators).1.1 = false).
  { destruct Hfail as [[e He] | [Hrule Habsent]].
    - now rewrite (Hraise e He).
    - now apply absent_reference_not_triggered. }
  split; [exact Hfalse|]. split; [exact Hraise|].
  rewrite evaluate_rules_app, Hpre.
  now apply evaluate_rules_not_triggered with (indicators := indicators).
Qed.

End RuleFailures.

Section RuleFailureExamples.

Import TechnicalIndicators DataManager.

(** C8, as the claim states it, fails for a rule that references an
    indicator absent from the computed set.  On weekly indicators, which
    hold no ['nymo'] series, a NYMO rule with threshold 10 reads the
    default value 0 and triggers; and a 21-SMA-cross rule of length 30,
    whose series ['sma_30'] is not computed, is not triggered but carries
    an empty justification. *)
Lemma absent_indicator_is_not_a_diagnosed_failure :
  let indicators := calculate_all_indicators zeros example_bars "TEST" "W" in
  ind_series indicators !! "nymo"%string = None
  /\ evaluate_trading_rule "TEST" nymo_rebound_rule indicators
     = (true, 1, "NYMO below 10; Priority 5 rule"%string)
  /\ ind_series indicators !! "sma_30"%string = None
  /\ evaluate_trading_rule "TEST" sma_30_rule indicators
     = (false, 0, ""%string).
Proof. repeat split; vm_compute; reflexivity. Qed.

Lemma rule_failure_is_local_witness :
  let calc := fun (_ _ _ : string) (st : unit) => (Some no_indicators, st) in
  (evaluate_trading_rule "TEST" atr_stop_rule no_indicators).1.1 = false
  /\ (forall e,
        evaluate_trading_rule_body "TEST" atr_stop_rule no_indicators
          = Raise e ->
        evaluate_trading_rule "TEST" atr_stop_rule no_indicators
        = (false, 0, "Error: " +:+ str_exn e))
  /\ evaluate_rules unit calc "TEST" ([] ++ atr_stop_rule :: [sma_30_rule]) [] ()
     = evaluate_rules unit calc "TEST" [sma_30_rule] [] ().
Proof.
  apply (rule_failure_is_local unit
           (fun _ _ _ st => (Some no_indicators, st))
           "TEST" [] [sma_30_rule] atr_stop_rule [] [] () () ()
           no_indicators).
  - reflexivity.
  - reflexivity.
  - left. exists (KeyError "data"). reflexivity.
Defined.

End RuleFailureExamples.

(** * Further properties *)

(** ** Position log *)

Section PositionLog.

Import PositionManager PositionTracking.

(** What [update_position] does to the entry of any ticker [t]. *)
Lemma update_position_lookup (positions : Positions) (now : Z)
    (ticker action : string) (kwargs : UpdateArgs) (t : string) :
  update_position positions now ticker action kwargs !! t
  = match positions !! t with
    | None => None
    | Some p =>
      if decide (ticker = t) then
        if String.eqb action "average_down" then
          Some {| entry_price := entry_price p;
                  pos_shares := pos_shares p;
                  pos_value := pos_value p;
                  rule_name := rule_name p;
                  entry_confidence := entry_confidence p;
                  entry_date := entry_date p;
                  averaging_levels :=
                    averaging_levels p
                    ++ [ {| ae_date := now; ae_price := kw_price kwargs;
                            ae_shares := kw_shares kwargs;
                            ae_level := kw_level kwargs |} ];
                  partial_sales := partial_sales p |}
        else if String.eqb action "partial_sale" then
          Some {| entry_price := entry_price p;
                  pos_shares := pos_shares p;
                  pos_value := pos_value p;
                  rule_name := rule_name p;
                  entry_confidence := entry_confidence p;
                  entry_date := entry_date p;
                  averaging_levels := averaging_levels p;
                  partial_sales :=
                    partial_sales p
                    ++ [ {| sale_date := now; sale_price := kw_price kwargs;
                            sale_shares := kw_shares kwargs;
                            sale_reason := kw_reason kwargs |} ] |}
        else Some p
      else Some p
    end.
Proof.
  unfold update_position.
  destruct (decide (ticker = t)) as [-> | Hne].
  - destruct (positions !! t) as [p|] eqn:Hp; [|now rewrite Hp].
    destruct (String.eqb action "average_down");
      [now rewrite lookup_insert_eq|].
    destruct (String.eqb action "partial_sale");
      [now rewrite lookup_insert_eq | now rewrite Hp].
  - destruct (positions !! ticker) as [q|];
      [|destruct (positions !! t); reflexivity].
    destruct (String.eqb action "average_down");
      [rewrite lookup_insert_ne by assumption;
       destruct (positions !! t); reflexivity|].
    destruct (String.eqb action "partial_sale");
      [rewrite lookup_insert_ne by assumption|];
      destruct (positions !! t); reflexivity.
Qed.

(** X1.  [update_position] never adds or removes a position and never touches
    the entry price, share count, value, rule, confidence or date of one;
    it only appends: the two logs of every position are prefixes of what
    they become, and at most one event is added. *)
Theorem update_position_only_appends (positions : Positions) (now : Z)
    (ticker action : string) (kwargs : UpdateArgs) (t : string) :
  match positions !! t,
        update_position positions now ticker action kwargs !! t with
  | None, None => True
  | Some p, Some p' =>
    entry_price p' = entry_price p
    /\ pos_shares p' = pos_shares p
    /\ pos_value p' = pos_value p
    /\ rule_name p' = rule_name p
    /\ entry_confidence p' = entry_confidence p
    /\ entry_date p' = entry_date p
    /\ averaging_levels p `prefix_of` averaging_levels p'
    /\ partial_sales p `prefix_of` partial_sales p'
    /\ (length (averaging_levels p') + length (partial_sales p')
        <= S (length (averaging_levels p) + length (partial_sales p)))%nat
  | _, _ => False
  end.
Proof.
  rewrite update_position_lookup.
  destruct (positions !! t) as [p|]; [|trivial].
  destruct (decide (ticker = t));
    [destruct (String.eqb action "average_down");
     [|destruct (String.eqb action "partial_sale")]|];
    cbn [entry_price pos_shares pos_value rule_name entry_confidence
           entry_date averaging_levels partial_sales];
    rewrite ?length_app; cbn [length];
    repeat split; try reflexivity; try (apply prefix_app_r; reflexivity);
    lia.
Qed.

(** The entry of [ticker] after a sequence of updates. *)
Lemma apply_updates_lookup (ticker : string) (us : list Update) :
  forall (positions : Positions) (p : Position),
    positions !! ticker = Some p ->
    exists p',
      apply_updates positions us !! ticker = Some p'
      /\ entry_price p' = entry_price p
      /\ pos_shares p' = pos_shares p
      /\ pos_value p' = pos_value p
      /\ length (averaging_levels p')
         = (length (averaging_levels p)
            + count_updates ticker "average_down" us)%nat
      /\ length (partial_sales p')
         = (length (partial_sales p)
            + count_updates ticker "partial_sale" us)%nat.
Proof.
  induction us as [|u us IH]; intros positions p Hp.
  - exists p. cbn. rewrite Hp. repeat split; try reflexivity; lia.
  - unfold apply_updates in *. cbn [foldl].
    assert (Hstep := update_position_lookup positions (u_now u) (u_ticker u)
                       (u_action u) (u_kwargs u) ticker).
    rewrite Hp in Hstep. fold (apply_update positions u) in Hstep.
    unfold count_updates. cbn [List.filter].
    destruct (decide (u_ticker u = ticker)) as [Heq | Hne].
    + rewrite Heq, String.eqb_refl. cbn [andb].
      destruct (String.eqb (u_action u) "average_down") eqn:Ea.
      { apply String.eqb_eq in Ea. rewrite Ea. cbn [String.eqb length].
        destruct (IH _ _ Hstep) as (p' & H1 & H2 & H3 & H4 & H5 & H6).
        exists p'. cbn in *. rewrite H5, H6, length_app.
        unfold count_updates. cbn. repeat split; try assumption; lia. }
      destruct (String.eqb (u_action u) "partial_sale") eqn:Es.
      { destruct (IH _ _ Hstep) as (p' & H1 & H2 & H3 & H4 & H5 & H6).
        exists p'. cbn in *. rewrite H5, H6, length_app.
        unfold count_updates. cbn. repeat split; try assumption; lia. }
      destruct (IH _ _ Hstep) as (p' & H1 & H2 & H3 & H4 & H5 & H6).
      exists p'. unfold count_updates in *. repeat split; assumption.
    + assert (E : String.eqb (u_ticker u) ticker = false)
        by now apply String.eqb_neq.
      rewrite E. cbn [andb].
      destruct (IH _ _ Hstep) as (p' & H1 & H2 & H3 & H4 & H5 & H6).
      exists p'. unfold count_updates in *. repeat split; assumption.
Qed.

(** X2.  After [add_position] and any sequence of [update_position] calls the
    summary of the ticker shows the entry price, shares and value it was
    added with, and its two counts are the numbers of [average_down] and
    [partial_sale] updates made for it since: adding a ticker again
    starts both logs afresh. *)
Theorem get_position_summary_counts (positions : Positions) (now : Z)
    (ticker : string) (entry_price : Q) (shares : Z) (position_value : Q)
    (rule_name : string) (confidence : Q) (us : list Update) :
  exists s,
    get_position_summary
      (apply_updates
         (add_position positions now ticker entry_price shares
            position_value rule_name confidence) us) ticker = Some s
    /\ sum_entry_price s = entry_price
    /\ sum_total_shares s = shares
    /\ sum_entry_value s = position_value
    /\ sum_averaging_count s = count_updates ticker "average_down" us
    /\ sum_partial_sales_count s = count_updates ticker "partial_sale" us.
Proof.
  destruct (apply_updates_lookup ticker us
              (add_position positions now ticker entry_price shares
                 position_value rule_name confidence) _
              (lookup_insert_eq _ _ _))
    as (p' & Hp' & H1 & H2 & H3 & H4 & H5).
  unfold get_position_summary. rewrite Hp'.
  eexists. split; [reflexivity|]. cbn in *.
  repeat split; assumption.
Qed.

(** ** Partial profit *)



End PositionLog.

(** ** Exponentially weighted means stay in range *)

Section EwmRange.

Import TechnicalIndicators AtrSizing.

(** One step of the loop is a convex combination of the running mean and
    the new value. *)
Lemma ewm_step_lower (lo w c o1 nw : Q) :
  0 <= o1 -> 0 < nw -> lo <= w -> lo <= c ->
  lo <= (o1 * w + nw * c) / (o1 + nw).
Proof.
  intros Ho Hn Hw Hc. apply Qle_shift_div_l; [lra|]. nra.
Qed.

Lemma ewm_step_upper (hi w c o1 nw : Q) :
  0 <= o1 -> 0 < nw -> w <= hi -> c <= hi ->
  (o1 * w + nw * c) / (o1 + nw) <= hi.
Proof.
  intros Ho Hn Hw Hc. apply Qle_shift_div_r; [lra|]. nra.
Qed.

Lemma ewm_from_range (adjust : bool) (alpha lo hi : Q) (vals : list Q) :
  0 < alpha -> alpha <= 1 ->
  Forall (fun v => lo <= v /\ v <= hi) vals ->
  forall weighted old_wt,
    0 < old_wt -> lo <= weighted -> weighted <= hi ->
    Forall (fun v => lo <= v /\ v <= hi)
           (ewm_from adjust alpha weighted old_wt vals).
Proof.
  intros Ha0 Ha1 Hvals.
  induction Hvals as [|c vals [Hc1 Hc2] Hvals IH];
    intros weighted old_wt Ho Hw1 Hw2; cbn [ewm_from]; constructor.
  - assert (H1 : 0 <= old_wt * (1 - alpha)) by nra.
    assert (H2 : 0 < (if adjust then 1 else alpha)) by (destruct adjust; lra).
    split; [apply ewm_step_lower | apply ewm_step_upper]; assumption.
  - assert (H1 : 0 <= old_wt * (1 - alpha)) by nra.
    assert (H2 : 0 < (if adjust then 1 else alpha)) by (destruct adjust; lra).
    apply IH.
    + destruct adjust; lra.
    + apply ewm_step_lower; assumption.
    + apply ewm_step_upper; assumption.
Qed.

Lemma ewm_mean_range (adjust : bool) (alpha lo hi : Q) (vals : list Q) :
  0 < alpha -> alpha <= 1 ->
  Forall (fun v => lo <= v /\ v <= hi) vals ->
  Forall (fun v => lo <= v /\ v <= hi) (ewm_mean adjust alpha vals).
Proof.
  intros Ha0 Ha1 Hvals. destruct vals as [|x vals]; [constructor|].
  cbn [ewm_mean]. inversion Hvals as [|? ? [Hx1 Hx2] Hrest]; subst.
  constructor; [auto|]. apply ewm_from_range; auto. reflexivity.
Qed.

Lemma span_alpha_range (period : nat) :
  (1 <= period)%nat ->
  0 < 2 / (inject_Z (Z.of_nat period) + 1)
  /\ 2 / (inject_Z (Z.of_nat period) + 1) <= 1.
Proof.
  intros Hp.
  assert (H1 : 1 <= inject_Z (Z.of_nat period)).
  { change 1 with (inject_Z 1). rewrite <- Zle_Qle. lia. }
  split.
  - apply Qlt_shift_div_l; lra.
  - apply Qle_shift_div_r; lra.
Qed.

Lemma wilder_alpha_range (period : nat) :
  (1 <= period)%nat ->
  0 < 1 / inject_Z (Z.of_nat period)
  /\ 1 / inject_Z (Z.of_nat period) <= 1.
Proof.
  intros Hp.
  assert (H1 : 1 <= inject_Z (Z.of_nat period)).
  { change 1 with (inject_Z 1). rewrite <- Zle_Qle. lia. }
  split.
  - apply Qlt_shift_div_l; lra.
  - apply Qle_shift_div_r; lra.
Qed.

(** X4.  The exponential moving average never leaves the range of the closes:
    if every close lies between [lo] and [hi], so does every value of
    the average. *)
Theorem calculate_ema_within_closes (data : DataFrame) (period : nat)
    (lo hi : Q) (s : Series) :
  Forall (fun b => lo <= close b /\ close b <= hi) data ->
  calculate_ema data period = Ok s ->
  cells_within lo hi s.
Proof.
  intros Hdata Hs. unfold calculate_ema in Hs.
  destruct (period <? 1)%nat eqn:Ep; [discriminate|].
  apply Nat.ltb_ge in Ep. injection Hs as <-.
  destruct (span_alpha_range period Ep) as [Ha0 Ha1].
  assert (Hc : Forall (fun v => lo <= v /\ v <= hi) (closes data)).
  { unfold closes. rewrite Forall_map. exact Hdata. }
  assert (H := ewm_mean_range true _ lo hi _ Ha0 Ha1 Hc).
  unfold cells_within. rewrite Forall_map.
  eapply Forall_impl; [exact H|]. cbn. auto.
Qed.

Lemma calculate_ema_within_closes_witness :
  cells_within 9 15
    (map Some (ewm_mean true (2 / (inject_Z (Z.of_nat 10) + 1))
                 (closes example_bars))).
Proof.
  apply (calculate_ema_within_closes example_bars 10 9 15).
  - repeat constructor; cbn; lra.
  - reflexivity.
Defined.

End EwmRange.

(** ** Simple moving average and ATR *)

Section AverageTrueRange.

Import TechnicalIndicators AtrSizing.

Lemma inject_nat_S (n : nat) :
  inject_Z (Z.of_nat (S n)) == inject_Z (Z.of_nat n) + 1.
Proof. rewrite Nat2Z.inj_succ, <- Z.add_1_r, inject_Z_plus. reflexivity. Qed.

Lemma sum_Q_range (lo hi : Q) (l : list Q) :
  Forall (fun v => lo <= v /\ v <= hi) l ->
  inject_Z (Z.of_nat (length l)) * lo <= sum_Q l
  /\ sum_Q l <= inject_Z (Z.of_nat (length l)) * hi.
Proof.
  induction 1 as [|x l [Hx1 Hx2] _ [IH1 IH2]].
  - unfold sum_Q. cbn [length foldr].
    change (inject_Z (Z.of_nat 0)) with 0. lra.
  - cbn [length]. unfold sum_Q in *. cbn [foldr].
    rewrite inject_nat_S. nra.
Qed.

Lemma mean_range (lo hi : Q) (l : list Q) (v : Q) :
  Forall (fun v => lo <= v /\ v <= hi) l ->
  mean l = Some v -> lo <= v /\ v <= hi.
Proof.
  intros Hl Hv. destruct (sum_Q_range lo hi l Hl) as [H1 H2].
  destruct l as [|x l]; [discriminate|].
  cbn [mean] in Hv. injection Hv as <-.
  assert (Hn : 0 < inject_Z (Z.of_nat (length (x :: l)))).
  { change 0 with (inject_Z 0). rewrite <- Zlt_Qlt. cbn [length]. lia. }
  split; [apply Qle_shift_div_l | apply Qle_shift_div_r];
    try assumption; rewrite Qmult_comm; assumption.
Qed.

(** X5.  A simple moving average lies within the range of the closes. *)
Theorem calculate_sma_within_closes (data : DataFrame) (period : nat)
    (lo hi : Q) :
  Forall (fun b => lo <= close b /\ close b <= hi) data ->
  cells_within lo hi (calculate_sma data period).
Proof.
  intros Hdata. unfold cells_within. apply Forall_lookup. intros i c Hi.
  assert (Hlt : (i < length (closes data))%nat).
  { apply lookup_lt_Some in Hi. unfold calculate_sma in Hi.
    now rewrite rolling_length in Hi. }
  unfold calculate_sma in Hi. rewrite rolling_lookup in Hi by assumption.
  injection Hi as <-. destruct (S i <? period)%nat; [trivial|].
  destruct (mean (window period i (closes data))) as [v|] eqn:Hv; [|trivial].
  eapply mean_range; [|exact Hv].
  unfold window. apply Forall_take, Forall_drop.
  unfold closes. rewrite Forall_map. exact Hdata.
Qed.

Lemma calculate_sma_within_closes_witness :
  cells_within 9 15 (calculate_sma example_bars 3).
Proof.
  apply (calculate_sma_within_closes example_bars 3 9 15).
  repeat constructor; cbn; lra.
Defined.

Lemma true_range_from_nonneg (data : DataFrame) :
  Forall valid_bar data ->
  forall prev_close, Forall (fun v => 0 <= v) (true_range_from prev_close data).
Proof.
  induction 1 as [|b data Hb _ IH]; intros prev_close; cbn [true_range_from];
    constructor; [|apply IH].
  unfold valid_bar in Hb. destruct prev_close as [c|]; [|lra].
  apply Qle_trans with (Qmax (high b - low b) (Qabs (high b - c)));
    [|apply Q.le_max_l].
  apply Qle_trans with (high b - low b); [lra | apply Q.le_max_l].
Qed.

Lemma upper_bound_exists (l : list Q) :
  exists hi, 0 <= hi /\ Forall (fun v => v <= hi) l.
Proof.
  induction l as [|x l (hi & H0 & IH)].
  - exists 0. split; [lra | constructor].
  - exists (Qmax x hi). split.
    + apply Qle_trans with hi; [assumption | apply Q.le_max_r].
    + constructor; [apply Q.le_max_l|].
      eapply Forall_impl; [exact IH|]. cbn. intros v Hv.
      apply Qle_trans with hi; [assumption | apply Q.le_max_r].
Qed.

Lemma calculate_atr_lookup_nonneg (data : DataFrame) (period i : nat) (a : Q) :
  Forall valid_bar data ->
  calculate_atr data period !! i = Some (Some a) ->
  0 <= a.
Proof.
  intros Hdata Hi. unfold calculate_atr, calculate_atr_body in Hi.
  assert (Hzero : zeros data !! i = Some (Some a) -> 0 <= a).
  { unfold zeros. rewrite list_lookup_fmap.
    destruct (data !! i); cbn; [|discriminate]. intros [= <-]. lra. }
  destruct (length data <? period)%nat eqn:Elen; [auto|].
  destruct period as [|p].
  { rewrite fdiv_zero in Hi by reflexivity. auto. }
  rewrite fdiv_ok in Hi
    by (unfold Qeq; cbn; lia).
  cbn [rbind] in Hi.
  destruct (wilder_alpha_range (S p)) as [Ha0 Ha1]; [lia|].
  assert (Htr := true_range_from_nonneg data Hdata None).
  destruct (upper_bound_exists (true_range data)) as (hi & Hhi0 & Hhi).
  assert (Hboth : Forall (fun v => 0 <= v /\ v <= hi) (true_range data)).
  { unfold true_range. rewrite Forall_forall in *. intros v Hv.
    split; [apply Htr | apply Hhi]; assumption. }
  assert (H := ewm_mean_range false _ 0 hi _ Ha0 Ha1 Hboth).
  rewrite list_lookup_fmap in Hi.
  destruct (ewm_mean false _ (true_range data) !! i) as [v|] eqn:Hv;
    [|discriminate].
  injection Hi as <-. rewrite Forall_lookup in H. exact (proj1 (H i v Hv)).
Qed.

Lemma calculate_atr_is_number (data : DataFrame) (period i : nat)
    (c : option Q) :
  calculate_atr data period !! i = Some c -> exists a, c = Some a.
Proof.
  intros Hc. unfold calculate_atr, calculate_atr_body, zeros in Hc.
  destruct (length data <? period)%nat;
    [|destruct (fdiv 1 (inject_Z (Z.of_nat period))); cbn [rbind] in Hc];
    rewrite list_lookup_fmap in Hc;
    match type of Hc with
    | (_ <$> ?o) = _ => destruct o; [|discriminate]
    end; injection Hc as <-; eauto.
Qed.

(** X6.  ATR is always a number, and never a negative one on bars whose low
    does not exceed their high, whatever the period and the length of the
    history. *)
Theorem calculate_atr_nonnegative (data : DataFrame) (period : nat) :
  Forall valid_bar data ->
  Forall (fun c => exists a, c = Some a /\ 0 <= a) (calculate_atr data period).
Proof.
  intros Hdata. apply Forall_lookup. intros i c Hc.
  destruct (calculate_atr_is_number _ _ _ _ Hc) as [a ->].
  exists a. split; [reflexivity|].
  eapply calculate_atr_lookup_nonneg; eassumption.
Qed.

Lemma calculate_atr_nonnegative_witness :
  Forall (fun c => exists a, c = Some a /\ 0 <= a)
         (calculate_atr example_bars 5).
Proof.
  apply (calculate_atr_nonnegative example_bars 5).
  unfold example_bars. cbn [map].
  repeat (constructor; [unfold valid_bar; cbn; lra|]).
  constructor.
Defined.

(** With a warm history ATR is Wilder's recursion on the true range:
    seeded with the first true range, each value is the previous one
    weighted [1 - 1/period] plus the new true range weighted
    [1/period]. *)
Lemma ewm_from_recursion (alpha : Q) (vals : list Q) :
  forall (weighted : Q) (k : nat) (a x : Q),
    (weighted :: ewm_from false alpha weighted 1 vals) !! k = Some a ->
    vals !! k = Some x ->
    exists a',
      ewm_from false alpha weighted 1 vals !! k = Some a'
      /\ a' == (1 - alpha) * a + alpha * x.
Proof.
  induction vals as [|v vals IH]; intros weighted k a x Ha Hx;
    [discriminate|].
  cbn [ewm_from]. destruct k as [|k].
  - cbn in Ha, Hx. injection Ha as <-. injection Hx as <-.
    eexists. split; [reflexivity|]. field. lra.
  - cbn [lookup list_lookup] in Ha, Hx |- *.
    change (ewm_from false alpha weighted 1 (v :: vals) !! k = Some a) in Ha.
    cbn [ewm_from] in Ha.
    exact (IH _ k a x Ha Hx).
Qed.

Lemma true_range_from_lookup (data : DataFrame) :
  forall (prev_close : option Q) (t : nat) (b0 b1 : Bar),
    data !! t = Some b0 -> data !! S t = Some b1 ->
    true_range_from prev_close data !! S t
    = Some (Qmax (Qmax (high b1 - low b1) (Qabs (high b1 - close b0)))
                 (Qabs (low b1 - close b0))).
Proof.
  induction data as [|b data IH]; intros prev_close t b0 b1 H0 H1;
    [discriminate|].
  cbn [true_range_from]. destruct t as [|t].
  - cbn in H0. injection H0 as <-.
    destruct data as [|b' data]; [discriminate|].
    cbn in H1. injection H1 as <-. reflexivity.
  - cbn [lookup list_lookup] in *. exact (IH _ t b0 b1 H0 H1).
Qed.

(** X7.  With at least [period] bars ([period >= 1]) ATR is Wilder's recursion
    on the true range: it starts at the first bar's [high - low], and at
    each later bar it is the previous ATR weighted [1 - 1/period] plus
    the bar's true range (the largest of [high - low],
    [|high - previous close|] and [|low - previous close|]) weighted
    [1/period]. *)
Theorem calculate_atr_wilder_recursion (data : DataFrame) (period : nat) :
  (1 <= period)%nat -> (period <= length data)%nat ->
  let alpha := 1 / inject_Z (Z.of_nat period) in
  (forall b, data !! 0%nat = Some b ->
             calculate_atr data period !! 0%nat = Some (Some (high b - low b)))
  /\ (forall t b0 b1 a,
        data !! t = Some b0 -> data !! S t = Some b1 ->
        calculate_atr data period !! t = Some (Some a) ->
        exists a',
          calculate_atr data period !! S t = Some (Some a')
          /\ a' == (1 - alpha) * a
                   + alpha * Qmax (Qmax (high b1 - low b1)
                                        (Qabs (high b1 - close b0)))
                                  (Qabs (low b1 - close b0))).
Proof.
  intros Hp Hlen alpha.
  rewrite (calculate_atr_warm data period Hp Hlen). fold alpha.
  unfold true_range. split.
  - intros b Hb. destruct data as [|b' data]; [discriminate|].
    cbn in Hb. injection Hb as ->. reflexivity.
  - intros t b0 b1 a H0 H1 Ha.
    assert (Htr := true_range_from_lookup data None t b0 b1 H0 H1).
    destruct data as [|b data]; [discriminate|].
    cbn [true_range_from ewm_mean] in *.
    rewrite list_lookup_fmap in Ha.
    destruct ((high b - low b
               :: ewm_from false alpha (high b - low b) 1
                    (true_range_from (Some (close b)) data)) !! t)
      as [a0|] eqn:Ha0; [|discriminate].
    injection Ha as <-.
    cbn [lookup list_lookup] in Htr.
    destruct (ewm_from_recursion alpha _ _ t a0 _ Ha0 Htr) as (a' & Ha' & Heq).
    exists a'. split; [|exact Heq].
    change (map Some (ewm_from false alpha (high b - low b) 1
                        (true_range_from (Some (close b)) data)) !! t
            = Some (Some a')).
    now rewrite list_lookup_fmap, Ha'.
Qed.

Lemma calculate_atr_wilder_recursion_witness :
  let alpha := 1 / inject_Z (Z.of_nat 2) in
  (forall b, example_bars !! 0%nat = Some b ->
             calculate_atr example_bars 2 !! 0%nat
             = Some (Some (high b - low b)))
  /\ (forall t b0 b1 a,
        example_bars !! t = Some b0 -> example_bars !! S t = Some b1 ->
        calculate_atr example_bars 2 !! t = Some (Some a) ->
        exists a',
          calculate_atr example_bars 2 !! S t = Some (Some a')
          /\ a' == (1 - alpha) * a
                   + alpha * Qmax (Qmax (high b1 - low b1)
                                        (Qabs (high b1 - close b0)))
                                  (Qabs (low b1 - close b0))).
Proof.
  apply (calculate_atr_wilder_recursion example_bars 2); cbn; lia.
Defined.

Lemma maximum_upper_bound (l : list Q) (m : Q) :
  maximum l = Some m -> Forall (fun v => v <= m) l.
Proof.
  destruct l as [|x l]; [discriminate|]. cbn [maximum]. intros [= <-].
  assert (H : forall l x, x <= foldl Qmax x l
                          /\ Forall (fun v => v <= foldl Qmax x l) l).
  { clear. induction l as [|y l IH]; intros x; cbn [foldl].
    - split; [lra | constructor].
    - destruct (IH (Qmax x y)) as [H1 H2]. split.
      + eapply Qle_trans; [apply Q.le_max_l | exact H1].
      + constructor; [|exact H2].
        eapply Qle_trans; [apply Q.le_max_r | exact H1]. }
  destruct (H l x) as [H1 H2]. constructor; assumption.
Qed.

(** X8.  The ATR trailing stop has no value before [period] bars are known;
    from then on it is the highest high of the last [period] bars minus
    the ATR of the bar, so on bars whose low does not exceed their high
    it never lies above that highest high, which is itself at least the
    bar's own high. *)
Theorem calculate_atr_trailing_stop_below_high (data : DataFrame)
    (period i : nat) (b : Bar) :
  data !! i = Some b ->
  ((S i < period)%nat ->
   calculate_atr_trailing_stop data period !! i = Some None)
  /\ ((1 <= period)%nat -> (period <= S i)%nat ->
      exists hh a,
        maximum (window period i (highs data)) = Some hh
        /\ calculate_atr data period !! i = Some (Some a)
        /\ calculate_atr_trailing_stop data period !! i = Some (Some (hh - a))
        /\ high b <= hh
        /\ (Forall valid_bar data -> hh - a <= hh)).
Proof.
  intros Hb.
  assert (Hi : (i < length data)%nat) by (eapply lookup_lt_Some; eassumption).
  assert (Hh : (i < length (highs data))%nat)
    by (unfold highs; now rewrite length_map).
  destruct (lookup_lt_is_Some_2 (calculate_atr data period) i) as [c Hc];
    [now rewrite calculate_atr_length|].
  unfold calculate_atr_trailing_stop.
  rewrite series_sub_lookup, (rolling_lookup _ _ _ _ Hh), Hc.
  split.
  - intros H. apply Nat.ltb_lt in H. now rewrite H.
  - intros Hp Hpi. assert (E := Hpi). apply Nat.ltb_ge in E. rewrite E.
    assert (Hwin : high b ∈ window period i (highs data)).
    { unfold window. apply list_elem_of_lookup.
      exists (i - (S i - period))%nat.
      rewrite lookup_take_lt by lia. rewrite lookup_drop.
      replace (S i - period + (i - (S i - period)))%nat with i by lia.
      unfold highs. now rewrite list_lookup_fmap, Hb. }
    destruct (maximum (window period i (highs data))) as [hh|] eqn:Hmax.
    2:{ destruct (window period i (highs data)); [|discriminate].
        inversion Hwin. }
    assert (Hhh : high b <= hh).
    { apply maximum_upper_bound in Hmax. rewrite Forall_forall in Hmax.
      now apply Hmax. }
    destruct (calculate_atr_is_number _ _ _ _ Hc) as [a ->].
    exists hh, a. repeat split; try assumption; try reflexivity.
    intros Hvalid.
    assert (0 <= a) by (eapply calculate_atr_lookup_nonneg; eassumption).
    lra.
Qed.

Lemma calculate_atr_trailing_stop_below_high_witness :
  ((S 6 < 5)%nat ->
   calculate_atr_trailing_stop example_bars 5 !! 6%nat = Some None)
  /\ ((1 <= 5)%nat -> (5 <= S 6)%nat ->
      exists hh a,
        maximum (window 5 6 (highs example_bars)) = Some hh
        /\ calculate_atr example_bars 5 !! 6%nat = Some (Some a)
        /\ calculate_atr_trailing_stop example_bars 5 !! 6%nat
           = Some (Some (hh - a))
        /\ high {| open := 10; high := 10 + 1; low := 10 - 1; close := 10;
                   volume := 1000 |} <= hh
        /\ (Forall valid_bar example_bars -> hh - a <= hh)).
Proof.
  apply (calculate_atr_trailing_stop_below_high example_bars 5 6).
  reflexivity.
Defined.

End AverageTrueRange.

(** ** ATR-based sizing and the indicator set *)

Section IndicatorSet.

Import TechnicalIndicators AtrSizing.

Lemma iloc_neg_last {A} (l : list A) :
  (if (0 <? length l)%nat then iloc_neg 1 l else Raise IndexError)
  = match last l with Some x => Ok x | None => Raise IndexError end.
Proof.
  unfold iloc_neg. rewrite last_lookup.
  destruct l as [|x l]; [reflexivity|].
  cbn [length Nat.ltb Nat.leb Nat.pred].
  replace (S (length l) - 1)%nat with (length l) by lia.
  destruct ((x :: l) !! length l) eqn:E; [reflexivity|].
  apply lookup_ge_None in E. cbn in E. lia.
Qed.




Variable calculate_nymo : DataFrame -> Series.

Lemma nymo_series_lookup (data : DataFrame) (ticker period : string) :
  data <> [] ->
  ind_series (calculate_all_indicators calculate_nymo data ticker period)
    !! "nymo"%string
  = if String.eqb period "D" then Some (calculate_nymo data) else None.
Proof.
  intros Hdata.
  unfold calculate_all_indicators, calculate_all_indicators_body.
  destruct data as [|b data]; [contradiction|].
  set (d := b :: data).
  change (calculate_ema d 10) with (Ok (ema_series d 10)).
  change (calculate_ema d 20) with (Ok (ema_series d 20)).
  change (calculate_ema d 40) with (Ok (ema_series d 40)).
  cbn [rbind ind_series].
  destruct (String.eqb period "D"); [apply lookup_insert_eq|].
  repeat (rewrite lookup_insert_ne by discriminate). apply lookup_empty.
Qed.


End IndicatorSet.

Section IndicatorSetExamples.

Import TechnicalIndicators AtrSizing.


End IndicatorSetExamples.

(** ** Rule evaluator: gate and dispatch *)

Section GateAndDispatch.

Import TechnicalIndicators RuleEdits.

Lemma drop_last_one {A} (l : list A) (x : A) :
  l !! (length l - 1)%nat = Some x -> (1 <= length l)%nat ->
  drop (length l - 1) l = [x].
Proof.
  intros Hx Hlen.
  assert (Hd : length (drop (length l - 1) l) = 1%nat)
    by (rewrite length_drop; lia).
  destruct (drop (length l - 1) l) as [|y [|z r]] eqn:E; try discriminate.
  assert (Hy : drop (length l - 1) l !! 0%nat = Some y) by now rewrite E.
  rewrite lookup_drop, Nat.add_0_r, Hx in Hy. now injection Hy as ->.
Qed.

(** X11.  The trailing average of the gate includes the current bar, so a
    window of one bar compares the close with itself and an empty window
    has no average: a rule whose [previous_days] is 0 or 1 is vetoed on
    every indicator set and never triggers. *)
Theorem previous_days_of_one_never_triggers (ticker : string) (rule : Rule)
    (indicators : Indicators) (n : Z) :
  r_previous_days rule = Some n -> (n = 0 \/ n = 1)%Z ->
  (evaluate_trading_rule ticker rule indicators).1.1 = false.
Proof.
  intros Hn Hcases.
  unfold evaluate_trading_rule, evaluate_trading_rule_body.
  destruct (ind_data indicators) as [data|]; cbn [rbind]; [|reflexivity].
  destruct (iloc_neg 1 (closes data)) as [cp|] eqn:Hcp; cbn [rbind];
    [|reflexivity].
  apply iloc_neg_inv in Hcp as [Hlen Hcp].
  assert (Hgate : exists v, previous_days_gate rule data cp = inl v).
  { unfold previous_days_gate. rewrite Hn.
    assert (E : (n <=? Z.of_nat (length data))%Z = true).
    { rewrite closes_length in Hlen. apply Z.leb_le. lia. }
    rewrite E. unfold tail.
    destruct Hcases as [-> | ->].
    - change (0 <? 0)%Z with false. change (Z.to_nat 0) with 0%nat.
      cbv iota. rewrite Nat.sub_0_r, drop_all. cbn. eauto.
    - change (1 <? 0)%Z with false. change (Z.to_nat 1) with 1%nat.
      cbv iota.
      rewrite (drop_last_one _ _ Hcp Hlen). cbn [mean gt_cell length].
      assert (E1 : fgt cp (sum_Q [cp] / inject_Z (Z.of_nat 1)) = false).
      { apply flt_false_iff. unfold sum_Q. cbn [foldr].
        apply Qle_lteq. right. field. }
      rewrite E1. eauto. }
  destruct Hgate as [[c r] ->]. reflexivity.
Qed.

Lemma previous_days_of_one_never_triggers_witness :
  (evaluate_trading_rule "TEST"
     {| r_name := Some "test_sma_cross_21"%string;
        r_type := Some "buy"%string; r_priority := Some 1%Z;
        r_period := Some "D"%string; r_interval := None;
        r_length := Some 21%Z; r_previous_days := Some 1%Z;
        r_nymo_threshold := None; r_stocks := None |}
     scenario_a_indicators).1.1 = false.
Proof.
  apply (previous_days_of_one_never_triggers "TEST" _ scenario_a_indicators 1).
  - reflexivity.
  - right. reflexivity.
Defined.

(** X12.  With fewer bars than [previous_days] the gate is passed over without
    a veto or a note: the rule is evaluated exactly as if it had no
    ['previous_days'] key. *)
Theorem previous_days_gate_skipped_on_short_history (ticker : string)
    (rule : Rule) (indicators : Indicators) (data : DataFrame) (n : Z) :
  r_previous_days rule = Some n ->
  ind_data indicators = Some data ->
  (Z.of_nat (length data) < n)%Z ->
  evaluate_trading_rule ticker rule indicators
  = evaluate_trading_rule ticker (without_previous_days rule) indicators.
Proof.
  intros Hn Hdata Hshort.
  unfold evaluate_trading_rule, evaluate_trading_rule_body.
  rewrite Hdata. cbn [rbind].
  destruct (iloc_neg 1 (closes data)) as [cp|]; cbn [rbind]; [|reflexivity].
  assert (E : (n <=? Z.of_nat (length data))%Z = false)
    by (apply Z.leb_gt; lia).
  unfold previous_days_gate. rewrite Hn, E.
  cbn [without_previous_days r_previous_days r_name r_priority r_length].
  reflexivity.
Qed.

Lemma previous_days_gate_skipped_on_short_history_witness :
  let rule :=
    {| r_name := Some "test_sma_cross_21"%string;
       r_type := Some "buy"%string; r_priority := Some 1%Z;
       r_period := Some "D"%string; r_interval := None;
       r_length := Some 21%Z; r_previous_days := Some 20%Z;
       r_nymo_threshold := None; r_stocks := None |} in
  evaluate_trading_rule "TEST" rule scenario_a_indicators
  = evaluate_trading_rule "TEST" (without_previous_days rule)
      scenario_a_indicators.
Proof.
  eapply (previous_days_gate_skipped_on_short_history
            "TEST" _ scenario_a_indicators _ 20).
  - reflexivity.
  - reflexivity.
  - cbn. lia.
Defined.

(** X13.  A rule can trigger only through one of the four name-selected
    branches, tested in this order: the name holds [sma_cross] and one of
    21, 50, 200; else [ema_cross] and one of 10, 20, 40; else [atr]; else
    [nymo].  A name that selects none of them never triggers. *)
Theorem trigger_needs_a_known_family (ticker : string) (rule : Rule)
    (indicators : Indicators) :
  (evaluate_trading_rule ticker rule indicators).1.1 = true ->
  let rule_name := default ""%string (r_name rule) in
  let has s := contains s rule_name = true in
  (has "sma_cross"%string
   /\ (has "21"%string \/ has "50"%string \/ has "200"%string))
  \/ (~ has "sma_cross"%string /\ has "ema_cross"%string
      /\ (has "10"%string \/ has "20"%string \/ has "40"%string))
  \/ (~ has "sma_cross"%string /\ ~ has "ema_cross"%string
      /\ has "atr"%string)
  \/ (~ has "sma_cross"%string /\ ~ has "ema_cross"%string
      /\ ~ has "atr"%string /\ has "nymo"%string).
Proof.
  intros Htrig. cbv zeta.
  unfold evaluate_trading_rule, evaluate_trading_rule_body in Htrig.
  destruct (ind_data indicators) as [data|]; cbn [rbind] in Htrig;
    [|discriminate].
  destruct (iloc_neg 1 (closes data)) as [cp|]; cbn [rbind] in Htrig;
    [|discriminate].
  destruct (previous_days_gate rule data cp) as [[c r] | [c r]];
    [discriminate|].
  set (rule_name := default ""%string (r_name rule)) in *.
  destruct (contains "sma_cross" rule_name) eqn:Esma.
  { left. split; [reflexivity|]. unfold sma_cross_rule in Htrig.
    destruct (contains "21" rule_name); [auto|].
    destruct (contains "50" rule_name); [auto|].
    destruct (contains "200" rule_name); [auto|].
    discriminate. }
  right. destruct (contains "ema_cross" rule_name) eqn:Eema.
  { left. split; [discriminate|]. split; [reflexivity|].
    unfold ema_cross_rule in Htrig.
    destruct (contains "10" rule_name); [auto|].
    destruct (contains "20" rule_name); [auto|].
    destruct (contains "40" rule_name); [auto|].
    discriminate. }
  right. destruct (contains "atr" rule_name) eqn:Eatr.
  { left. repeat split; discriminate || reflexivity. }
  right. destruct (contains "nymo" rule_name) eqn:Enymo;
    [repeat split; discriminate || reflexivity | discriminate].
Qed.

Lemma trigger_needs_a_known_family_witness :
  let rule_name := default ""%string (r_name sma_21_rule) in
  let has s := contains s rule_name = true in
  (has "sma_cross"%string
   /\ (has "21"%string \/ has "50"%string \/ has "200"%string))
  \/ (~ has "sma_cross"%string /\ has "ema_cross"%string
      /\ (has "10"%string \/ has "20"%string \/ has "40"%string))
  \/ (~ has "sma_cross"%string /\ ~ has "ema_cross"%string
      /\ has "atr"%string)
  \/ (~ has "sma_cross"%string /\ ~ has "ema_cross"%string
      /\ ~ has "atr"%string /\ has "nymo"%string).
Proof.
  apply (trigger_needs_a_known_family "TEST" sma_21_rule
           scenario_a_indicators).
  vm_compute. reflexivity.
Defined.

End GateAndDispatch.

(** ** Rule evaluator on computed indicators: warm-up and NYMO *)

Section WarmUpGate.

Import TechnicalIndicators.

Variable calculate_nymo : DataFrame -> Series.

Lemma pretty_literals :
  pretty 21%Z = "21"%string /\ pretty 50%Z = "50"%string
  /\ pretty 200%Z = "200"%string /\ pretty 10%Z = "10"%string
  /\ pretty 20%Z = "20"%string /\ pretty 40%Z = "40"%string.
Proof. repeat split; vm_compute; reflexivity. Qed.

(** The series a computed indicator set stores under an SMA or EMA key,
    with the length the key names. *)
Lemma computed_average_series (data : DataFrame) (ticker period : string)
    (length : Z) (s : Series) :
  data <> [] ->
  (ind_series (calculate_all_indicators calculate_nymo data ticker period)
     !! ("sma_" +:+ pretty length) = Some s ->
   exists n, (n = 21 \/ n = 50 \/ n = 200)%nat /\ length = Z.of_nat n
             /\ s = calculate_sma data n)
  /\ (ind_series (calculate_all_indicators calculate_nymo data ticker period)
        !! ("ema_" +:+ pretty length) = Some s ->
      (length = 10 \/ length = 20 \/ length = 40)%Z).
Proof.
  intros Hdata.
  destruct pretty_literals as (P21 & P50 & P200 & P10 & P20 & P40).
  split; intros Hs;
    rewrite calculate_all_indicators_series in Hs by (assumption || discriminate);
    repeat case_decide; try discriminate;
    match goal with
    | Heq : (_ +:+ pretty length)%string = _ |- _ =>
      cbn in Heq; injection Heq; clear Heq; intros Hkey;
      change ("" +:+ pretty length)%string with (pretty length) in Hkey
    end.
  - exists 200%nat. rewrite <- P200 in Hkey. apply (inj pretty) in Hkey.
    injection Hs as <-. auto.
  - exists 50%nat. rewrite <- P50 in Hkey. apply (inj pretty) in Hkey.
    injection Hs as <-. auto.
  - exists 21%nat. rewrite <- P21 in Hkey. apply (inj pretty) in Hkey.
    injection Hs as <-. auto.
  - rewrite <- P40 in Hkey. apply (inj pretty) in Hkey. auto.
  - rewrite <- P20 in Hkey. apply (inj pretty) in Hkey. auto.
  - rewrite <- P10 in Hkey. apply (inj pretty) in Hkey. auto.
Qed.

(** X14.  On indicators computed from the bars 0..t a crossing rule cannot
    trigger before its reference series has a value at bar t-1: an
    SMA-cross rule only with a length of 21, 50 or 200 and not before bar
    21, 50 or 200 (it needs length + 1 bars), an EMA-cross rule only with
    a length of 10, 20 or 40 and from the second bar, the ATR-stop rule
    not before bar 5. *)
Theorem cross_rule_waits_for_warm_up (rule : Rule) (data : DataFrame)
    (ticker : string) (t : nat) :
  (t < length data)%nat ->
  triggers_at calculate_nymo rule data ticker t ->
  let rule_name := default ""%string (r_name rule) in
  let length := default 21%Z (r_length rule) in
  (contains "sma_cross" rule_name = true ->
   (length = 21 \/ length = 50 \/ length = 200)%Z
   /\ (length <= Z.of_nat t)%Z)
  /\ (contains "sma_cross" rule_name = false ->
      contains "ema_cross" rule_name = true ->
      (length = 10 \/ length = 20 \/ length = 40)%Z /\ (1 <= t)%nat)
  /\ (contains "sma_cross" rule_name = false ->
      contains "ema_cross" rule_name = false ->
      contains "atr" rule_name = true -> (5 <= t)%nat).
Proof.
  intros Ht Htrig rule_name len.
  assert (Hne : take (S t) data <> []).
  { intros H. apply (f_equal List.length) in H.
    rewrite length_take in H. cbn [List.length] in H. lia. }
  assert (Hcross : is_cross_rule rule = true ->
                   crossing_at calculate_nymo rule data ticker t)
    by (intros H; now apply triggers_at_crossing).
  unfold is_cross_rule, crossing_at, reference_at, reference_key,
    indicators_at, get_series in Hcross.
  fold rule_name len in Hcross.
  split; [|split].
  - intros Esma. rewrite Esma in Hcross.
    destruct (Hcross eq_refl)
      as (p0 & p1 & r0 & r1 & Ht1 & _ & _ & Hr0 & Hr1 & _).
    destruct (ind_series _ !! ("sma_" +:+ pretty len)) as [s|] eqn:Hs.
    2:{ cbn in Hr1. destruct t; [lia | discriminate]. }
    apply computed_average_series in Hs as (n & Hn & Hlen & ->);
      [|assumption].
    cbn [default from_option id] in Hr0. unfold id in Hr0.
    split; [lia|].
    assert (Hlt : (t - 1 < List.length (closes (take (S t) data)))%nat).
    { rewrite closes_length, length_take. lia. }
    unfold calculate_sma in Hr0. rewrite rolling_lookup in Hr0 by assumption.
    destruct (S (t - 1) <? n)%nat eqn:E; [discriminate|].
    apply Nat.ltb_ge in E. lia.
  - intros Esma Eema. rewrite Esma, Eema in Hcross.
    destruct (Hcross eq_refl)
      as (p0 & p1 & r0 & r1 & Ht1 & _ & _ & Hr0 & Hr1 & _).
    split; [|assumption].
    destruct (ind_series _ !! ("ema_" +:+ pretty len)) as [s|] eqn:Hs.
    2:{ cbn in Hr1. destruct t; [lia | discriminate]. }
    now apply computed_average_series in Hs.
  - intros Esma Eema Eatr. rewrite Esma, Eema, Eatr in Hcross.
    destruct (Hcross eq_refl)
      as (p0 & p1 & r0 & r1 & Ht1 & _ & _ & Hr0 & _).
    rewrite calculate_all_indicators_series in Hr0
      by (assumption || discriminate).
    cbn [decide] in Hr0.
    destruct (decide ("atr_trailing_stop"%string = "atr_trailing_stop"%string))
      as [_|Hc]; [|contradiction].
    cbn [default from_option id] in Hr0. unfold id in Hr0.
    unfold calculate_atr_trailing_stop in Hr0.
    rewrite series_sub_lookup in Hr0.
    assert (Hlt : (t - 1 < List.length (highs (take (S t) data)))%nat).
    { unfold highs. rewrite length_map, length_take. lia. }
    rewrite rolling_lookup in Hr0 by assumption.
    destruct (S (t - 1) <? 5)%nat eqn:E.
    + destruct (calculate_atr _ 5 !! (t - 1)%nat); discriminate.
    + apply Nat.ltb_ge in E. lia.
Qed.

End WarmUpGate.

Section WarmUpGateExamples.

Import TechnicalIndicators.

Lemma cross_rule_waits_for_warm_up_witness :
  let rule_name := default ""%string (r_name atr_stop_rule) in
  let length := default 21%Z (r_length atr_stop_rule) in
  (contains "sma_cross" rule_name = true ->
   (length = 21 \/ length = 50 \/ length = 200)%Z
   /\ (length <= Z.of_nat 6)%Z)
  /\ (contains "sma_cross" rule_name = false ->
      contains "ema_cross" rule_name = true ->
      (length = 10 \/ length = 20 \/ length = 40)%Z /\ (1 <= 6)%nat)
  /\ (contains "sma_cross" rule_name = false ->
      contains "ema_cross" rule_name = false ->
      contains "atr" rule_name = true -> (5 <= 6)%nat).
Proof.
  apply (cross_rule_waits_for_warm_up zeros atr_stop_rule example_bars
           "TEST" 6).
  - cbn. lia.
  - vm_compute. reflexivity.
Defined.

End WarmUpGateExamples.

(** ** NYMO rules *)

Section NymoRule.

Import TechnicalIndicators RuleBranches.

Lemma selects_nymo_inv (rule : Rule) :
  selects_nymo rule = true ->
  let rule_name := default ""%string (r_name rule) in
  contains "sma_cross" rule_name = false
  /\ contains "ema_cross" rule_name = false
  /\ contains "atr" rule_name = false
  /\ contains "nymo" rule_name = true.
Proof.
  unfold selects_nymo. cbv zeta.
  destruct (contains "sma_cross" _), (contains "ema_cross" _),
    (contains "atr" _), (contains "nymo" _); cbn; intros; try discriminate.
  auto.
Qed.

(** What a NYMO rule answers once the gate lets it through with
    confidence [c0] and notes [rs]. *)
Lemma nymo_rule_cases (rule : Rule) (indicators : Indicators) (c0 : Q)
    (rs : list string) :
  let threshold := default (-50)%Z (r_nymo_threshold rule) in
  (exists v, last (get_series indicators "nymo") = Some (Some v)
             /\ v < inject_Z threshold
             /\ exists c rs', nymo_rule rule indicators c0 rs = Ok (true, c, rs')
                              /\ 8 # 10 <= c)
  \/ ((forall v, last (get_series indicators "nymo") = Some (Some v) ->
                 inject_Z threshold <= v)
      /\ nymo_rule rule indicators c0 rs = Ok (false, c0, rs)).
Proof.
  cbv zeta. unfold nymo_rule.
  set (s := get_series indicators "nymo").
  assert (H := iloc_neg_last s).
  destruct s as [|x s'] eqn:Es.
  { right. split; [intros v [=] | reflexivity]. }
  rewrite <- Es in *. assert (Hl : (0 <? length s)%nat = true)
    by (rewrite Es; reflexivity).
  rewrite Hl in *. rewrite H.
  destruct (last s) as [[v|]|] eqn:El; cbn [rbind].
  - destruct (flt v _) eqn:E.
    + left. exists v. apply flt_iff in E. split; [reflexivity|].
      split; [assumption|]. eexists _, _. split; [reflexivity|].
      repeat case_match; lra.
    + right. apply flt_false_iff in E. split; [|reflexivity].
      intros w [= <-]. assumption.
  - right. split; [intros w [=] | reflexivity].
  - apply last_None in El. rewrite El in Es. discriminate.
Qed.

(** The verdict of a rule that reaches the NYMO branch. *)
Lemma nymo_rule_verdict (ticker : string) (rule : Rule)
    (indicators : Indicators) :
  selects_nymo rule = true ->
  let threshold := default (-50)%Z (r_nymo_threshold rule) in
  let below :=
    exists v, last (get_series indicators "nymo") = Some (Some v)
              /\ v < inject_Z threshold in
  let r := evaluate_trading_rule ticker rule indicators in
  (r.1.1 = true -> below)
  /\ (r.1.1 = true -> (default 5 (r_priority rule) <= 6)%Z -> r.1.2 == 1)
  /\ (r_previous_days rule = None ->
      (exists data, ind_data indicators = Some data /\ data <> []) ->
      below -> r.1.1 = true).
Proof.
  intros Hsel threshold below r. subst threshold below r.
  apply selects_nymo_inv in Hsel as (Es & Ee & Ea & En). cbv zeta in *.
  unfold evaluate_trading_rule, evaluate_trading_rule_body.
  rewrite Es, Ee, Ea, En.
  destruct (ind_data indicators) as [data|]; cbn [rbind].
  2:{ split; [discriminate|]. split; [discriminate|].
      intros _ (d & [=] & _). }
  destruct (iloc_neg 1 (closes data)) as [cp|] eqn:Hcp; cbn [rbind].
  2:{ split; [discriminate|]. split; [discriminate|].
      intros _ (d & [= <-] & Hd) _. exfalso.
      unfold iloc_neg in Hcp. rewrite closes_length in Hcp.
      destruct data as [|b data]; [contradiction|].
      cbn [length Nat.ltb Nat.leb] in Hcp.
      destruct (closes (b :: data) !! _) eqn:E; [discriminate|].
      apply lookup_ge_None in E. rewrite closes_length in E. cbn in E. lia. }
  destruct (previous_days_gate rule data cp) as [[c0 rs] | [c0 rs]] eqn:Hg.
  { split; [discriminate|]. split; [discriminate|].
    intros Hnone. unfold previous_days_gate in Hg. rewrite Hnone in Hg.
    discriminate. }
  destruct (nymo_rule_cases rule indicators c0 rs)
    as [(v & Hv & Hlt & c & rs' & -> & Hc) | [Hno ->]]; cbn [rbind].
  - split; [intros _; eauto|]. split; [|reflexivity].
    intros _ Hp. cbn [fst snd].
    apply Q.min_l.
    assert (Hb : 4 * (5 # 100) <= inject_Z (10 - default 5%Z (r_priority rule))
                                  * (5 # 100)).
    { apply Qmult_le_compat_r; [|lra].
      change 4 with (inject_Z 4). rewrite <- Zle_Qle. lia. }
    lra.
  - split; [discriminate|]. split; [discriminate|].
    intros _ _ (v & Hv & Hlt). apply Hno in Hv. lra.
Qed.

(** X15.  A rule that reaches the NYMO branch triggers only when the last NYMO
    cell is a number strictly below the rule's threshold (-50 when the
    rule has none), and then, for a priority of 6 or better (5 when the
    rule has none), always with confidence 1: the 0.80, 0.90 and 0.95
    tiers of the threshold are levelled by the priority boost.  Without a
    ['previous_days'] key and on a non-empty frame the condition is also
    sufficient. *)
Theorem nymo_rule_triggers_below_threshold (ticker : string) (rule : Rule)
    (indicators : Indicators) :
  selects_nymo rule = true ->
  let threshold := default (-50)%Z (r_nymo_threshold rule) in
  let below :=
    exists v, last (get_series indicators "nymo") = Some (Some v)
              /\ v < inject_Z threshold in
  let r := evaluate_trading_rule ticker rule indicators in
  (r.1.1 = true -> below)
  /\ (r.1.1 = true -> (default 5 (r_priority rule) <= 6)%Z -> r.1.2 == 1)
  /\ (r_previous_days rule = None ->
      (exists data, ind_data indicators = Some data /\ data <> []) ->
      below -> r.1.1 = true).
Proof. apply nymo_rule_verdict. Qed.

Lemma nymo_rule_triggers_below_threshold_witness :
  let rule :=
    {| r_name := Some "nymo_oversold"%string; r_type := Some "buy"%string;
       r_priority := Some 6%Z; r_period := Some "D"%string;
       r_interval := None; r_length := None; r_previous_days := None;
       r_nymo_threshold := Some (-70)%Z; r_stocks := None |} in
  let indicators :=
    {| ind_data := ind_data scenario_a_indicators;
       ind_series := <["nymo" := [Some 0; Some (-80)]]> ∅ |} in
  let threshold := default (-50)%Z (r_nymo_threshold rule) in
  let below :=
    exists v, last (get_series indicators "nymo") = Some (Some v)
              /\ v < inject_Z threshold in
  let r := evaluate_trading_rule "TEST" rule indicators in
  (r.1.1 = true -> below)
  /\ (r.1.1 = true -> (default 5 (r_priority rule) <= 6)%Z -> r.1.2 == 1)
  /\ (r_previous_days rule = None ->
      (exists data, ind_data indicators = Some data /\ data <> []) ->
      below -> r.1.1 = true).
Proof.
  cbv zeta.
  apply (nymo_rule_triggers_below_threshold "TEST").
  reflexivity.
Defined.

Variable calculate_nymo : DataFrame -> Series.

(** X16.  [calculate_all_indicators] stores the NYMO series for the daily
    period only, and the rule evaluator then reads the one-cell default
    series [0]: on indicators computed for any other period a NYMO rule
    with a threshold of zero or less never triggers, whatever the market
    data; with a positive threshold and no ['previous_days'] key it
    triggers on every frame. *)
Theorem nymo_rule_off_daily_period (ticker period : string) (rule : Rule)
    (data : DataFrame) :
  selects_nymo rule = true -> period <> "D"%string -> data <> [] ->
  let threshold := default (-50)%Z (r_nymo_threshold rule) in
  let r :=
    evaluate_trading_rule ticker rule
      (calculate_all_indicators calculate_nymo data ticker period) in
  ((threshold <= 0)%Z -> r.1.1 = false)
  /\ ((0 < threshold)%Z -> r_previous_days rule = None -> r.1.1 = true).
Proof.
  intros Hsel Hperiod Hdata threshold r. subst threshold r.
  set (indicators := calculate_all_indicators calculate_nymo data ticker period).
  assert (Hs : get_series indicators "nymo" = [Some 0]).
  { unfold get_series, indicators. rewrite nymo_series_lookup by assumption.
    destruct (String.eqb_spec period "D"); [contradiction | reflexivity]. }
  destruct (nymo_rule_verdict ticker rule indicators Hsel)
    as (Honly & _ & Hif).
  rewrite Hs in Honly, Hif. cbn [last] in Honly, Hif.
  split.
  - intros Hle.
    destruct (evaluate_trading_rule ticker rule indicators).1.1 eqn:E;
      [|reflexivity].
    destruct (Honly eq_refl) as (v & [= <-] & Hlt).
    assert (inject_Z (default (-50)%Z (r_nymo_threshold rule)) <= inject_Z 0)
      by (rewrite <- Zle_Qle; assumption).
    change (inject_Z 0) with 0 in *. lra.
  - intros Hpos Hnone. apply Hif; [assumption| |].
    + exists data. split; [|assumption].
      unfold indicators. rewrite calculate_all_indicators_data.
      destruct data; [contradiction | reflexivity].
    + exists 0. split; [reflexivity|].
      change 0 with (inject_Z 0). rewrite <- Zlt_Qlt. assumption.
Qed.

End NymoRule.

Section NymoRuleExamples.

Import TechnicalIndicators RuleBranches.

Lemma nymo_rule_off_daily_period_witness :
  let threshold := default (-50)%Z (r_nymo_threshold nymo_rebound_rule) in
  let r :=
    evaluate_trading_rule "TEST" nymo_rebound_rule
      (calculate_all_indicators zeros example_bars "TEST" "W") in
  ((threshold <= 0)%Z -> r.1.1 = false)
  /\ ((0 < threshold)%Z -> r_previous_days nymo_rebound_rule = None ->
      r.1.1 = true).
Proof.
  apply (nymo_rule_off_daily_period zeros "TEST" "W" nymo_rebound_rule
           example_bars).
  - reflexivity.
  - discriminate.
  - discriminate.
Defined.

End NymoRuleExamples.

(** ** Signals of a ticker *)

Section SignalList.

Import TechnicalIndicators DataManager TickerRules.

Variable St : Type.
Variable calculate_indicators_for_ticker :
  string -> string -> string -> St -> option Indicators * St.

Lemma insert_by_priority_perm (s : Signal) (l : list Signal) :
  insert_by_priority s l ≡ₚ s :: l.
Proof.
  induction l as [|x l IH]; [reflexivity|]. cbn [insert_by_priority].
  destruct (sig_priority s <=? sig_priority x)%Z; [reflexivity|].
  rewrite IH. apply Permutation_swap.
Qed.

Lemma sort_by_priority_perm (l : list Signal) : sort_by_priority l ≡ₚ l.
Proof.
  induction l as [|x l IH]; [reflexivity|].
  unfold sort_by_priority in *. cbn [foldr].
  now rewrite insert_by_priority_perm, IH.
Qed.

Lemma insert_by_priority_ascending (s : Signal) (l : list Signal) :
  ascending l -> ascending (insert_by_priority s l).
Proof.
  induction l as [|x l IH]; intros Hl.
  { cbn. split; constructor. }
  cbn [insert_by_priority].
  destruct (sig_priority s <=? sig_priority x)%Z eqn:E.
  - apply Z.leb_le in E. destruct Hl as [Hx Hl]. cbn [ascending].
    split; [|split; assumption].
    constructor; [assumption|].
    eapply Forall_impl; [exact Hx|]. cbn. intros y Hy. lia.
  - apply Z.leb_gt in E. destruct Hl as [Hx Hl]. cbn [ascending].
    split; [|apply IH; assumption].
    rewrite insert_by_priority_perm. constructor; [lia | assumption].
Qed.

Lemma sort_by_priority_ascending (l : list Signal) :
  ascending (sort_by_priority l).
Proof.
  induction l as [|x l IH]; [exact I|].
  unfold sort_by_priority in *. cbn [foldr].
  now apply insert_by_priority_ascending.
Qed.

Lemma make_signal_of_rule (ticker : string) (rule : Rule)
    (period interval : string) (indicators : Indicators) (confidence : Q)
    (reasoning : string) (s : Signal) :
  make_signal ticker rule period interval indicators confidence reasoning
  = Ok s ->
  exists stocks,
    r_stocks rule = Some stocks
    /\ sig_ticker s = ticker
    /\ r_name rule = Some (sig_rule_name s)
    /\ r_type rule = Some (sig_rule_type s)
    /\ r_priority rule = Some (sig_priority s)
    /\ sig_signal s
       = (if String.eqb (sig_rule_type s) "buy" then "BUY" else "SELL")%string
    /\ sig_period s = period /\ sig_interval s = interval
    /\ sig_stock_config s
       = default {| purchase_limit_pct := None |} (stocks !! ticker)
    /\ sig_indicators s = indicators /\ sig_confidence s = confidence.
Proof.
  unfold make_signal, getitem.
  destruct (r_stocks rule) as [stocks|]; [|discriminate].
  destruct (r_name rule); [|discriminate].
  destruct (r_type rule); [|discriminate].
  destruct (r_priority rule); [|discriminate].
  cbn [rbind]. intros [= <-]. exists stocks. cbn. repeat split.
Qed.

(** The loop adds to the signals it starts from at most one signal per
    rule, each made from one of the rules. *)
Lemma evaluate_rules_adds (ticker : string) (rules : list Rule) :
  forall (signals out : list Signal) (st st' : St),
    Forall (fun rule => exists stocks, r_stocks rule = Some stocks
                                       /\ is_Some (stocks !! ticker)) rules ->
    evaluate_rules St calculate_indicators_for_ticker ticker rules signals st
    = (Ok out, st') ->
    exists new,
      out = signals ++ new
      /\ (length new <= length rules)%nat
      /\ Forall (fun s => exists rule, rule ∈ rules
                                       /\ signal_of_rule ticker rule s) new.
Proof.
  induction rules as [|rule rules IH]; intros signals out st st' Hrules Hrun.
  { cbn in Hrun. injection Hrun as <- <-. exists [].
    rewrite app_nil_r. repeat split; [cbn; lia | constructor]. }
  apply Forall_cons in Hrules as [Hrule Hrules].
  assert (Hskip : forall st1,
            evaluate_rules St calculate_indicators_for_ticker ticker rules
              signals st1 = (Ok out, st') ->
            exists new,
              out = signals ++ new
              /\ (length new <= length (rule :: rules))%nat
              /\ Forall (fun s => exists rule0, rule0 ∈ rule :: rules
                                   /\ signal_of_rule ticker rule0 s) new).
  { intros st1 H. destruct (IH _ _ _ _ Hrules H) as (new & -> & Hlen & Hall).
    exists new. split; [reflexivity|]. split; [cbn; lia|].
    eapply Forall_impl; [exact Hall|]. cbn.
    intros s (rule0 & Hin & Hs). exists rule0. split; [|assumption].
    now apply list_elem_of_further. }
  cbn [evaluate_rules] in Hrun.
  destruct (calculate_indicators_for_ticker _ _ _ st)
    as [[indicators|] st1] eqn:Hcalc; [|eauto].
  destruct (evaluate_trading_rule ticker rule indicators)
    as [[[|] confidence] reasoning] eqn:Heval; [|eauto].
  destruct (make_signal _ _ _ _ _ _ _) as [signal|] eqn:Hmake;
    [|discriminate].
  destruct (IH _ _ _ _ Hrules Hrun) as (new & -> & Hlen & Hall).
  exists (signal :: new). split; [now rewrite <- app_assoc|].
  split; [cbn; lia|]. constructor.
  - exists rule. split; [apply list_elem_of_here|].
    destruct (make_signal_of_rule _ _ _ _ _ _ _ _ Hmake)
      as (stocks & Hst & H1 & H2 & H3 & H4 & H5 & H6 & H7 & H8 & H9 & H10).
    destruct Hrule as (stocks' & Hst' & [cfg Hcfg]).
    rewrite Hst in Hst'. injection Hst' as <-.
    exists stocks. rewrite H9, Heval, H8, Hcfg.
    repeat split; try assumption; eauto.
  - eapply Forall_impl; [exact Hall|]. cbn.
    intros s (rule0 & Hin & Hs). exists rule0. split; [|assumption].
    now apply list_elem_of_further.
Qed.

Lemma get_ticker_rules_spec (trading_rules : list Rule) (ticker : string)
    (rule : Rule) :
  rule ∈ get_ticker_rules trading_rules ticker <->
  rule ∈ trading_rules
  /\ exists stocks, r_stocks rule = Some stocks /\ is_Some (stocks !! ticker).
Proof.
  unfold get_ticker_rules. rewrite !list_elem_of_In, filter_In.
  split.
  - intros [Hin H]. split; [assumption|].
    destruct (r_stocks rule) as [stocks|]; [|discriminate].
    exists stocks. split; [reflexivity|].
    now apply bool_decide_eq_true in H.
  - intros [Hin (stocks & -> & Hs)]. split; [assumption|].
    now apply bool_decide_eq_true.
Qed.

(** What the run of [evaluate_all_rules_for_ticker] returns. *)
Lemma evaluate_all_rules_for_ticker_run (trading_rules : list Rule)
    (ticker : string) (st : St) :
  let signals :=
    (evaluate_all_rules_for_ticker St calculate_indicators_for_ticker
       trading_rules ticker st).1 in
  ascending signals
  /\ (length signals <= length (get_ticker_rules trading_rules ticker))%nat
  /\ (forall s, s ∈ signals ->
        exists rule, rule ∈ trading_rules /\ signal_of_rule ticker rule s).
Proof.
  cbv zeta. unfold evaluate_all_rules_for_ticker.
  destruct (evaluate_rules _ _ _ _ _ _) as [[out|e] st'] eqn:Hrun;
    cbn [fst].
  2:{ split; [exact I|]. split; [cbn; lia|]. intros s Hs. inversion Hs. }
  apply evaluate_rules_adds in Hrun as (new & -> & Hlen & Hall).
  2:{ apply Forall_forall. intros rule Hin.
      now apply get_ticker_rules_spec in Hin as [_ H]. }
  cbn [app] in *. split; [apply sort_by_priority_ascending|].
  split; [now rewrite sort_by_priority_perm|].
  intros s Hs. rewrite sort_by_priority_perm in Hs.
  rewrite Forall_forall in Hall.
  destruct (Hall s Hs) as (rule & Hin & Hsig).
  exists rule. split; [|assumption].
  now apply get_ticker_rules_spec in Hin as [H _].
Qed.


Lemma evaluate_all_rules_for_ticker_signals_of (trading_rules : list Rule)
    (ticker : string) (st : St) (s : Signal) :
  s ∈ (evaluate_all_rules_for_ticker St calculate_indicators_for_ticker
         trading_rules ticker st).1 ->
  exists rule, rule ∈ trading_rules /\ signal_of_rule ticker rule s.
Proof. apply evaluate_all_rules_for_ticker_run. Qed.

(** X17.  [evaluate_all_rules_for_ticker] returns the signals in ascending
    order of priority number, at most one per rule of the ticker, and
    every one of them is made from a rule of the rule list that lists the
    ticker: it carries the ticker, the rule's own name, type and
    priority, the rule's period and interval (['D'] and ['365d'] when
    absent), the ticker's entry of the rule's stock table, the indicators
    on which the rule triggered and the confidence of that evaluation,
    and it says BUY exactly when the rule's type is ['buy'], SELL for any
    other type. *)
Theorem evaluate_all_rules_for_ticker_signals (trading_rules : list Rule)
    (ticker : string) (st : St) :
  let signals :=
    (evaluate_all_rules_for_ticker St calculate_indicators_for_ticker
       trading_rules ticker st).1 in
  ascending signals
  /\ (length signals <= length (get_ticker_rules trading_rules ticker))%nat
  /\ (forall s, s ∈ signals ->
        exists rule, rule ∈ trading_rules /\ signal_of_rule ticker rule s).
Proof. apply evaluate_all_rules_for_ticker_run. Qed.

Lemma get_all_tickers_from (trading_rules : list Rule) (ticker : string) :
  forall acc : gset string,
    ticker ∈ foldl (fun tickers rule =>
                      match r_stocks rule with
                      | Some stocks => tickers ∪ dom stocks
                      | None => tickers
                      end) acc trading_rules
    <-> ticker ∈ acc \/ get_ticker_rules trading_rules ticker <> [].
Proof.
  induction trading_rules as [|rule rules IH]; intros acc.
  { cbn. split; [auto | intros [H | H]; [assumption | contradiction]]. }
  cbn [foldl]. rewrite IH. unfold get_ticker_rules. cbn [List.filter].
  destruct (r_stocks rule) as [stocks|].
  - rewrite elem_of_union, elem_of_dom.
    destruct (bool_decide (is_Some (stocks !! ticker))) eqn:E.
    + apply bool_decide_eq_true in E.
      split; [intros _; right; discriminate | intros _; left; right; exact E].
    + apply bool_decide_eq_false in E. tauto.
  - tauto.
Qed.

(** X18.  [get_all_tickers] holds exactly the tickers for which
    [get_ticker_rules] finds a rule; for any other ticker
    [evaluate_all_rules_for_ticker] returns no signal and fetches
    nothing: the caches and the clock are left as they were. *)
Theorem get_all_tickers_are_the_ruled_tickers (trading_rules : list Rule)
    (ticker : string) (st : St) :
  (ticker ∈ get_all_tickers trading_rules
   <-> get_ticker_rules trading_rules ticker <> [])
  /\ (ticker ∉ get_all_tickers trading_rules ->
      evaluate_all_rules_for_ticker St calculate_indicators_for_ticker
        trading_rules ticker st = ([], st)).
Proof.
  assert (H : ticker ∈ get_all_tickers trading_rules
              <-> get_ticker_rules trading_rules ticker <> []).
  { unfold get_all_tickers. rewrite get_all_tickers_from.
    rewrite elem_of_empty. tauto. }
  split; [exact H|]. intros Hnot.
  unfold evaluate_all_rules_for_ticker.
  destruct (get_ticker_rules trading_rules ticker) as [|r rs] eqn:E;
    [reflexivity|].
  exfalso. apply Hnot, H. discriminate.
Qed.

(** X19.  A rule that triggers but has no ['type'] or no ['priority'] key makes
    [evaluate_all_rules_for_ticker] return the empty list: the signals
    collected from the rules before it are dropped and the rules after
    it are not evaluated. *)
Theorem malformed_triggered_rule_drops_all_signals
    (trading_rules pre post : list Rule) (rule : Rule) (ticker : string)
    (signals1 : list Signal) (st st1 st2 : St) (indicators : Indicators) :
  get_ticker_rules trading_rules ticker = pre ++ rule :: post ->
  evaluate_rules St calculate_indicators_for_ticker ticker pre [] st
  = (Ok signals1, st1) ->
  calculate_indicators_for_ticker ticker
    (default "D"%string (r_period rule))
    (default "365d"%string (r_interval rule)) st1 = (Some indicators, st2) ->
  (evaluate_trading_rule ticker rule indicators).1.1 = true ->
  r_type rule = None \/ r_priority rule = None ->
  evaluate_all_rules_for_ticker St calculate_indicators_for_ticker
    trading_rules ticker st = ([], st2).
Proof.
  intros Hrules Hpre Hcalc Htrig Hmissing.
  unfold evaluate_all_rules_for_ticker.
  rewrite Hrules, evaluate_rules_app, Hpre. cbn [evaluate_rules].
  rewrite Hcalc.
  destruct (evaluate_trading_rule ticker rule indicators)
    as [[[|] confidence] reasoning]; [|discriminate].
  assert (Hmake : exists e,
            make_signal ticker rule (default "D"%string (r_period rule))
              (default "365d"%string (r_interval rule)) indicators
              confidence reasoning = Raise e).
  { unfold make_signal, getitem.
    destruct (r_stocks rule); [|eauto]. cbn [rbind].
    destruct (r_name rule); [|eauto]. cbn [rbind].
    destruct Hmissing as [-> | Hp]; [eauto|].
    destruct (r_type rule); [|eauto]. cbn [rbind]. rewrite Hp. eauto. }
  destruct Hmake as [e ->]. reflexivity.
Qed.

End SignalList.

Section SignalListExamples.

Import TechnicalIndicators DataManager TickerRules.

Lemma malformed_triggered_rule_drops_all_signals_witness :
  let calc := fun (_ _ _ : string) (st : unit) =>
                (Some scenario_a_indicators, st) in
  let stocks : gmap string StockConfig :=
    {[ "TEST"%string := {| purchase_limit_pct := Some 2 |} ]} in
  let good :=
    {| r_name := r_name sma_21_rule; r_type := r_type sma_21_rule;
       r_priority := r_priority sma_21_rule;
       r_period := r_period sma_21_rule;
       r_interval := r_interval sma_21_rule;
       r_length := r_length sma_21_rule;
       r_previous_days := r_previous_days sma_21_rule;
       r_nymo_threshold := r_nymo_threshold sma_21_rule;
       r_stocks := Some stocks |} in
  let untyped :=
    {| r_name := r_name sma_21_rule; r_type := None;
       r_priority := r_priority sma_21_rule;
       r_period := r_period sma_21_rule;
       r_interval := r_interval sma_21_rule;
       r_length := r_length sma_21_rule;
       r_previous_days := r_previous_days sma_21_rule;
       r_nymo_threshold := r_nymo_threshold sma_21_rule;
       r_stocks := Some stocks |} in
  evaluate_all_rules_for_ticker unit calc [good; untyped; good] "TEST" ()
  = ([], ()).
Proof.
  cbv zeta.
  eapply (malformed_triggered_rule_drops_all_signals unit _ _
            [_] [_] _ "TEST" _ () () () scenario_a_indicators).
  - reflexivity.
  - vm_compute. reflexivity.
  - reflexivity.
  - vm_compute. reflexivity.
  - left. reflexivity.
Defined.

End SignalListExamples.

(** ** Averaging down *)

Section AveragingDown.

Import PositionManager.

(** The answer for a tracked position with a non-zero entry price. *)
Lemma should_average_down_verdict (positions : Positions) (ticker : string)
    (position : Position) (current entry atr pct : Q) :
  positions !! ticker = Some position ->
  ~ entry == 0 ->
  let r := fst (should_average_down positions ticker current entry atr pct) in
  (r.1.1, r.1.2) = should_average_down_spec entry current atr pct.
Proof.
  intros Hpos Hent. cbv zeta.
  unfold should_average_down, should_average_down_body. rewrite Hpos.
  destruct (should_average_down_levels_defined current entry atr pct Hent)
    as (dp & l2 & l3 & l4 & lp & -> & H2 & _ & H3 & _ & H4 & _ & Hp & _).
  unfold should_average_down_spec, averaging_thresholds. cbn [rbind fst].
  destruct (fle (2 * atr) (entry - current));
    destruct (fle (3 * atr) (entry - current));
    destruct (fle (4 * atr) (entry - current));
    destruct (fle (entry * pct) (entry - current));
    cbn [when app max_by highest_met fst snd andb];
    repeat (rewrite ?H2, ?H3, ?H4, ?Hp; eval_literal_tests;
            cbn [andb]; cbv iota);
    rewrite ?H2, ?H3, ?H4, ?Hp; reflexivity.
Qed.

Lemma fle_drop_monotone (x entry current lower : Q) :
  lower <= current ->
  fle x (entry - current) = true -> fle x (entry - lower) = true.
Proof.
  intros Hl H. apply fle_iff in H. apply fle_iff. lra.
Qed.

(** X20.  The averaging-down check is monotone in the price: for a tracked
    position with a non-zero entry price, if it triggers at a price it
    triggers at every lower price, and the confidence it reports never
    falls as the price falls (whatever the signs of the ATR and of the
    percentage threshold). *)
Theorem should_average_down_monotone_in_price (positions : Positions)
    (ticker : string) (position : Position)
    (current lower entry atr pct : Q) :
  positions !! ticker = Some position ->
  ~ entry == 0 ->
  lower <= current ->
  let r := fst (should_average_down positions ticker current entry atr pct) in
  let r' := fst (should_average_down positions ticker lower entry atr pct) in
  (r.1.1 = true -> r'.1.1 = true) /\ r.1.2 <= r'.1.2.
Proof.
  intros Hpos Hent Hlow r r'.
  assert (H := should_average_down_verdict positions ticker position
                 current entry atr pct Hpos Hent).
  assert (H' := should_average_down_verdict positions ticker position
                  lower entry atr pct Hpos Hent).
  cbv zeta in H, H'. fold r in H. fold r' in H'.
  assert (E1 : r.1.1 = (should_average_down_spec entry current atr pct).1)
    by (rewrite <- H; reflexivity).
  assert (E2 : r.1.2 = (should_average_down_spec entry current atr pct).2)
    by (rewrite <- H; reflexivity).
  assert (E3 : r'.1.1 = (should_average_down_spec entry lower atr pct).1)
    by (rewrite <- H'; reflexivity).
  assert (E4 : r'.1.2 = (should_average_down_spec entry lower atr pct).2)
    by (rewrite <- H'; reflexivity).
  rewrite E1, E2, E3, E4. clear E1 E2 E3 E4 H H'.
  unfold should_average_down_spec, averaging_thresholds.
  assert (M := fun x => fle_drop_monotone x entry current lower Hlow).
  revert M. generalize (entry - current) (entry - lower). intros d d' M.
  assert (M2 := M (2 * atr)). assert (M3 := M (3 * atr)).
  assert (M4 := M (4 * atr)). assert (Mp := M (entry * pct)). clear M.
  revert M2 M3 M4 Mp.
  destruct (fle (2 * atr) d), (fle (2 * atr) d'), (fle (3 * atr) d),
    (fle (3 * atr) d'), (fle (4 * atr) d), (fle (4 * atr) d'),
    (fle (entry * pct) d), (fle (entry * pct) d');
    intros M2 M3 M4 Mp;
    try (specialize (M2 eq_refl); discriminate);
    try (specialize (M3 eq_refl); discriminate);
    try (specialize (M4 eq_refl); discriminate);
    try (specialize (Mp eq_refl); discriminate);
    (split; [vm_compute; auto | vm_compute; discriminate]).
Qed.

Lemma should_average_down_monotone_in_price_witness :
  let positions :=
    add_position ∅ 0 "AAPL" 150 100 15000 "below_21sma_cross" (8 # 10) in
  let r :=
    fst (should_average_down positions "AAPL" 142 150 (35 # 10) (2 # 100)) in
  let r' :=
    fst (should_average_down positions "AAPL" 139 150 (35 # 10) (2 # 100)) in
  (r.1.1 = true -> r'.1.1 = true) /\ r.1.2 <= r'.1.2.
Proof.
  eapply (should_average_down_monotone_in_price
            _ "AAPL" _ 142 139 150 (35 # 10) (2 # 100)).
  - reflexivity.
  - discriminate.
  - discriminate.
Defined.

End AveragingDown.

(** ** From the signals of a ticker to the fallback decision *)

Section FallbackDecision.

Import TechnicalIndicators DataManager TickerRules Agents.

Variable St : Type.
Variable calculate_indicators_for_ticker :
  string -> string -> string -> St -> option Indicators * St.

Lemma insert_descending_perm (s : Signal) (l : list Signal) :
  insert_descending s l ≡ₚ s :: l.
Proof.
  induction l as [|x l IH]; [reflexivity|]. cbn [insert_descending].
  destruct (key_le x s); [reflexivity|].
  rewrite IH. apply Permutation_swap.
Qed.

Lemma sort_descending_perm (l : list Signal) : sort_descending l ≡ₚ l.
Proof.
  induction l as [|x l IH]; [reflexivity|].
  unfold sort_descending in *. cbn [foldr].
  now rewrite insert_descending_perm, IH.
Qed.

Lemma key_le_total (a b : Signal) : key_le a b = false -> key_le b a = true.
Proof.
  unfold key_le. intros H.
  apply orb_false_iff in H as [H1 H2]. apply Z.ltb_ge in H1.
  destruct (sig_priority b <? sig_priority a)%Z eqn:E; [reflexivity|].
  apply Z.ltb_ge in E. cbn [orb].
  assert (Heq : sig_priority a = sig_priority b) by lia.
  rewrite Heq, Z.eqb_refl in *. cbn [andb] in *.
  apply fle_false_iff in H2. apply fle_iff. lra.
Qed.

Lemma key_le_trans (a b c : Signal) :
  key_le a b = true -> key_le b c = true -> key_le a c = true.
Proof.
  unfold key_le. intros H1 H2.
  apply orb_true_iff in H1. apply orb_true_iff in H2. apply orb_true_iff.
  rewrite !andb_true_iff, !Z.ltb_lt, !Z.eqb_eq, !fle_iff in *.
  destruct H1 as [H1 | [H1 H1']], H2 as [H2 | [H2 H2']];
    [left; lia | left; lia | left; lia | right; split; [lia | lra]].
Qed.

(** The head of the sorted list has the largest key. *)
Lemma sort_descending_head (l : list Signal) (s : Signal) (rest : list Signal) :
  sort_descending l = s :: rest ->
  Forall (fun x => key_le x s = true) (s :: rest).
Proof.
  revert s rest. induction l as [|y l IH]; intros s rest H; [discriminate|].
  unfold sort_descending in *. cbn [foldr] in H.
  destruct (foldr insert_descending [] l) as [|x l'] eqn:E.
  { cbn in H. injection H as <- <-. constructor; [|constructor].
    unfold key_le. rewrite Z.eqb_refl, Z.ltb_irrefl. cbn.
    apply fle_iff. lra. }
  specialize (IH x l' eq_refl). cbn [insert_descending] in H.
  assert (Hrefl : forall z, key_le z z = true).
  { intros z. unfold key_le. rewrite Z.eqb_refl, Z.ltb_irrefl. cbn.
    apply fle_iff. lra. }
  destruct (key_le x y) eqn:Hxy.
  - injection H as <- <-. constructor; [apply Hrefl|].
    eapply Forall_impl; [exact IH|]. cbn. intros z Hz.
    eapply key_le_trans; eassumption.
  - injection H as <- <-. apply key_le_total in Hxy.
    apply Forall_cons in IH as [Hx IH]. constructor; [assumption|].
    rewrite insert_descending_perm. constructor; assumption.
Qed.

Lemma triggered_confidence_le_1 (ticker : string) (rule : Rule)
    (indicators : Indicators) :
  (evaluate_trading_rule ticker rule indicators).1.1 = true ->
  (evaluate_trading_rule ticker rule indicators).1.2 <= 1.
Proof.
  unfold evaluate_trading_rule, evaluate_trading_rule_body.
  destruct (ind_data indicators) as [data|]; cbn [rbind]; [|discriminate].
  destruct (iloc_neg 1 (closes data)) as [cp|]; cbn [rbind]; [|discriminate].
  destruct (previous_days_gate rule data cp) as [[c r] | [c r]];
    [discriminate|].
  match goal with
  | |- context [rbind ?m _] => destruct m as [[[[|] c'] rs]|]
  end; cbn [rbind fst snd]; try discriminate.
  intros _. apply Q.le_min_l.
Qed.

(** X21.  The fallback decision of a ticker follows the signal with the
    largest priority number: [analyze_ticker] sorts the signals of
    [evaluate_all_rules_for_ticker] by [(priority, confidence)] in
    descending order and [_rule_based_decision] takes the first.  With
    any signal at all the decision carries the action and confidence of a
    signal [s] of the ticker such that no signal has a larger priority
    number, nor the same one with a larger confidence; its position size
    is five times that confidence, never above 5 (the cap of 10 is out of
    reach); with no signal it is HOLD with size 0. *)
Theorem rule_based_decision_follows_largest_priority_number
    (trading_rules : list Rule) (ticker : string) (st : St)
    (ticker_news : option News) :
  let signals :=
    (evaluate_all_rules_for_ticker St calculate_indicators_for_ticker
       trading_rules ticker st).1 in
  let d :=
    rule_based_decision ticker
      (analyze_ticker St calculate_indicators_for_ticker trading_rules
         ticker st).1 ticker_news in
  (signals = [] -> d_action d = "HOLD"%string /\ d_position_size_pct d = 0)
  /\ (signals <> [] ->
      exists s,
        s ∈ signals
        /\ d_action d = sig_signal s
        /\ d_confidence d = sig_confidence s
        /\ d_signal_correlation d
           = Some {| primary_rule := sig_rule_name s;
                     rule_priority := sig_priority s;
                     rule_confidence := sig_confidence s;
                     total_signals := length signals |}
        /\ (forall s', s' ∈ signals ->
              (sig_priority s' <= sig_priority s)%Z
              /\ (sig_priority s' = sig_priority s ->
                  sig_confidence s' <= sig_confidence s))
        /\ d_position_size_pct d == sig_confidence s * 5
        /\ d_position_size_pct d <= 5).
Proof.
  cbv zeta.
  assert (Hsig := evaluate_all_rules_for_ticker_signals_of St
                    calculate_indicators_for_ticker trading_rules ticker st).
  unfold analyze_ticker.
  destruct (evaluate_all_rules_for_ticker _ _ _ _ _) as [signals st'].
  cbn [fst] in *. split.
  { intros ->. split; reflexivity. }
  intros Hne. destruct signals as [|s0 signals0]; [contradiction|].
  set (signals := s0 :: signals0) in *. cbn [fst].
  destruct (sort_descending signals) as [|s rest] eqn:Hsort.
  { apply (f_equal length) in Hsort.
    rewrite (Permutation_length (sort_descending_perm signals)) in Hsort.
    discriminate. }
  assert (Hperm := sort_descending_perm signals). rewrite Hsort in Hperm.
  assert (Hin : s ∈ signals) by (rewrite <- Hperm; apply list_elem_of_here).
  assert (Hhead := sort_descending_head _ _ _ Hsort).
  rewrite Hperm in Hhead. rewrite Forall_forall in Hhead.
  assert (Hc : sig_confidence s <= 1).
  { destruct (Hsig s Hin) as (rule & _ & stocks & Hs).
    destruct Hs as (_ & _ & _ & _ & _ & _ & _ & _ & _ & _ & Ht & ->).
    now apply triggered_confidence_le_1. }
  exists s. cbn [rule_based_decision d_action d_confidence
                   d_signal_correlation d_position_size_pct].
  split; [assumption|]. split; [reflexivity|]. split; [reflexivity|].
  split.
  { do 2 f_equal. change (length (s :: rest)) with (length (s :: rest)).
    now rewrite (Permutation_length Hperm). }
  split.
  { intros s' Hs'. specialize (Hhead s' Hs'). unfold key_le in Hhead.
    apply orb_true_iff in Hhead.
    rewrite andb_true_iff, Z.ltb_lt, Z.eqb_eq, fle_iff in Hhead.
    destruct Hhead as [H | [H H']]; (split; [lia|]); intros; [lia | assumption]. }
  assert (Hmin : Qmin (sig_confidence s * 5) 10 == sig_confidence s * 5)
    by (apply Q.min_l; lra).
  split; [exact Hmin|]. rewrite Hmin. lra.
Qed.

End FallbackDecision.

(** ** Market-breadth oscillator *)

Section BreadthOscillator.

Import TechnicalIndicators EnhancedNYMO.







Lemma ewm_step_eq (alpha w x : Q) :
  0 < alpha -> alpha <= 1 ->
  (1 * (1 - alpha) * w + alpha * x) / (1 * (1 - alpha) + alpha)
  == (1 - alpha) * w + alpha * x.
Proof. intros H0 H1. field. lra. Qed.

Lemma ewm_from_monotone (alpha : Q) (lower upper : list Q) :
  0 < alpha -> alpha <= 1 ->
  Forall2 Qle lower upper ->
  forall w w', w <= w' ->
    Forall2 Qle (ewm_from false alpha w 1 lower)
                (ewm_from false alpha w' 1 upper).
Proof.
  intros Ha0 Ha1 H. induction H as [|x y lower upper Hxy H IH];
    intros w w' Hw; cbn [ewm_from]; constructor.
  - rewrite !ewm_step_eq by assumption. nra.
  - apply IH. rewrite !ewm_step_eq by assumption. nra.
Qed.

Lemma Forall2_last_le (lower upper : list Q) (x y : Q) :
  Forall2 Qle lower upper -> last lower = Some x -> last upper = Some y ->
  x <= y.
Proof.
  intros H Hx Hy. rewrite last_lookup in Hx, Hy.
  rewrite <- (Forall2_length _ _ _ H) in Hy.
  eapply Forall2_lookup_lr; eassumption.
Qed.

(** [_calculate_ema] is monotone in the data. *)
Lemma calculate_ema_monotone (upper lower : list Z) (period : Z) :
  dominates upper lower ->
  _calculate_ema lower period <= _calculate_ema upper period.
Proof.
  intros H.
  assert (Hlen : length upper = length lower) by (eapply Forall2_length; eauto).
  assert (Hq : Forall2 Qle (map inject_Z lower) (map inject_Z upper)).
  { clear Hlen. unfold dominates in H.
    induction H as [|u l upper lower Hul H IH]; cbn [map]; constructor;
      [|exact IH].
    rewrite <- Zle_Qle. exact Hul. }
  assert (Hlast : last_or_zero lower <= last_or_zero upper).
  { unfold last_or_zero.
    destruct (last lower) as [x|] eqn:Ex, (last upper) as [y|] eqn:Ey.
    - rewrite <- Zle_Qle.
      rewrite last_lookup in Ex, Ey. rewrite Hlen in Ey.
      exact (Forall2_lookup_lr _ _ _ _ _ _ H Ey Ex).
    - apply last_None in Ey. subst upper.
      destruct lower; [discriminate Ex | discriminate Hlen].
    - apply last_None in Ex. subst lower.
      destruct upper; [discriminate Ey | discriminate Hlen].
    - lra. }
  unfold _calculate_ema, calculate_ema_body. rewrite Hlen.
  destruct (_ <? period)%Z; [exact Hlast|].
  destruct (period <? 1)%Z eqn:Ep; [exact Hlast|].
  apply Z.ltb_ge in Ep.
  assert (Ha : 0 < 2 / (inject_Z period + 1) /\ 2 / (inject_Z period + 1) <= 1).
  { assert (H1 : 1 <= inject_Z period)
      by (change 1 with (inject_Z 1); rewrite <- Zle_Qle; lia).
    split; [apply Qlt_shift_div_l; lra | apply Qle_shift_div_r; lra]. }
  destruct Ha as [Ha0 Ha1].
  assert (Hm : Forall2 Qle
                 (ewm_mean false (2 / (inject_Z period + 1))
                    (map inject_Z lower))
                 (ewm_mean false (2 / (inject_Z period + 1))
                    (map inject_Z upper))).
  { inversion Hq as [|x y l u Hxy Hrest E1 E2]; [constructor|].
    cbn [ewm_mean]. constructor; [assumption|].
    now apply ewm_from_monotone. }
  unfold iloc_neg.
  rewrite <- (Forall2_length _ _ _ Hm).
  destruct (_ <? 1)%nat; [exact Hlast|].
  destruct (ewm_mean _ _ (map inject_Z lower) !! _) as [x|] eqn:Ex.
  - destruct (Forall2_lookup_l _ _ _ _ _ Hm Ex) as (y & -> & Hxy).
    exact Hxy.
  - destruct (ewm_mean _ _ (map inject_Z upper) !! _) as [y|] eqn:Ey;
      [|exact Hlast].
    destruct (Forall2_lookup_r _ _ _ _ _ Hm Ey) as (x & Hx & _).
    rewrite Ex in Hx. discriminate.
Qed.

Lemma dominates_slice_last (m : Z) (upper lower : list Z) :
  dominates upper lower -> dominates (slice_last m upper) (slice_last m lower).
Proof.
  intros H. unfold slice_last, dominates in *.
  rewrite (Forall2_length _ _ _ H).
  destruct (0 <? m)%Z; now apply Forall2_drop.
Qed.

(** X23.  The sign of the oscillator follows the breadth: if on every recorded
    day, and on the day being added, the advancing issues were at least
    as many as the declining ones, the value is not negative; in the
    opposite case it is not positive.  This holds for every period. *)
Theorem calculate_enhanced_nymo_sign (h : History) (md : MarketData)
    (period : Z) :
  let advancing := default 0%Z (md_advancing md) in
  let declining := default 0%Z (md_declining md) in
  let r := (calculate_enhanced_nymo h (Some md) period).1 in
  (dominates (advancing_issues h) (declining_issues h) ->
   (declining <= advancing)%Z -> 0 <= r)
  /\ (dominates (declining_issues h) (advancing_issues h) ->
      (advancing <= declining)%Z -> r <= 0).
Proof.
  cbv zeta. unfold calculate_enhanced_nymo.
  destruct (_ && _); [split; intros; discriminate|].
  set (adv := advancing_issues h ++ [default 0%Z (md_advancing md)]).
  set (dec := declining_issues h ++ [default 0%Z (md_declining md)]).
  set (h' := if (period * 3 <? Z.of_nat (length adv))%Z
             then _ else _).
  assert (Hcases : (advancing_issues h' = adv /\ declining_issues h' = dec)
                   \/ (advancing_issues h' = slice_last (period * 3) adv
                       /\ declining_issues h' = slice_last (period * 3) dec)).
  { subst h'. destruct (_ <? _)%Z; cbn; auto. }
  destruct (_ <=? _)%Z; [|split; intros; discriminate]. cbn [fst].
  split; intros Hdom Hday.
  - assert (Hd : dominates (advancing_issues h') (declining_issues h')).
    { assert (Hall : dominates adv dec).
      { apply Forall2_app; [exact Hdom|]. constructor; [exact Hday|constructor]. }
      destruct Hcases as [[-> ->] | [-> ->]];
        [exact Hall | now apply dominates_slice_last]. }
    apply (calculate_ema_monotone _ _ period) in Hd.
    eapply Qle_trans; [|apply Q.le_max_r].
    apply Q.min_glb; [discriminate|].
    apply Qmult_le_0_compat; [lra | discriminate].
  - assert (Hd : dominates (declining_issues h') (advancing_issues h')).
    { assert (Hall : dominates dec adv).
      { apply Forall2_app; [exact Hdom|]. constructor; [exact Hday|constructor]. }
      destruct Hcases as [[-> ->] | [-> ->]];
        [exact Hall | now apply dominates_slice_last]. }
    apply (calculate_ema_monotone _ _ period) in Hd.
    apply Q.max_lub; [discriminate|].
    eapply Qle_trans; [apply Q.le_min_r|].
    set (x := _calculate_ema _ _ - _calculate_ema _ _).
    assert (Hx : x <= 0) by (subst x; lra).
    assert (Hs : 0 <= (- x) * (100 / 1000))
      by (apply Qmult_le_0_compat; [lra | discriminate]).
    assert (E : (- x) * (100 / 1000) == - (x * (100 / 1000))) by ring.
    rewrite E in Hs. lra.
Qed.

Lemma calculate_ema_constant (a : Z) (k : nat) (period : Z) :
  (1 <= period)%Z -> (period <= Z.of_nat k)%Z ->
  _calculate_ema (repeat a k) period == inject_Z a.
Proof.
  intros Hp Hk. unfold _calculate_ema, calculate_ema_body.
  rewrite repeat_length.
  assert (E1 : (Z.of_nat k <? period)%Z = false) by (apply Z.ltb_ge; lia).
  assert (E2 : (period <? 1)%Z = false) by (apply Z.ltb_ge; lia).
  rewrite E1, E2.
  assert (Ha : 0 < 2 / (inject_Z period + 1) /\ 2 / (inject_Z period + 1) <= 1).
  { assert (H1 : 1 <= inject_Z period)
      by (change 1 with (inject_Z 1); rewrite <- Zle_Qle; lia).
    split; [apply Qlt_shift_div_l; lra | apply Qle_shift_div_r; lra]. }
  destruct Ha as [Ha0 Ha1].
  assert (Hall : Forall (fun v => inject_Z a <= v /\ v <= inject_Z a)
                        (map inject_Z (repeat a k))).
  { rewrite Forall_map. apply Forall_forall. intros x Hx.
    apply list_elem_of_In, repeat_spec in Hx. subst x. cbn. lra. }
  assert (H := ewm_mean_range false _ _ _ _ Ha0 Ha1 Hall).
  assert (Hlen : length (ewm_mean false (2 / (inject_Z period + 1))
                           (map inject_Z (repeat a k))) = k).
  { rewrite ewm_mean_length, length_map. apply repeat_length. }
  unfold iloc_neg. rewrite Hlen.
  assert (E3 : (k <? 1)%nat = false) by (apply Nat.ltb_ge; lia).
  rewrite E3.
  destruct (ewm_mean _ _ _ !! (k - 1)%nat) as [v|] eqn:Ev.
  - rewrite Forall_lookup in H. specialize (H _ _ Ev). cbn in H. lra.
  - apply lookup_ge_None in Ev. lia.
Qed.

Lemma slice_last_repeat {A} (x : A) (m : Z) (k : nat) :
  (0 < m)%Z -> (m < Z.of_nat k)%Z ->
  slice_last m (repeat x k) = repeat x (Z.to_nat m).
Proof.
  intros H0 Hk. unfold slice_last.
  assert (E : (0 <? m)%Z = true) by now apply Z.ltb_lt.
  rewrite E, repeat_length.
  replace k with ((k - Z.to_nat m) + Z.to_nat m)%nat at 2 by lia.
  rewrite repeat_app, drop_app_length'; [reflexivity|].
  symmetry. apply repeat_length.
Qed.

(** One more day of the same counts. *)
Lemma steady_step (a d : Z) (period : Z) (k0 : nat) :
  (1 <= period)%Z -> a <> 0%Z \/ d <> 0%Z ->
  (Z.of_nat k0 <= period * 3)%Z ->
  let k := Nat.min (S k0) (Z.to_nat (period * 3)) in
  calculate_enhanced_nymo
    {| advancing_issues := repeat a k0; declining_issues := repeat d k0 |}
    (Some {| md_advancing := Some a; md_declining := Some d |}) period
  = (if (period <=? Z.of_nat k)%Z then
       Qmax (-100)
         (Qmin 100
            ((_calculate_ema (repeat a k) period
              - _calculate_ema (repeat d k) period) * (100 / 1000)))
     else 0,
     {| advancing_issues := repeat a k; declining_issues := repeat d k |}).
Proof.
  intros Hp Hnz Hk0 k. unfold calculate_enhanced_nymo.
  cbn [md_advancing md_declining default from_option id
         advancing_issues declining_issues].
  assert (E : ((a =? 0)%Z && (d =? 0)%Z) = false).
  { apply andb_false_iff. rewrite !Z.eqb_neq. exact Hnz. }
  unfold id. rewrite E.
  change (repeat a k0 ++ [a]) with (repeat a k0 ++ repeat a 1).
  change (repeat d k0 ++ [d]) with (repeat d k0 ++ repeat d 1).
  rewrite <- !repeat_app, repeat_length.
  destruct (period * 3 <? Z.of_nat (k0 + 1))%Z eqn:Elt.
  - apply Z.ltb_lt in Elt.
    rewrite !slice_last_repeat by lia.
    replace k with (Z.to_nat (period * 3)) by lia.
    cbn [advancing_issues declining_issues]. rewrite repeat_length.
    destruct (_ <=? _)%Z; reflexivity.
  - apply Z.ltb_ge in Elt.
    replace k with (k0 + 1)%nat by lia.
    cbn [advancing_issues declining_issues]. rewrite repeat_length.
    destruct (_ <=? _)%Z; reflexivity.
Qed.

(** The histories after [n] days of the same counts. *)
Lemma feed_steady (a d : Z) (period : Z) (n : nat) :
  (1 <= period)%Z -> a <> 0%Z \/ d <> 0%Z ->
  feed period init
    (repeat (Some {| md_advancing := Some a; md_declining := Some d |}) n)
  = {| advancing_issues := repeat a (Nat.min n (Z.to_nat (period * 3)));
       declining_issues := repeat d (Nat.min n (Z.to_nat (period * 3))) |}.
Proof.
  intros Hp Hnz. induction n as [|n IH]; [reflexivity|].
  unfold feed in *. cbn [repeat]. rewrite repeat_cons, foldl_app, IH.
  cbn [foldl]. rewrite steady_step by (assumption || lia).
  cbn [snd]. do 2 f_equal; lia.
Qed.

(** X24.  Fed the same counts day after day on a new object, with a period of
    at least 1, the oscillator is 0 for the first [period - 1] days and
    from then on stays at a tenth of [advancing - declining], clamped to
    [-100, 100]: the two exponential averages sit on the counts, and the
    trimming of the histories does not disturb them. *)
Theorem calculate_enhanced_nymo_steady_feed (a d : Z) (period : Z)
    (n : nat) :
  (1 <= period)%Z -> a <> 0%Z \/ d <> 0%Z ->
  let day := Some {| md_advancing := Some a; md_declining := Some d |} in
  let r :=
    (calculate_enhanced_nymo (feed period init (repeat day n)) day
       period).1 in
  ((Z.of_nat (S n) < period)%Z -> r = 0)
  /\ ((period <= Z.of_nat (S n))%Z ->
      r == Qmax (-100) (Qmin 100 (inject_Z (a - d) / 10))).
Proof.
  intros Hp Hnz day r. subst r day.
  rewrite feed_steady, steady_step by (assumption || lia).
  cbn [fst].
  set (k := Nat.min (S (Nat.min n (Z.to_nat (period * 3))))
              (Z.to_nat (period * 3))).
  split.
  - intros Hlt.
    assert (E1 : (period <=? Z.of_nat k)%Z = false)
      by (apply Z.leb_gt; lia).
    rewrite E1. reflexivity.
  - intros Hge.
    assert (E1 : (period <=? Z.of_nat k)%Z = true)
      by (apply Z.leb_le; lia).
    rewrite E1.
    rewrite !calculate_ema_constant by lia.
    assert (Es : (inject_Z a - inject_Z d) * (100 / 1000)
                 == inject_Z (a - d) / 10).
    { unfold Zminus. rewrite inject_Z_plus, inject_Z_opp. field. }
    rewrite Es. reflexivity.
Qed.

Lemma calculate_enhanced_nymo_steady_feed_witness :
  let day := Some {| md_advancing := Some 1500%Z;
                     md_declining := Some 1200%Z |} in
  let r := (calculate_enhanced_nymo (feed 19 init (repeat day 60)) day 19).1 in
  ((Z.of_nat 61 < 19)%Z -> r = 0)
  /\ ((19 <= Z.of_nat 61)%Z ->
      r == Qmax (-100) (Qmin 100 (inject_Z (1500 - 1200) / 10))).
Proof.
  apply (calculate_enhanced_nymo_steady_feed 1500 1200 19 60).
  - lia.
  - left. discriminate.
Defined.

(** X25.  [calculate_nymo_signals] always takes one of its branches (the
    reasoning is never left empty), and it treats the two sides alike:
    HOLD strictly inside (-50, 50), the buy side at -50 or below, the
    sell side at 50 or above, the strong signals at -100 and 100; the
    confidence of a value and of its opposite are the same: 0.95 from
    100, 0.90 from 70, 0.80 from 50 in absolute value, 0.50 otherwise. *)
Theorem calculate_nymo_signals_mirror (nymo_value : Q) :
  let s := calculate_nymo_signals nymo_value in
  let s' := calculate_nymo_signals (- nymo_value) in
  ns_reasoning s <> ""%string
  /\ ns_confidence s' = ns_confidence s
  /\ (ns_trading_signal s = "HOLD"%string
      <-> -50 < nymo_value /\ nymo_value < 50)
  /\ (ns_trading_signal s = "BUY"%string
      <-> -100 < nymo_value /\ nymo_value <= -50)
  /\ (ns_trading_signal s = "STRONG_BUY"%string <-> nymo_value <= -100)
  /\ (ns_trading_signal s = "SELL"%string
      <-> 50 <= nymo_value /\ nymo_value < 100)
  /\ (ns_trading_signal s = "STRONG_SELL"%string <-> 100 <= nymo_value)
  /\ (ns_trading_signal s = "STRONG_BUY"%string
      <-> ns_trading_signal s' = "STRONG_SELL"%string)
  /\ (ns_trading_signal s = "BUY"%string
      <-> ns_trading_signal s' = "SELL"%string)
  /\ (nymo_value <= -100 \/ 100 <= nymo_value -> ns_confidence s = 95 # 100)
  /\ ((-100 < nymo_value /\ nymo_value <= -70)
      \/ (70 <= nymo_value /\ nymo_value < 100) -> ns_confidence s = 9 # 10)
  /\ ((-70 < nymo_value /\ nymo_value <= -50)
      \/ (50 <= nymo_value /\ nymo_value < 70) -> ns_confidence s = 8 # 10)
  /\ (-50 < nymo_value /\ nymo_value < 50 -> ns_confidence s = 5 # 10).
Proof.
  cbv zeta. unfold calculate_nymo_signals, fge, fgt, flt.
  change (Qle_bool ?x ?y) with (fle x y).
  repeat match goal with
         | |- context [fle ?x ?y] =>
           let E := fresh "E" in
           destruct (fle x y) eqn:E;
           [apply fle_iff in E | apply fle_false_iff in E];
           try (exfalso; lra)
         end;
    cbn [negb andb ns_reasoning ns_confidence ns_trading_signal];
    repeat split; intros;
    repeat match goal with
           | H : _ /\ _ |- _ => destruct H
           | H : _ \/ _ |- _ => destruct H
           end;
    try reflexivity; try discriminate; try lra.
Qed.

End BreadthOscillator.
